(** * KDD20 hands-on tutorial notebooks: a shallow embedding

    The repository consists of three notebooks:
    - [4-large_graph/2 - Unsupervised Learning and Link Prediction.ipynb]
      (module [LinkPred]),
    - [4-large_graph/3 - Single Machine Multiple GPU Training.ipynb]
      (module [MultiGPU]),
    - [5-distributed/2-basic.ipynb] (module [DistBasic]).

    The code cells are translated to Rocq functions.  Python exceptions are
    results of type [Py.result]; random draws are relations between the
    arguments and the possible outcomes; the primitives of the graph
    framework that the cells call are collected in module [Dgl]. *)

From Stdlib Require Import ZArith QArith List Lia Bool.
From stdpp Require Import gmap strings list fin_maps.

Close Scope Q_scope.
Open Scope nat_scope.

(** ** Python values and control flow *)

Module Py.

Inductive exn :=
| TypeError
| IndexError
| KeyError
| ValueError
| ZeroDivisionError
| UnboundLocalError
| RuntimeError
| NameError
| DGLError.

Inductive result (A : Type) :=
| Ok (a : A)
| Raise (e : exn).
Arguments Ok {A} a.
Arguments Raise {A} e.

Definition bind {A B} (r : result A) (k : A -> result B) : result B :=
  match r with
  | Ok a => k a
  | Raise e => Raise e
  end.

(** [a // b] on Python integers. *)
Definition floordiv (a b : Z) : result Z :=
  if (b =? 0)%Z then Raise ZeroDivisionError else Ok (a / b)%Z.

(** How a slice bound is adjusted to [0 .. len]: a negative bound counts
    from the end, and both ends are clamped. *)
Definition slice_bound (len i : Z) : Z :=
  if (i <? 0)%Z then Z.max 0 (i + len) else Z.min i len.

(** [l[start:stop]]. *)
Definition slice {A} (l : list A) (start stop : Z) : list A :=
  let len := Z.of_nat (length l) in
  let lo := slice_bound len start in
  let hi := slice_bound len stop in
  take (Z.to_nat (hi - lo)) (drop (Z.to_nat lo) l).

(** [l[i]] for an integer [i]: negative indices count from the end. *)
Definition index {A} (l : list A) (i : Z) : result A :=
  let len := Z.of_nat (length l) in
  let j := if (i <? 0)%Z then (i + len)%Z else i in
  if (j <? 0)%Z then Raise IndexError
  else match l !! Z.to_nat j with
       | Some x => Ok x
       | None => Raise IndexError
       end.

(** A function with required positional parameters only, and its call with
    positional arguments: the call fails unless there is one argument for
    each parameter. *)
Record function (V R : Type) := {
  params : list string;
  body : list V -> result R
}.
Arguments params {V R} _.
Arguments body {V R} _ _.

Definition call {V R} (f : function V R) (args : list V) : result R :=
  if length args =? length (params f) then body f args
  else Raise TypeError.

(** [for i in range(n): body], on a state; an exception ends the loop and
    leaves the state as it was when raised. *)
Fixpoint for_each {S} (body : nat -> S -> result unit * S) (todo : list nat)
    (s : S) : result unit * S :=
  match todo with
  | [] => (Ok tt, s)
  | i :: rest =>
      match body i s with
      | (Ok _, s') => for_each body rest s'
      | (Raise e, s') => (Raise e, s')
      end
  end.

Definition for_range {S} (body : nat -> S -> result unit * S) (n : nat)
    (s : S) : result unit * S :=
  for_each body (seq 0 n) s.

End Py.

#[export] Instance result_ret : MRet Py.result := @Py.Ok.
#[export] Instance result_bind : MBind Py.result :=
  fun A B k r => Py.bind r k.

(** ** Tensors *)

(** The arithmetic on tensor entries that the notebooks rely on.  Entries are
    floating-point numbers; nothing below depends on laws of their
    arithmetic, so the operations are left as an interface. *)
Class Scalar (T : Type) := {
  zero : T;
  one : T;
  add : T -> T -> T;
  mul : T -> T -> T;
  relu1 : T -> T
}.

(** Integer entries, for running the definitions on small tensors. *)
#[export] Instance Z_scalar : Scalar Z :=
  {| zero := 0%Z; one := 1%Z; add := Z.add; mul := Z.mul; relu1 := Z.max 0 |}.

Module Torch.

(** Modelled from the spec: the library primitive [t.repeat_interleave(k)]
    on a 1-D tensor. *)
Definition repeat_interleave {A} (t : list A) (k : nat) : list A :=
  flat_map (replicate k) t.

(** Modelled from the spec: the library primitive [t[ids]]: the rows of [t]
    at the positions [ids]. *)
Fixpoint index_select {A} (t : list A) (ids : list nat) : Py.result (list A) :=
  match ids with
  | [] => Py.Ok []
  | i :: ids' =>
      match t !! i with
      | None => Py.Raise Py.IndexError
      | Some r => rs ← index_select t ids'; Py.Ok (r :: rs)
      end
  end.

(** Modelled from the spec: row assignment in the tensor library.  The
    right-hand side row [r] as stored into a row of width [n]: as it is
    when the widths agree, broadcast when it has one entry, an error
    otherwise. *)
Definition fit_row {T} (n : nat) (r : list T) : Py.result (list T) :=
  if length r =? n then Py.Ok r
  else match r with
       | [a] => Py.Ok (replicate n a)
       | _ => Py.Raise Py.RuntimeError
       end.

Fixpoint put_rows {T} (n : nat) (buf : list (list T)) (ids : list nat)
    (vals : list (list T)) : Py.result (list (list T)) :=
  match ids, vals with
  | [], [] => Py.Ok buf
  | i :: ids', r :: vals' =>
      if i <? length buf then
        r' ← fit_row n r; put_rows n (<[i := r']> buf) ids' vals'
      else Py.Raise Py.IndexError
  | _, _ => Py.Raise Py.RuntimeError
  end.

(** Modelled from the spec: the library primitive [buf[ids] = vals] for a
    2-D buffer with rows of width [n]. *)
Definition index_put {T} (n : nat) (buf : list (list T)) (ids : list nat)
    (vals : list (list T)) : Py.result (list (list T)) :=
  put_rows n buf ids vals.

(** Modelled from the spec: the library primitive [torch.zeros(rows, cols)]. *)
Definition zeros {T} `{Scalar T} (rows cols : nat) : list (list T) :=
  replicate rows (replicate cols zero).

(** Modelled from the spec: the library primitive [F.relu(x)] on a 2-D
    tensor. *)
Definition relu {T} `{Scalar T} (x : list (list T)) : list (list T) :=
  map (map relu1) x.

(** Modelled from the spec: the dot product of two rows, as [u_dot_v]
    computes it. *)
Definition dot {T} `{Scalar T} (a b : list T) : T :=
  foldr add zero (zip_with mul a b).

(** Modelled from the spec: an entry [float(base) ** expo] of a float
    tensor, kept symbolic. *)
Record FloatPow := {
  base : nat;
  expo : Q
}.

(** Modelled from the spec: whether an entry is non-zero; [float(d) ** e]
    is [0.0] exactly when [d = 0] and [e > 0]. *)
Definition nonzero (w : FloatPow) : bool :=
  negb ((base w =? 0) && (0 <? Qnum (expo w))%Z).

(** Modelled from the spec: the library primitive [torch.multinomial].
    The possible results of [weights.multinomial(num_samples,
    replacement=True)]: [num_samples] indices, each of an entry with
    non-zero weight.  There is no result, because the call raises, when
    [num_samples] is zero. *)
Definition multinomial (weights : list FloatPow) (num_samples : nat)
    (out : list nat) : Prop :=
  0 < num_samples /\
  length out = num_samples /\
  Forall (fun v => exists w, weights !! v = Some w /\ nonzero w = true) out.

End Torch.

(** ** Training runs *)

Module Run.

(** What a training loop does to the outside world: lines printed with the
    accuracies of an epoch, and state dicts written by [torch.save]. *)
Inductive event (M : Type) :=
| Printed (epoch : nat) (valid_acc : Q) (test_acc : option Q)
| Saved (path : string) (state_dict : M).
Arguments Printed {M} _ _ _.
Arguments Saved {M} _ _.

(** The variables of a training loop and the events so far, the most recent
    first. *)
Record session (M : Type) := {
  model : M;
  best_accuracy : Q;
  trace : list (event M)
}.
Arguments model {M} _.
Arguments best_accuracy {M} _.
Arguments trace {M} _.

(** The content of the file [path]: what was last saved to it. *)
Fixpoint checkpoint {M} (path : string) (tr : list (event M)) : option M :=
  match tr with
  | [] => None
  | Saved p m :: tr' => if decide (p = path) then Some m else checkpoint path tr'
  | Printed _ _ _ :: tr' => checkpoint path tr'
  end.

(** What the training loops promise about the checkpoint, for a loop given
    by its state [rounds n] after [n] rounds.  Whenever [n] rounds have been
    completed, in session [s]:
    - [best_accuracy] does not decrease in later rounds;
    - round [n], if it completes, adds printed lines of epoch [n] and saves
      of the current state dict to [model.pt] only, and it saves exactly when
      it has printed a validation accuracy above [best_accuracy];
    - a checkpoint in [model.pt] is the state dict of the model at the end of
      an earlier round, whose printed validation accuracy is the greatest of
      all printed so far. *)
Definition keeps_best {M} (rounds : nat -> Py.result unit * session M) : Prop :=
  forall n s, rounds n = (Py.Ok tt, s) ->
    (forall n' s', n <= n' -> rounds n' = (Py.Ok tt, s') ->
       (best_accuracy s <= best_accuracy s')%Q) /\
    (forall s', rounds (S n) = (Py.Ok tt, s') ->
       exists new,
         trace s' = new ++ trace s /\
         (forall p m, Saved p m ∈ new -> p = "model.pt" /\ m = model s') /\
         (forall e a t, Printed e a t ∈ new -> e = n) /\
         ((exists m, Saved "model.pt" m ∈ new) <->
          (exists a t, Printed n a t ∈ new /\ (best_accuracy s < a)%Q))) /\
    (forall m, checkpoint "model.pt" (trace s) = Some m ->
       exists e a t s_e,
         e < n /\ rounds (S e) = (Py.Ok tt, s_e) /\ m = model s_e /\
         Printed e a t ∈ trace s /\
         forall e' a' t', Printed e' a' t' ∈ trace s -> (a' <= a)%Q).

End Run.

Module Sklearn.

(** Modelled from the spec: the library primitive
    [sklearn.metrics.accuracy_score(y_true, y_pred)]: the fraction of
    positions where the prediction is the label.  The notebooks call it on
    non-empty arrays only (an empty validation set raises before the call is
    reached). *)
Definition accuracy_score (y_true y_pred : list Z) : Py.result Q :=
  if negb (length y_true =? length y_pred) then Py.Raise Py.ValueError
  else match length y_true with
       | O => Py.Raise Py.ValueError
       | S n =>
           let hits := length (filter (fun p => p.1 = p.2) (zip y_true y_pred)) in
           Py.Ok (Qmake (Z.of_nat hits) (Pos.of_succ_nat n))
       end.

End Sklearn.

Module Np.

(** Modelled from the spec: the library primitive [np.concatenate(arrays)]. *)
Definition concatenate {A} (arrays : list (list A)) : Py.result (list A) :=
  match arrays with
  | [] => Py.Raise Py.ValueError
  | _ => Py.Ok (concat arrays)
  end.

End Np.

(** ** The graph framework, as far as the notebooks use it *)

Module Dgl.

(** Modelled from the spec: the graph object of the framework.  A graph
    on the nodes [0 .. num_nodes - 1]; the edge with ID [i] is the
    [i]-th entry of [edges], from its first to its second component. *)
Record Graph := {
  num_nodes : nat;
  edges : list (nat * nat)
}.

Definition number_of_nodes (g : Graph) : nat := num_nodes g.
Definition number_of_edges (g : Graph) : nat := length (edges g).

(** Modelled from the spec: the node data loader of the framework, as
    configured by its constructor. *)
Record NodeDataLoader := {
  dl_graph : Graph;
  dl_nids : list nat;
  dl_fanouts : list (option Z);
  dl_batch_size : Z;
  dl_shuffle : bool;
  dl_drop_last : bool;
  dl_num_workers : nat
}.

(** Consecutive chunks of [b] elements; the last one may be shorter. *)
Fixpoint chunks_aux {A} (fuel b : nat) (l : list A) : list (list A) :=
  match fuel with
  | O => []
  | S fuel' =>
      match l with
      | [] => []
      | _ => take b l :: chunks_aux fuel' b (drop b l)
      end
  end.

Definition chunks {A} (b : nat) (l : list A) : list (list A) :=
  chunks_aux (length l) b l.

(** Modelled from the spec: batching in the data loader.  The batches of
    seed nodes of a pass that visits the nodes in the given
    order: chunks of [batch_size], an incomplete last chunk being dropped
    under [drop_last]. *)
Definition batches_of (dl : NodeDataLoader) (order : list nat)
    : list (list nat) :=
  let b := Z.to_nat (dl_batch_size dl) in
  let cs := chunks b order in
  if dl_drop_last dl then filter (fun c => length c = b) cs else cs.

(** The batches of seed nodes of one pass over the loader: the node IDs are
    visited in order, or in some shuffled order. *)
Definition seed_batches (dl : NodeDataLoader) (batches : list (list nat)) : Prop :=
  (0 < dl_batch_size dl)%Z /\
  exists order,
    (if dl_shuffle dl then order ≡ₚ dl_nids dl else order = dl_nids dl) /\
    batches = batches_of dl order.

(** Modelled from the spec: the library primitive
    [NodeDataLoader(graph, nids, sampler, batch_size=..., shuffle=...,
    drop_last=..., num_workers=...)].  The constructor raises [ValueError]
    when it is to shuffle an empty list of node IDs (its random sampler
    takes no empty data set), and when the batch size is not positive. *)
Definition new_NodeDataLoader (graph : Graph) (nids : list nat)
    (fanouts : list (option Z)) (batch_size : Z) (shuffle drop_last : bool)
    (num_workers : nat) : Py.result NodeDataLoader :=
  if shuffle && (length nids =? 0) then Py.Raise Py.ValueError
  else if (batch_size <=? 0)%Z then Py.Raise Py.ValueError
  else Py.Ok {| dl_graph := graph;
                dl_nids := nids;
                dl_fanouts := fanouts;
                dl_batch_size := batch_size;
                dl_shuffle := shuffle;
                dl_drop_last := drop_last;
                dl_num_workers := num_workers |}.

(** The seed batches of a loader that does not shuffle. *)
Definition batches_in_order (dl : NodeDataLoader) : list (list nat) :=
  batches_of dl (dl_nids dl).

(** Every edge joins two nodes of the graph. *)
Definition graph_wf (g : Graph) : Prop :=
  Forall (fun e => e.1 < num_nodes g /\ e.2 < num_nodes g) (edges g).

(** Modelled from the spec: the library primitive [g.find_edges(eids)]. *)
Fixpoint find_edges (g : Graph) (eids : list nat)
    : Py.result (list nat * list nat) :=
  match eids with
  | [] => Py.Ok ([], [])
  | e :: eids' =>
      match edges g !! e with
      | None => Py.Raise Py.DGLError
      | Some (u, v) =>
          r ← find_edges g eids'; Py.Ok (u :: r.1, v :: r.2)
      end
  end.

Definition in_degree (g : Graph) (v : nat) : nat :=
  length (filter (fun e => e.2 = v) (edges g)).

(** Modelled from the spec: the library primitive [g.in_degrees()]. *)
Definition in_degrees (g : Graph) : list nat :=
  map (in_degree g) (seq 0 (num_nodes g)).

(** Modelled from the spec: the library primitive [g.has_edges_between(u, v)]. *)
Definition has_edge (g : Graph) (u v : nat) : bool :=
  bool_decide ((u, v) ∈ edges g).

(** Modelled from the spec: the blocks of the framework.  The structure a
    layer computes on: [num_src] input nodes, of which the
    first [num_dst] are also the output nodes, and edges from input to
    output positions.  A whole graph is the case where every node is both. *)
Record Block := {
  num_src : nat;
  num_dst : nat;
  bedges : list (nat * nat)
}.

Definition as_block (g : Graph) : Block :=
  {| num_src := num_nodes g; num_dst := num_nodes g; bedges := edges g |}.

(** Position of the first occurrence of [x] in [l]. *)
Fixpoint index_of (x : nat) (l : list nat) : nat :=
  match l with
  | [] => 0
  | y :: l' => if decide (x = y) then 0 else S (index_of x l')
  end.

(** Modelled from the spec: [dgl.sampling.sample_neighbors(g, seeds, fanout)],
    a primitive of the framework that the repository calls and does not
    contain.  Neighbor sampling selects a bounded-fanout subset of a node's
    neighbors: a possible frontier is a graph on the nodes of [g] whose edges
    are edges of [g] into seed nodes, at most [fanout] of them into each
    seed. *)
Definition sample_neighbors (g : Graph) (seeds : list nat) (fanout : Z)
    (frontier : Graph) : Prop :=
  num_nodes frontier = num_nodes g /\
  edges frontier `sublist_of` edges g /\
  Forall (fun e => e.2 ∈ seeds) (edges frontier) /\
  Forall (fun v => (Z.of_nat (in_degree frontier v) <= fanout)%Z) seeds.

(** Modelled from the spec: the library primitive [dgl.in_subgraph(g, seeds)]:
    the edges of [g] into a seed node. *)
Definition in_subgraph (g : Graph) (seeds : list nat) : list (nat * nat) :=
  filter (fun e => e.2 ∈ seeds) (edges g).

(** Modelled from the spec: the library primitive [dgl.to_block].  The block
    of a frontier for the seed nodes: the input nodes are the
    seeds followed by the other sources of frontier edges, and the edges are
    renumbered to positions. *)
Definition to_block (frontier : list (nat * nat)) (seeds : list nat)
    : list nat * Block :=
  let others := remove_dups (filter (fun u => u ∉ seeds) (frontier.*1)) in
  let input_nodes := seeds ++ others in
  (input_nodes,
   {| num_src := length input_nodes;
      num_dst := length seeds;
      bedges := map (fun e => (index_of e.1 input_nodes, index_of e.2 seeds))
                    frontier |}).

(** Modelled from the spec: iteration of a [NodeDataLoader].  One minibatch
    [(input_nodes, output_nodes, blocks)] of a loader whose
    sampler is [MultiLayerNeighborSampler([None])]: one block with all edges
    into the seeds. *)
Definition full_neighbor_batch (g : Graph) (seeds : list nat)
    : list nat * list nat * list Block :=
  let '(input_nodes, block) := to_block (in_subgraph g seeds) seeds in
  (input_nodes, seeds, [block]).

(** Modelled from the spec: the layers of the framework.  Graph
    convolution layers ([dgl.nn.SAGEConv] and the like) with their
    parameters fixed: the output row of a node is a function of its own input
    row and of the input rows at the sources of its in-edges, in edge
    order. *)
Record Layer (T : Type) := {
  aggregate : list T -> list (list T) -> list T
}.
Arguments aggregate {T} _ _ _.

(** Modelled from the spec: the library primitive [layer(block, x)]. *)
Definition apply_layer {T} (layer : Layer T) (block : Block)
    (x : list (list T)) : Py.result (list (list T)) :=
  if length x =? num_src block then
    Py.Ok (map (fun j =>
                  aggregate layer (x !!! j)
                    (map (fun e => x !!! e.1)
                         (filter (fun e => e.2 = j) (bedges block))))
               (seq 0 (num_dst block)))
  else Py.Raise Py.DGLError.

(** Modelled from the spec: a graph of the framework with its node and edge
    feature frames. *)
Record FeatGraph (T : Type) := {
  structure : Graph;
  ndata : gmap string (list (list T));
  edata : gmap string (list (list T))
}.
Arguments structure {T} _.
Arguments ndata {T} _.
Arguments edata {T} _.

(** Modelled from the spec: the library primitive [g.ndata[key] = x]. *)
Definition set_ndata {T} (g : FeatGraph T) (key : string)
    (x : list (list T)) : Py.result (FeatGraph T) :=
  if length x =? num_nodes (structure g) then
    Py.Ok {| structure := structure g;
             ndata := <[key := x]> (ndata g);
             edata := edata g |}
  else Py.Raise Py.DGLError.

(** Modelled from the spec: the library primitive
    [g.apply_edges(dgl.function.u_dot_v(lhs, rhs, out))]: the edge feature
    [out] becomes, for each edge, the dot product of the [lhs] row of its
    source and the [rhs] row of its destination, as a row of one entry. *)
Definition apply_edges_u_dot_v {T} `{Scalar T} (g : FeatGraph T)
    (lhs rhs out : string) : Py.result (FeatGraph T) :=
  match ndata g !! lhs, ndata g !! rhs with
  | Some xl, Some xr =>
      let score :=
        map (fun e => [Torch.dot (xl !!! e.1) (xr !!! e.2)])
            (edges (structure g)) in
      Py.Ok {| structure := structure g;
               ndata := ndata g;
               edata := <[out := score]> (edata g) |}
  | _, _ => Py.Raise Py.KeyError
  end.

(** Modelled from the spec: the library primitive
    [with g.local_scope(): body].  The body works on the graph and leaves it
    in some state; when the body returns, the feature frames are restored on
    exit.  The context manager has no handler for exceptions: when the body
    raises, the graph stays as the body left it. *)
Definition local_scope {T A} (g : FeatGraph T)
    (body : FeatGraph T -> Py.result A * FeatGraph T)
    : Py.result A * FeatGraph T :=
  match body g with
  | (Py.Ok a, _) => (Py.Ok a, g)
  | (Py.Raise e, g') => (Py.Raise e, g')
  end.

End Dgl.

(** ** Notebook: unsupervised learning and link prediction *)

Module LinkPred.

(** *** class NegativeSampler *)

Record NegativeSampler := {
  k : nat;
  weights : list Torch.FloatPow
}.

(** [NegativeSampler.__init__(self, g, k)]. *)
Definition NegativeSampler_init (g : Dgl.Graph) (k : nat) : NegativeSampler :=
  {| k := k;
     weights := map (fun d => {| Torch.base := d; Torch.expo := 3 # 4 |})
                    (Dgl.in_degrees g) |}.

(** [NegativeSampler.__call__(self, g, eids)]: the pairs [(src, dst)] that a
    call can return. *)
Definition NegativeSampler_call (self : NegativeSampler) (g : Dgl.Graph)
    (eids : list nat) (ret : list nat * list nat) : Prop :=
  exists src0 dst0,
    Dgl.find_edges g eids = Py.Ok (src0, dst0) /\
    let src := Torch.repeat_interleave src0 (k self) in
    Torch.multinomial (weights self) (length src) ret.2 /\
    ret.1 = src.

(** *** class SAGE *)

Record SAGE (T : Type) := {
  n_layers : Z;
  n_hidden : nat;
  layers : list (Dgl.Layer T)
}.
Arguments n_layers {T} _.
Arguments n_hidden {T} _.
Arguments layers {T} _.

Section Construct.
Context {T : Type}.

(** [dglnn.SAGEConv(in_feats, out_feats, 'mean')] for the layer at the given
    position, with the parameters it is initialized to. *)
Variable SAGEConv : nat -> nat -> nat -> Dgl.Layer T.

(** [SAGE.__init__(self, in_feats, n_hidden, n_layers)]. *)
Definition SAGE_init (in_feats n_hidden : nat) (n_layers : Z) : SAGE T :=
  {| n_layers := n_layers;
     n_hidden := n_hidden;
     layers :=
       SAGEConv 0 in_feats n_hidden
       :: map (fun i => SAGEConv i n_hidden n_hidden)
              (seq 1 (Z.to_nat (n_layers - 1))) |}.

End Construct.

Section Model.
Context {T : Type} `{Scalar T}.

(** The body of the loop shared by [SAGE.forward] and [inference]. *)
Definition layer_step (n_layers : Z) (l : nat) (layer : Dgl.Layer T)
    (block : Dgl.Block) (x : list (list T)) : Py.result (list (list T)) :=
  x ← Dgl.apply_layer layer block x;
  Py.Ok (if bool_decide (Z.of_nat l ≠ (n_layers - 1)%Z) then Torch.relu x
         else x).

Fixpoint forward_loop (n_layers : Z) (l : nat)
    (pairs : list (Dgl.Layer T * Dgl.Block)) (x : list (list T))
    : Py.result (list (list T)) :=
  match pairs with
  | [] => Py.Ok x
  | (layer, block) :: rest =>
      x ← layer_step n_layers l layer block x;
      forward_loop n_layers (S l) rest x
  end.

(** [SAGE.forward(self, blocks, x)]. *)
Definition forward (self : SAGE T) (blocks : list Dgl.Block)
    (x : list (list T)) : Py.result (list (list T)) :=
  forward_loop (n_layers self) 0 (zip (layers self) blocks) x.

(** The row that the [l]-th layer, applied to the whole graph with input
    [x], computes for node [v]. *)
Definition whole_graph_row (n_layers : Z) (l : nat) (layer : Dgl.Layer T)
    (g : Dgl.Graph) (x : list (list T)) (v : nat) : list T :=
  let r := Dgl.aggregate layer (x !!! v)
             (map (fun e => x !!! e.1)
                  (filter (fun e => e.2 = v) (Dgl.edges g))) in
  if bool_decide (Z.of_nat l ≠ (n_layers - 1)%Z) then map relu1 r else r.

(** The inner loop of [inference] over the minibatches of the loader. *)
Fixpoint inference_batches (model : SAGE T) (l : nat) (layer : Dgl.Layer T)
    (input_features : list (list T))
    (batches : list (list nat * list nat * list Dgl.Block))
    (output_features : list (list T)) : Py.result (list (list T)) :=
  match batches with
  | [] => Py.Ok output_features
  | (input_nodes, output_nodes, blocks) :: rest =>
      block ← Py.index blocks 0;
      x ← Torch.index_select input_features input_nodes;
      x ← layer_step (n_layers model) l layer block x;
      output_features ←
        Torch.index_put (n_hidden model) output_features output_nodes x;
      inference_batches model l layer input_features rest output_features
  end.

(** The outer loop of [inference] over the layers; [output_features] is
    bound once the loop body has run. *)
Fixpoint inference_layers (model : SAGE T) (graph : Dgl.Graph)
    (batches : list (list nat * list nat * list Dgl.Block))
    (l : nat) (todo : list (Dgl.Layer T)) (input_features : list (list T))
    (output_features : option (list (list T)))
    : Py.result (list (list T)) :=
  match todo with
  | [] =>
      match output_features with
      | Some out => Py.Ok out
      | None => Py.Raise Py.UnboundLocalError
      end
  | layer :: rest =>
      let output_features :=
        Torch.zeros (Dgl.number_of_nodes graph) (n_hidden model) in
      output_features ←
        inference_batches model l layer input_features batches output_features;
      inference_layers model graph batches (S l) rest output_features
        (Some output_features)
  end.

(** [inference(model, graph, input_features, batch_size)]. *)
Definition inference (model : SAGE T) (graph : Dgl.Graph)
    (input_features : list (list T)) (batch_size : Z)
    : Py.result (list (list T)) :=
  let nodes := seq 0 (Dgl.number_of_nodes graph) in
  dataloader ← Dgl.new_NodeDataLoader graph nodes [None] batch_size false false 0;
  let batches := map (Dgl.full_neighbor_batch graph)
                     (Dgl.batches_in_order dataloader) in
  inference_layers model graph batches 0 (layers model) input_features None.

(** *** class ScorePredictor *)

(** [ScorePredictor.forward(self, subgraph, x)], with the subgraph as it is
    left when the call is over. *)
Definition ScorePredictor_forward (subgraph : Dgl.FeatGraph T)
    (x : list (list T)) : Py.result (list (list T)) * Dgl.FeatGraph T :=
  Dgl.local_scope subgraph (fun g =>
    match Dgl.set_ndata g "x" x with
    | Py.Raise e => (Py.Raise e, g)
    | Py.Ok g =>
        match Dgl.apply_edges_u_dot_v g "x" "x" "score" with
        | Py.Raise e => (Py.Raise e, g)
        | Py.Ok g =>
            match Dgl.edata g !! "score" with
            | Some score => (Py.Ok score, g)
            | None => (Py.Raise Py.KeyError, g)
            end
        end
    end).

End Model.

(** *** evaluate and the training loop *)

Section Training.
Context {T : Type} `{Scalar T}.

(** The effect of the minibatch loop of one epoch (sampling, forward and
    backward passes, optimizer steps) on the parameters of the model. *)
Variable train_epoch : nat -> SAGE T -> SAGE T.

(** [LogisticRegression(...).fit(x, y)] followed by [predict(x')]. *)
Variable fit_predict : list (list T) -> list Z -> list (list T) -> list Z.

(** The arrays that are passed to [evaluate]. *)
Inductive ndarray :=
| Array2 (a : list (list T))
| Array1 (a : list Z)
| ArrayIds (a : list nat).

Definition evaluate_body (emb : list (list T)) (label : list Z)
    (train_nids valid_nids test_nids : list nat) : Py.result (Q * Q) :=
  x_train ← Torch.index_select emb train_nids;
  y_train ← Torch.index_select label train_nids;
  x_valid ← Torch.index_select emb valid_nids;
  let valid_pred := fit_predict x_train y_train x_valid in
  x_test ← Torch.index_select emb test_nids;
  let test_pred := fit_predict x_train y_train x_test in
  y_valid ← Torch.index_select label valid_nids;
  valid_acc ← Sklearn.accuracy_score y_valid valid_pred;
  y_test ← Torch.index_select label test_nids;
  test_acc ← Sklearn.accuracy_score y_test test_pred;
  Py.Ok (valid_acc, test_acc).

(** [def evaluate(emb, label, train_nids, valid_nids, test_nids)]. *)
Definition evaluate : Py.function ndarray (Q * Q) :=
  {| Py.params := ["emb"; "label"; "train_nids"; "valid_nids"; "test_nids"];
     Py.body := fun args =>
       match args with
       | [Array2 emb; Array1 label; ArrayIds train_nids; ArrayIds valid_nids;
          ArrayIds test_nids] =>
           evaluate_body emb label train_nids valid_nids test_nids
       | _ => Py.Raise Py.TypeError
       end |}.

(** One round of [for epoch in range(10)] in the training cell. *)
Definition epoch_body (graph : Dgl.Graph) (node_features : list (list T))
    (node_labels : list Z) (epoch : nat) (s : Run.session (SAGE T))
    : Py.result unit * Run.session (SAGE T) :=
  let s := {| Run.model := train_epoch epoch (Run.model s);
              Run.best_accuracy := Run.best_accuracy s;
              Run.trace := Run.trace s |} in
  match inference (Run.model s) graph node_features 16384 with
  | Py.Raise e => (Py.Raise e, s)
  | Py.Ok emb =>
      match Py.call evaluate [Array2 emb; Array1 node_labels] with
      | Py.Raise e => (Py.Raise e, s)
      | Py.Ok (valid_acc, test_acc) =>
          let s := {| Run.model := Run.model s;
                      Run.best_accuracy := Run.best_accuracy s;
                      Run.trace := Run.Printed epoch valid_acc (Some test_acc)
                                   :: Run.trace s |} in
          if Qlt_le_dec (Run.best_accuracy s) valid_acc then
            (Py.Ok tt,
             {| Run.model := Run.model s;
                Run.best_accuracy := valid_acc;
                Run.trace := Run.Saved "model.pt" (Run.model s) :: Run.trace s |})
          else (Py.Ok tt, s)
      end
  end.

(** The session at the start of the training cell. *)
Definition start (model : SAGE T) : Run.session (SAGE T) :=
  {| Run.model := model; Run.best_accuracy := 0; Run.trace := [] |}.

(** The training cell, and its first [n] rounds. *)
Definition training_rounds (graph : Dgl.Graph) (node_features : list (list T))
    (node_labels : list Z) (model : SAGE T) (n : nat)
    : Py.result unit * Run.session (SAGE T) :=
  Py.for_range (epoch_body graph node_features node_labels) n (start model).

Definition training_loop (graph : Dgl.Graph) (node_features : list (list T))
    (node_labels : list Z) (model : SAGE T)
    : Py.result unit * Run.session (SAGE T) :=
  training_rounds graph node_features node_labels model 10.

End Training.

(** *** The forward part of a training step *)

Section Minibatch.
Context {T : Type} `{Scalar T}.

(** The scores and labels of one minibatch in the training loop:
    [outputs = model(blocks, inputs)],
    [pos_score = predictor(pos_graph, outputs)],
    [neg_score = predictor(neg_graph, outputs)],
    [score = torch.cat([pos_score, neg_score])] and
    [label = torch.cat([torch.ones_like(pos_score),
                        torch.zeros_like(neg_score)])]. *)
Definition minibatch_scores (model : SAGE T) (blocks : list Dgl.Block)
    (pos_graph neg_graph : Dgl.FeatGraph T) (inputs : list (list T))
    : Py.result (list (list T) * list (list T)) :=
  outputs ← forward model blocks inputs;
  pos_score ← (ScorePredictor_forward pos_graph outputs).1;
  neg_score ← (ScorePredictor_forward neg_graph outputs).1;
  let score := pos_score ++ neg_score in
  let label := map (map (fun _ => one)) pos_score
               ++ map (map (fun _ => zero)) neg_score in
  Py.Ok (score, label).

End Minibatch.

End LinkPred.

(** ** Notebook: single machine, multiple GPU training *)

Module MultiGPU.

(** [create_dataloader(rank, world_size, graph, nids)]. *)
Definition create_dataloader (rank world_size : Z) (graph : Dgl.Graph)
    (nids : list nat) : Py.result Dgl.NodeDataLoader :=
  partition_size ← Py.floordiv (Z.of_nat (length nids)) world_size;
  let partition_offset := (partition_size * rank)%Z in
  let nids := Py.slice nids partition_offset (partition_offset + partition_size) in
  Dgl.new_NodeDataLoader graph nids [Some 4%Z; Some 4%Z; Some 4%Z] 1024
    true false 0.

(** The slice [nids[partition_offset:partition_offset + partition_size]]
    that [create_dataloader] takes for a rank, and the loader it configures
    on a list of node IDs. *)
Definition rank_slice (rank world_size : Z) (nids : list nat) : list nat :=
  let partition_size := (Z.of_nat (length nids) / world_size)%Z in
  Py.slice nids (partition_size * rank)
    (partition_size * rank + partition_size).

Definition rank_loader (graph : Dgl.Graph) (nids : list nat)
    : Dgl.NodeDataLoader :=
  {| Dgl.dl_graph := graph;
     Dgl.dl_nids := nids;
     Dgl.dl_fanouts := [Some 4%Z; Some 4%Z; Some 4%Z];
     Dgl.dl_batch_size := 1024;
     Dgl.dl_shuffle := true;
     Dgl.dl_drop_last := false;
     Dgl.dl_num_workers := 0 |}.

(** *** class MultiLayerNeighborSampler *)

Record MultiLayerNeighborSampler := {
  num_layers : nat;
  return_eids : bool;
  fanouts : list Z
}.

(** [MultiLayerNeighborSampler.__init__(self, fanouts)]. *)
Definition MultiLayerNeighborSampler_init (fanouts : list Z)
    : MultiLayerNeighborSampler :=
  {| num_layers := length fanouts; return_eids := false; fanouts := fanouts |}.

(** [MultiLayerNeighborSampler.sample_frontier(self, block_id, g,
    seed_nodes)]: the frontiers that a call can return. *)
Definition sample_frontier (self : MultiLayerNeighborSampler) (block_id : Z)
    (g : Dgl.Graph) (seed_nodes : list nat) (frontier : Dgl.Graph) : Prop :=
  exists fanout,
    Py.index (fanouts self) block_id = Py.Ok fanout /\
    Dgl.sample_neighbors g seed_nodes fanout frontier.

(** *** train *)

Section Train.
Context {M : Type}.

(** The effect of the minibatch loop of one epoch, on the worker of the
    given rank, on the parameters of the model. *)
Variable train_epoch : Z -> nat -> M -> M.

(** The order in which the validation loader visits its nodes in an
    epoch. *)
Variable shuffle : nat -> list nat -> list nat.

(** [model.module(blocks, inputs).argmax(1)] for the minibatch of the given
    output nodes in an epoch. *)
Variable predict : nat -> M -> list nat -> list Z.

(** The loop over [valid_dataloader]: the lists [labels] and
    [predictions], one array per minibatch. *)
Fixpoint validation_batches (node_labels : list Z) (epoch : nat) (model : M)
    (batches : list (list nat)) : Py.result (list (list Z) * list (list Z)) :=
  match batches with
  | [] => Py.Ok ([], [])
  | output_nodes :: rest =>
      batch_labels ← Torch.index_select node_labels output_nodes;
      r ← validation_batches node_labels epoch model rest;
      Py.Ok (batch_labels :: r.1, predict epoch model output_nodes :: r.2)
  end.

(** The accuracy that the worker of rank 0 computes after an epoch. *)
Definition validation_accuracy (node_labels : list Z)
    (valid_dataloader : Dgl.NodeDataLoader) (epoch : nat) (model : M)
    : Py.result Q :=
  let batches := Dgl.batches_of valid_dataloader
                   (shuffle epoch (Dgl.dl_nids valid_dataloader)) in
  r ← validation_batches node_labels epoch model batches;
  predictions ← Np.concatenate r.2;
  labels ← Np.concatenate r.1;
  Sklearn.accuracy_score labels predictions.

(** One round of [for epoch in range(10)] in [train]. *)
Definition epoch_body (rank : Z) (node_labels : list Z)
    (valid_dataloader : Dgl.NodeDataLoader) (epoch : nat)
    (s : Run.session M) : Py.result unit * Run.session M :=
  let s := {| Run.model := train_epoch rank epoch (Run.model s);
              Run.best_accuracy := Run.best_accuracy s;
              Run.trace := Run.trace s |} in
  if (rank =? 0)%Z then
    match validation_accuracy node_labels valid_dataloader epoch (Run.model s) with
    | Py.Raise e => (Py.Raise e, s)
    | Py.Ok accuracy =>
        let s := {| Run.model := Run.model s;
                    Run.best_accuracy := Run.best_accuracy s;
                    Run.trace := Run.Printed epoch accuracy None :: Run.trace s |} in
        if Qlt_le_dec (Run.best_accuracy s) accuracy then
          (Py.Ok tt,
           {| Run.model := Run.model s;
              Run.best_accuracy := accuracy;
              Run.trace := Run.Saved "model.pt" (Run.model s) :: Run.trace s |})
        else (Py.Ok tt, s)
    end
  else (Py.Ok tt, s).

(** The session when the loop of [train] starts. *)
Definition start (model : M) : Run.session M :=
  {| Run.model := model; Run.best_accuracy := 0; Run.trace := [] |}.

(** [train(rank, world_size, data)] up to the end of round [n] of its loop;
    [model] is the model that [init_model] returns.  The two loaders are
    made first: when one of the constructors raises, no round is run. *)
Definition train_rounds (rank world_size : Z) (graph : Dgl.Graph)
    (node_labels : list Z) (train_nids valid_nids : list nat) (model : M)
    (n : nat) : Py.result unit * Run.session M :=
  match create_dataloader rank world_size graph train_nids with
  | Py.Raise e => (Py.Raise e, start model)
  | Py.Ok train_dataloader =>
      match create_dataloader 0 1 graph valid_nids with
      | Py.Raise e => (Py.Raise e, start model)
      | Py.Ok valid_dataloader =>
          Py.for_range (epoch_body rank node_labels valid_dataloader) n
            (start model)
      end
  end.

Definition train (rank world_size : Z) (graph : Dgl.Graph)
    (node_labels : list Z) (train_nids valid_nids : list nat) (model : M)
    : Py.result unit * Run.session M :=
  train_rounds rank world_size graph node_labels train_nids valid_nids model 10.

End Train.

End MultiGPU.

(** ** The distributed data structures of the framework *)

Module Dist.

Inductive dtype := float32 | float64 | int64 | bool8.

(** Modelled from the spec: a tensor of the framework: its shape, its
    element type and its entries in row-major
    order. *)
Record Tensor (T : Type) := {
  shape : list nat;
  dtype_of : dtype;
  data : list T
}.
Arguments shape {T} _.
Arguments dtype_of {T} _.
Arguments data {T} _.

Definition numel (shape : list nat) : nat := foldr Nat.mul 1 shape.

(** Modelled from the spec: the library primitive [t[start:stop]] on a
    distributed tensor: the rows [start], ..., [stop - 1] are pulled and
    copied to the local process.  The bounds are not adjusted to the number
    of rows: asking for a row that the tensor does not have is an
    [IndexError]. *)
Definition slice {T} (t : Tensor T) (start stop : Z) : Py.result (Tensor T) :=
  match shape t with
  | [] => Py.Raise Py.IndexError
  | n :: rest =>
      if ((start <? stop) && ((start <? 0) || (Z.of_nat n <? stop)))%Z
      then Py.Raise Py.IndexError
      else
        let rows := Z.to_nat (stop - start) in
        let width := numel rest in
        Py.Ok {| shape := rows :: rest;
                 dtype_of := dtype_of t;
                 data := take (rows * width)
                              (drop (Z.to_nat start * width) (data t)) |}
  end.

Section Structures.
Context {T : Type} `{Scalar T}.

(** The state of the random number generator. *)
Context {G : Type}.

(** Initialization functions: from a shape and an element type to the
    entries of a tensor of that shape, drawing on the generator. *)
Definition init_function : Type := list nat -> dtype -> G -> list T * G.

(** Modelled from the spec: [dgl.distributed.DistTensor(shape, dtype,
    init_func=None)], the distributed-tensor constructor of the framework,
    which the repository calls and does not contain.  It takes a shape, a
    dtype and an init function; by default the created tensor is
    initialized to 0, and an initialization function customizes the
    initialization. *)
Definition DistTensor (shape : list nat) (dt : dtype)
    (init_func : option init_function) (rng : G) : Tensor T * G :=
  match init_func with
  | None =>
      ({| shape := shape; dtype_of := dt;
          data := replicate (numel shape) zero |}, rng)
  | Some f =>
      let '(d, rng') := f shape dt rng in
      ({| shape := shape; dtype_of := dt; data := d |}, rng')
  end.

(** Modelled from the spec: the distributed graph of the framework: its
    size and its node and edge data, which are
    distributed tensors. *)
Record DistGraph := {
  dg_num_nodes : nat;
  dg_num_edges : nat;
  dg_ndata : gmap string (Tensor T);
  dg_edata : gmap string (Tensor T)
}.

(** Modelled from the spec: [dgl.distributed.DistEmbedding], the
    distributed embedding of the framework, which the repository calls and
    does not contain: a lookup table of trainable vectors updated via sparse
    gradient steps.  [recorded] holds, for each lookup made with gradient
    recording since the last optimizer step, the indices looked up and, once
    [backward] has run, the gradient of the loss in the rows returned. *)
Record DistEmbedding := {
  num_embeddings : nat;
  embedding_dim : nat;
  table : list (list T);
  recorded : list (list nat * option (list (list T)))
}.

(** Modelled from the spec: the constructor [DistEmbedding(num_embeddings,
    embedding_dim, init_func=...)]; the table holds what the init function
    produces for the shape [(num_embeddings, embedding_dim)]. *)
Definition DistEmbedding_new (n dim : nat) (init_func : init_function)
    (rng : G) : DistEmbedding * G :=
  let '(d, rng') := init_func [n; dim] float32 rng in
  ({| num_embeddings := n; embedding_dim := dim;
      table := Dgl.chunks dim d; recorded := [] |}, rng').

(** Modelled from the spec: the lookup [emb(idx)]; under [th.no_grad()]
    nothing is recorded. *)
Definition lookup (emb : DistEmbedding) (idx : list nat) (grad_enabled : bool)
    : Py.result (list (list T) * DistEmbedding) :=
  rows ← Torch.index_select (table emb) idx;
  Py.Ok (rows,
         if grad_enabled then
           {| num_embeddings := num_embeddings emb;
              embedding_dim := embedding_dim emb;
              table := table emb;
              recorded := (idx, None) :: recorded emb |}
         else emb).

(** The rule by which a sparse optimizer turns a row of the table and the
    gradient in that row into the new row. *)
Definition update_rule : Type := list T -> list T -> list T.

(** The sum of the gradient rows at the positions where [idx] is [i]. *)
Definition row_gradient (i : nat) (idx : list nat) (grad : list (list T))
    : list T :=
  foldr (fun p acc =>
           if decide (p.1 = i) then
             match acc with
             | [] => p.2
             | _ => zip_with add p.2 acc
             end
           else acc)
        [] (zip idx grad).

(** One recorded lookup applied to the table: each row whose index was
    looked up is updated, once, with the gradient summed over the
    occurrences of the index. *)
Definition apply_recorded (rule : update_rule) (tbl : list (list T))
    (idx : list nat) (grad : list (list T)) : list (list T) :=
  foldr (fun i tbl => alter (fun row => rule row (row_gradient i idx grad)) i tbl)
        tbl (remove_dups idx).

(** Modelled from the spec: [SparseAdagrad([emb], lr).step()]: a sparse
    gradient step, which updates only the embeddings involved in the
    recorded mini-batches. *)
Definition sparse_step (rule : update_rule) (emb : DistEmbedding)
    : DistEmbedding :=
  {| num_embeddings := num_embeddings emb;
     embedding_dim := embedding_dim emb;
     table := foldr (fun r tbl =>
                       match r.2 with
                       | Some grad => apply_recorded rule tbl r.1 grad
                       | None => tbl
                       end)
                    (table emb) (recorded emb);
     recorded := [] |}.

End Structures.

Arguments DistGraph T : clear implicits.
Arguments DistEmbedding T : clear implicits.
Arguments init_function T G : clear implicits.
Arguments update_rule T : clear implicits.

End Dist.

(** ** Notebook: basic operations on distributed data structures *)

Module DistBasic.

Section Notebook.
Context {T : Type} `{Scalar T} {G : Type}.

(** What the cells print or display. *)
Inductive output :=
| OutCounts (label : string) (n : nat)
| OutKeys (keys : list string)
| OutTensor (t : Dist.Tensor T)
| OutRows (rows : list (list T)).

(** The variables of the notebook that one cell binds and another reads:
    [g], [arr], [emb] and the function [init] ([init_defined] tells whether
    its [def] has been run).  Distributed graphs are objects: [graphs] holds
    those created so far and [g] refers to one of them.  The variables
    [optimizer], [feats] and [loss] are bound and read inside one cell, which
    binds them anew each time it is run, and are not kept here. *)
Record notebook := {
  initialized : bool;
  graphs : list (Dist.DistGraph T);
  g : option nat;
  arr : option (Dist.Tensor T);
  emb : option (Dist.DistEmbedding T);
  init_defined : bool;
  rng : G;
  stdout : list output
}.

(** [th.rand(shape, dtype=dtype)]. *)
Variable th_rand : list nat -> Dist.dtype -> G -> list T * G.

(** The graph stored under [standalone_data/ogbn-products.json]. *)
Variable ogbn_products : Dist.DistGraph T.

(** Whether a distributed graph takes a tensor as node data. *)
Variable accepts : Dist.DistGraph T -> Dist.Tensor T -> bool.

(** The update rule of [SparseAdagrad] with [lr=0.001]. *)
Variable adagrad : Dist.update_rule T.

(** The function that [def init(shape, dtype): return th.rand(shape,
    dtype=dtype)] defines. *)
Definition init : Dist.init_function T G :=
  fun shape dtype rng => th_rand shape dtype rng.

(** The graph object that [g] refers to. *)
Definition the_graph (st : notebook) : Py.result (nat * Dist.DistGraph T) :=
  match g st with
  | None => Py.Raise Py.NameError
  | Some o =>
      match graphs st !! o with
      | None => Py.Raise Py.NameError
      | Some dg => Py.Ok (o, dg)
      end
  end.

Definition print (o : output) (st : notebook) : notebook :=
  {| initialized := initialized st; graphs := graphs st; g := g st;
     arr := arr st; emb := emb st;
     init_defined := init_defined st; rng := rng st;
     stdout := o :: stdout st |}.

(** The statement [def init(shape, dtype): ...], which binds the name
    [init]. *)
Definition def_init (st : notebook) : notebook :=
  {| initialized := initialized st; graphs := graphs st; g := g st;
     arr := arr st; emb := emb st; init_defined := true; rng := rng st;
     stdout := stdout st |}.

(** The code cells of the notebook, in order. *)
Inductive cell :=
| Initialize
| CreateDistGraph
| PrintCounts
| PrintNdataKeys
| PrintTrainMask
| SliceTrainMask
| SliceOrigId
| PrintEdataKeys
| CreateArr
| SliceArr
| CreateArrInit
| AssignNewData
| CreateEmb
| TrainEmb
| ReadEmb.

(** [print(g.ndata[key][0:10])]. *)
Definition print_ndata_slice (key : string) (st : notebook)
    : Py.result unit * notebook :=
  match the_graph st with
  | Py.Raise e => (Py.Raise e, st)
  | Py.Ok (_, dg) =>
      match Dist.dg_ndata dg !! key with
      | None => (Py.Raise Py.KeyError, st)
      | Some t =>
          match Dist.slice t 0 10 with
          | Py.Raise e => (Py.Raise e, st)
          | Py.Ok sl => (Py.Ok tt, print (OutTensor sl) st)
          end
      end
  end.

(** [arr = dgl.distributed.DistTensor((g.number_of_nodes(),), th.float32,
    init_func=...)]. *)
Definition create_arr (init_func : option (Dist.init_function T G))
    (st : notebook) : Py.result unit * notebook :=
  match the_graph st with
  | Py.Raise e => (Py.Raise e, st)
  | Py.Ok (_, dg) =>
      let '(t, rng') :=
        Dist.DistTensor [Dist.dg_num_nodes dg] Dist.float32 init_func (rng st) in
      (Py.Ok tt,
       {| initialized := initialized st; graphs := graphs st; g := g st;
          arr := Some t; emb := emb st;
          init_defined := init_defined st; rng := rng'; stdout := stdout st |})
  end.

(** [loss.backward()] for [loss = th.sum(feats + 1)], where [feats] is the
    result of the most recent recorded lookup: the gradient of the loss in
    each entry of [feats] is 1. *)
Definition backward_sum_plus_one (feats : list (list T))
    (e : Dist.DistEmbedding T) : Dist.DistEmbedding T :=
  {| Dist.num_embeddings := Dist.num_embeddings e;
     Dist.embedding_dim := Dist.embedding_dim e;
     Dist.table := Dist.table e;
     Dist.recorded :=
       match Dist.recorded e with
       | (idx, _) :: rest => (idx, Some (map (map (fun _ => one)) feats)) :: rest
       | [] => []
       end |}.

(** The cell that looks up a minibatch of embeddings, computes the loss and
    takes an optimizer step:
    [feats = emb(idx); loss = th.sum(feats + 1); loss.backward();
     optimizer.step()]. *)
Definition train_step (rule : Dist.update_rule T) (e : Dist.DistEmbedding T)
    (idx : list nat) : Py.result (list (list T) * Dist.DistEmbedding T) :=
  r ← Dist.lookup e idx true;
  let feats := r.1 in
  let e := backward_sum_plus_one feats r.2 in
  Py.Ok (feats, Dist.sparse_step rule e).

Definition run_cell (c : cell) (st : notebook) : Py.result unit * notebook :=
  match c with
  | Initialize =>
      (Py.Ok tt,
       {| initialized := true; graphs := graphs st; g := g st; arr := arr st;
          emb := emb st;
          init_defined := init_defined st; rng := rng st; stdout := stdout st |})
  | CreateDistGraph =>
      if initialized st then
        (Py.Ok tt,
         {| initialized := true; graphs := graphs st ++ [ogbn_products];
            g := Some (length (graphs st)); arr := arr st; emb := emb st;
            init_defined := init_defined st;
            rng := rng st; stdout := stdout st |})
      else (Py.Raise Py.DGLError, st)
  | PrintCounts =>
      match the_graph st with
      | Py.Raise e => (Py.Raise e, st)
      | Py.Ok (_, dg) =>
          (Py.Ok tt,
           print (OutCounts "#edges:" (Dist.dg_num_edges dg))
             (print (OutCounts "#nodes:" (Dist.dg_num_nodes dg)) st))
      end
  | PrintNdataKeys =>
      match the_graph st with
      | Py.Raise e => (Py.Raise e, st)
      | Py.Ok (_, dg) =>
          (Py.Ok tt, print (OutKeys (map fst (map_to_list (Dist.dg_ndata dg)))) st)
      end
  | PrintTrainMask =>
      match the_graph st with
      | Py.Raise e => (Py.Raise e, st)
      | Py.Ok (_, dg) =>
          match Dist.dg_ndata dg !! "train_mask" with
          | None => (Py.Raise Py.KeyError, st)
          | Some t => (Py.Ok tt, print (OutTensor t) st)
          end
      end
  | SliceTrainMask => print_ndata_slice "train_mask" st
  | SliceOrigId => print_ndata_slice "orig_id" st
  | PrintEdataKeys =>
      match the_graph st with
      | Py.Raise e => (Py.Raise e, st)
      | Py.Ok (_, dg) =>
          (Py.Ok tt, print (OutKeys (map fst (map_to_list (Dist.dg_edata dg)))) st)
      end
  | CreateArr => create_arr None st
  | SliceArr =>
      match arr st with
      | None => (Py.Raise Py.NameError, st)
      | Some t =>
          match Dist.slice t 0 10 with
          | Py.Raise e => (Py.Raise e, st)
          | Py.Ok sl => (Py.Ok tt, print (OutTensor sl) st)
          end
      end
  | CreateArrInit => create_arr (Some init) (def_init st)
  | AssignNewData =>
      match the_graph st with
      | Py.Raise e => (Py.Raise e, st)
      | Py.Ok (o, dg) =>
          match arr st with
          | None => (Py.Raise Py.NameError, st)
          | Some t =>
              if accepts dg t then
                (Py.Ok tt,
                 {| initialized := initialized st;
                    graphs :=
                      <[o := {| Dist.dg_num_nodes := Dist.dg_num_nodes dg;
                                Dist.dg_num_edges := Dist.dg_num_edges dg;
                                Dist.dg_ndata := <["new_data" := t]> (Dist.dg_ndata dg);
                                Dist.dg_edata := Dist.dg_edata dg |}]> (graphs st);
                    g := g st; arr := arr st; emb := emb st;
                    init_defined := init_defined st; rng := rng st;
                    stdout := stdout st |})
              else (Py.Raise Py.DGLError, st)
          end
      end
  | CreateEmb =>
      match the_graph st with
      | Py.Raise e => (Py.Raise e, st)
      | Py.Ok (_, dg) =>
          if init_defined st then
            let '(e, rng') :=
              Dist.DistEmbedding_new (Dist.dg_num_nodes dg) 10 init (rng st) in
            (Py.Ok tt,
             {| initialized := initialized st; graphs := graphs st; g := g st;
                arr := arr st; emb := Some e;
                init_defined := init_defined st; rng := rng';
                stdout := stdout st |})
          else (Py.Raise Py.NameError, st)
      end
  | TrainEmb =>
      match emb st with
      | None => (Py.Raise Py.NameError, st)
      | Some e =>
          match train_step adagrad e [0; 1; 2; 3] with
          | Py.Raise x => (Py.Raise x, st)
          | Py.Ok (feats, e') =>
              (Py.Ok tt,
               print (OutRows feats)
                 {| initialized := initialized st; graphs := graphs st;
                    g := g st; arr := arr st; emb := Some e';
                    init_defined := init_defined st; rng := rng st;
                    stdout := stdout st |})
          end
      end
  | ReadEmb =>
      match emb st with
      | None => (Py.Raise Py.NameError, st)
      | Some e =>
          match Dist.lookup e [0; 1; 2; 3] false with
          | Py.Raise x => (Py.Raise x, st)
          | Py.Ok (rows, _) => (Py.Ok tt, print (OutRows rows) st)
          end
      end
  end.

(** Running cells one after the other; an exception stops the run. *)
Fixpoint run_cells (cs : list cell) (st : notebook)
    : Py.result unit * notebook :=
  match cs with
  | [] => (Py.Ok tt, st)
  | c :: rest =>
      match run_cell c st with
      | (Py.Ok _, st') => run_cells rest st'
      | (Py.Raise e, st') => (Py.Raise e, st')
      end
  end.

(** The notebook before its first cell. *)
Definition fresh (rng : G) : notebook :=
  {| initialized := false; graphs := []; g := None; arr := None;
     emb := None; init_defined := false; rng := rng; stdout := [] |}.

End Notebook.


End DistBasic.

(** ** Notebook: single machine, multiple GPU training (data and model) *)

Module MultiGPUSetup.

(** What [data.pkl] holds. *)
Record pickled (T : Type) := {
  graph : Dgl.Graph;
  node_features : Dist.Tensor T;
  node_labels : list Z;
  train_nids : list nat;
  valid_nids : list nat;
  test_nids : list nat
}.
Arguments graph {T} _.
Arguments node_features {T} _.
Arguments node_labels {T} _.
Arguments train_nids {T} _.
Arguments valid_nids {T} _.
Arguments test_nids {T} _.

(** What [load_data] returns. *)
Record loaded (T : Type) := {
  data : pickled T;
  num_features : nat;
  num_classes : Z
}.
Arguments data {T} _.
Arguments num_features {T} _.
Arguments num_classes {T} _.

(** Modelled from the spec: the library primitive [node_labels.max()], the
    greatest entry; an error on a tensor without entries. *)
Definition labels_max (labels : list Z) : Py.result Z :=
  match labels with
  | [] => Py.Raise Py.RuntimeError
  | l :: rest => Py.Ok (foldr Z.max l rest)
  end.

(** The value of a signed 64-bit integer after an arithmetic operation
    whose exact result is [z]: the result wraps around. *)
Definition int64_wrap (z : Z) : Z :=
  ((z + 2 ^ 63) mod 2 ^ 64 - 2 ^ 63)%Z.

(** [load_data()], given the content of [data.pkl].  The labels are the
    entries of a tensor of 64-bit integers, and [node_labels.max() + 1] is
    computed on such a tensor before [.item()] makes it a Python integer.
    The call [utils.prepare_mp(graph)], of a module that is not among the
    sources, prepares the graph for sharing between processes; the graph is
    taken to have the same nodes and edges after it. *)
Definition load_data {T} (d : pickled T) : Py.result (loaded T) :=
  num_features ← Py.index (Dist.shape (node_features d)) 1;
  m ← labels_max (node_labels d);
  Py.Ok {| data := d; num_features := num_features;
           num_classes := int64_wrap (m + 1) |}.

(** *** class SAGE *)

Record SAGE (T : Type) := {
  n_layers : Z;
  n_hidden : nat;
  n_classes : nat;
  layers : list (Dgl.Layer T)
}.
Arguments n_layers {T} _.
Arguments n_hidden {T} _.
Arguments n_classes {T} _.
Arguments layers {T} _.

Section Model.
Context {T : Type} `{Scalar T}.

(** [dglnn.SAGEConv(in_feats, out_feats, 'mean')] for the layer at the given
    position, with the parameters it is initialized to. *)
Variable SAGEConv : nat -> nat -> nat -> Dgl.Layer T.

(** [SAGE.__init__(self, in_feats, n_hidden, n_classes, n_layers)]. *)
Definition SAGE_init (in_feats n_hidden n_classes : nat) (n_layers : Z)
    : SAGE T :=
  let hidden := map (fun i => SAGEConv i n_hidden n_hidden)
                    (seq 1 (Z.to_nat (n_layers - 2))) in
  {| n_layers := n_layers;
     n_hidden := n_hidden;
     n_classes := n_classes;
     layers :=
       (SAGEConv 0 in_feats n_hidden :: hidden)
       ++ [SAGEConv (S (length hidden)) n_hidden n_classes] |}.

(** [SAGE.forward(self, blocks, x)]; the loop is the one of the link
    prediction notebook. *)
Definition forward (self : SAGE T) (blocks : list Dgl.Block)
    (x : list (list T)) : Py.result (list (list T)) :=
  LinkPred.forward_loop (n_layers self) 0 (zip (layers self) blocks) x.

(** [init_model(rank, in_feats, n_hidden, n_classes, n_layers)]: the model
    moved to the device of the rank and wrapped for data parallel
    training, which leaves its layers as they are. *)
Definition init_model (rank : Z) (in_feats n_hidden n_classes : nat)
    (n_layers : Z) : SAGE T :=
  SAGE_init in_feats n_hidden n_classes n_layers.

End Model.

End MultiGPUSetup.

(** ** Reading a trace *)

Module Log.

(** The epochs and validation accuracies printed, the most recent first. *)
Definition printed {M} (tr : list (Run.event M)) : list (nat * Q) :=
  omap (fun ev => match ev with
                  | Run.Printed e a _ => Some (e, a)
                  | Run.Saved _ _ => None
                  end) tr.

(** The paths and state dicts saved, the most recent first. *)
Definition saved {M} (tr : list (Run.event M)) : list (string * M) :=
  omap (fun ev => match ev with
                  | Run.Printed _ _ _ => None
                  | Run.Saved p m => Some (p, m)
                  end) tr.

End Log.

(** ** Theorems *)

Section Chunks.
Context {A : Type}.

Lemma elem_of_chunks_aux (fuel b : nat) (l c : list A) (x : A) :
  c ∈ Dgl.chunks_aux fuel b l -> x ∈ c -> x ∈ l.
Proof.
  revert l. induction fuel as [|fuel IH]; intros l Hc Hx; simpl in Hc.
  - by apply elem_of_nil in Hc.
  - destruct l as [|a l']; [by apply elem_of_nil in Hc|].
    apply elem_of_cons in Hc as [->|Hc].
    + apply elem_of_take in Hx as (i & Hi & _).
      by eapply list_elem_of_lookup_2.
    + specialize (IH _ Hc Hx).
      apply list_elem_of_lookup in IH as [i Hi].
      rewrite lookup_drop in Hi. by eapply list_elem_of_lookup_2.
Qed.

Lemma elem_of_chunks (b : nat) (l c : list A) (x : A) :
  c ∈ Dgl.chunks b l -> x ∈ c -> x ∈ l.
Proof. apply elem_of_chunks_aux. Qed.

End Chunks.

(** *** create_dataloader *)

Lemma create_dataloader_cases (rank world_size : Z) (graph : Dgl.Graph)
    (nids : list nat) :
  MultiGPU.create_dataloader rank world_size graph nids
  = if (world_size =? 0)%Z then Py.Raise Py.ZeroDivisionError
    else match MultiGPU.rank_slice rank world_size nids with
         | [] => Py.Raise Py.ValueError
         | sl => Py.Ok (MultiGPU.rank_loader graph sl)
         end.
Proof.
  unfold MultiGPU.create_dataloader, Py.floordiv, MultiGPU.rank_slice.
  destruct (world_size =? 0)%Z; [done|].
  cbn [mbind result_bind Py.bind]. unfold Dgl.new_NodeDataLoader.
  by destruct (Py.slice _ _ _).
Qed.

Lemma create_dataloader_inv (rank world_size : Z) (graph : Dgl.Graph)
    (nids : list nat) (dl : Dgl.NodeDataLoader) :
  MultiGPU.create_dataloader rank world_size graph nids = Py.Ok dl ->
  world_size <> 0%Z /\
  dl = MultiGPU.rank_loader graph (MultiGPU.rank_slice rank world_size nids) /\
  MultiGPU.rank_slice rank world_size nids <> [].
Proof.
  rewrite create_dataloader_cases.
  destruct (Z.eqb_spec world_size 0) as [?|Hw]; [done|].
  destruct (MultiGPU.rank_slice rank world_size nids) as [|x sl]; [done|].
  by intros [= <-].
Qed.

Lemma create_dataloader_raise_cases (rank world_size : Z)
    (graph : Dgl.Graph) (nids : list nat) (e : Py.exn) :
  MultiGPU.create_dataloader rank world_size graph nids = Py.Raise e ->
  (world_size = 0%Z /\ e = Py.ZeroDivisionError) \/
  (world_size <> 0%Z /\ e = Py.ValueError /\
   MultiGPU.rank_slice rank world_size nids = []).
Proof.
  rewrite create_dataloader_cases.
  destruct (Z.eqb_spec world_size 0) as [?|Hw]; [intros [= <-]; by left|].
  destruct (MultiGPU.rank_slice rank world_size nids) as [|x sl]; [|done].
  intros [= <-]. by right.
Qed.

Lemma rank_slice_nids (rank world_size : Z) (nids : list nat) :
  (1 <= world_size)%Z -> (0 <= rank < world_size)%Z ->
  let p := Z.to_nat (Z.of_nat (length nids) / world_size) in
  MultiGPU.rank_slice rank world_size nids = take p (drop (Z.to_nat rank * p) nids) /\
  Z.to_nat rank * p + p <= length nids.
Proof.
  intros Hw Hr p. unfold MultiGPU.rank_slice.
  set (n := Z.of_nat (length nids)) in *.
  set (q := (n / world_size)%Z) in *.
  assert (Hq : (0 <= q)%Z) by (apply Z.div_pos; lia).
  assert (Hqn : (q * world_size <= n)%Z).
  { rewrite Z.mul_comm. apply Z.mul_div_le. lia. }
  assert (Hend : (q * rank + q <= n)%Z) by nia.
  split.
  - unfold Py.slice, Py.slice_bound. fold n.
    destruct (Z.ltb_spec (q * rank) 0) as [?|_]; [nia|].
    destruct (Z.ltb_spec (q * rank + q) 0) as [?|_]; [nia|].
    f_equal; [|f_equal]; subst p; nia.
  - subst p. nia.
Qed.

Lemma create_dataloader_nids (rank world_size : Z) (graph : Dgl.Graph)
    (nids : list nat) :
  (1 <= world_size)%Z -> (0 <= rank < world_size)%Z ->
  (world_size <= Z.of_nat (length nids))%Z ->
  let p := Z.to_nat (Z.of_nat (length nids) / world_size) in
  exists dl,
    MultiGPU.create_dataloader rank world_size graph nids = Py.Ok dl /\
    dl = MultiGPU.rank_loader graph (take p (drop (Z.to_nat rank * p) nids)) /\
    0 < p /\ Z.to_nat rank * p + p <= length nids.
Proof.
  intros Hw Hr Hlen p.
  destruct (rank_slice_nids rank world_size nids Hw Hr) as [Hsl Hle].
  fold p in Hsl, Hle.
  assert (Hp : 0 < p).
  { subst p.
    assert ((1 <= Z.of_nat (length nids) / world_size)%Z); [|lia].
    apply Z.div_le_lower_bound; lia. }
  rewrite create_dataloader_cases, Hsl.
  destruct (Z.eqb_spec world_size 0) as [?|_]; [lia|].
  destruct (take p (drop (Z.to_nat rank * p) nids)) as [|x sl] eqn:E.
  - apply (f_equal length) in E. rewrite length_take, length_drop in E.
    simpl in E. lia.
  - by eexists.
Qed.

Lemma create_dataloader_too_few (rank world_size : Z) (graph : Dgl.Graph)
    (nids : list nat) :
  (Z.of_nat (length nids) < world_size)%Z ->
  MultiGPU.create_dataloader rank world_size graph nids
  = Py.Raise Py.ValueError.
Proof.
  intros Hlen. rewrite create_dataloader_cases.
  destruct (Z.eqb_spec world_size 0) as [?|_]; [lia|].
  unfold MultiGPU.rank_slice. rewrite Z.div_small by lia.
  by destruct nids.
Qed.

(** C6: rank [r] of [w >= 1] workers gets the [len(nids) // w] consecutive
    node IDs from position [r * (len(nids) // w)] on, and with at least [w]
    node IDs its loader is made over this slice; with fewer than [w] node
    IDs the slice of every rank is empty and the loader constructor raises
    [ValueError], so that no rank has a loader.  The positions of distinct
    ranks are disjoint (and so are their node IDs when [nids] has no
    duplicates); the last [len(nids) mod w] positions belong to no rank, and
    their node IDs occur in no batch that any rank's loader iterates. *)
Theorem create_dataloader_partition (graph : Dgl.Graph) (nids : list nat)
    (w : Z) :
  (1 <= w)%Z ->
  let p := Z.to_nat (Z.of_nat (length nids) / w) in
  (forall r, (0 <= r < w)%Z ->
     ((w <= Z.of_nat (length nids))%Z ->
      exists dl,
        MultiGPU.create_dataloader r w graph nids = Py.Ok dl /\
        0 < p /\
        length (Dgl.dl_nids dl) = p /\
        forall i, i < p ->
          Dgl.dl_nids dl !! i = nids !! (Z.to_nat r * p + i)) /\
     ((Z.of_nat (length nids) < w)%Z ->
      p = 0 /\
      MultiGPU.create_dataloader r w graph nids = Py.Raise Py.ValueError)) /\
  (forall r1 r2 i1 i2, (0 <= r1 < w)%Z -> (0 <= r2 < w)%Z -> r1 <> r2 ->
     i1 < p -> i2 < p ->
     Z.to_nat r1 * p + i1 <> Z.to_nat r2 * p + i2) /\
  (NoDup nids ->
   forall r1 r2 dl1 dl2, (0 <= r1 < w)%Z -> (0 <= r2 < w)%Z -> r1 <> r2 ->
     MultiGPU.create_dataloader r1 w graph nids = Py.Ok dl1 ->
     MultiGPU.create_dataloader r2 w graph nids = Py.Ok dl2 ->
     forall x, x ∈ Dgl.dl_nids dl1 -> x ∉ Dgl.dl_nids dl2) /\
  Z.of_nat (length nids - Z.to_nat w * p) = (Z.of_nat (length nids) mod w)%Z /\
  (forall j, Z.to_nat w * p <= j ->
     forall r i, (0 <= r < w)%Z -> i < p -> Z.to_nat r * p + i <> j) /\
  (NoDup nids ->
   forall j x, Z.to_nat w * p <= j -> nids !! j = Some x ->
     forall r dl batches, (0 <= r < w)%Z ->
       MultiGPU.create_dataloader r w graph nids = Py.Ok dl ->
       Dgl.seed_batches dl batches ->
       forall b, b ∈ batches -> x ∉ b).
Proof.
  intros Hw p.
  assert (Harith : forall r1 r2 i1 i2, (0 <= r1 < w)%Z -> (0 <= r2 < w)%Z ->
            r1 <> r2 -> i1 < p -> i2 < p ->
            Z.to_nat r1 * p + i1 <> Z.to_nat r2 * p + i2).
  { intros r1 r2 i1 i2 H1 H2 Hne Hi1 Hi2.
    assert (Z.to_nat r1 < Z.to_nat r2 \/ Z.to_nat r2 < Z.to_nat r1) as [?|?]
      by lia; nia. }
  assert (Hlast : forall j, Z.to_nat w * p <= j ->
            forall r i, (0 <= r < w)%Z -> i < p -> Z.to_nat r * p + i <> j).
  { intros j Hj r i Hr Hi. assert (Z.to_nat r < Z.to_nat w) by lia. nia. }
  assert (Hlookup : forall r dl i x, (0 <= r < w)%Z ->
            MultiGPU.create_dataloader r w graph nids = Py.Ok dl ->
            Dgl.dl_nids dl !! i = Some x ->
            i < p /\ nids !! (Z.to_nat r * p + i) = Some x).
  { intros r dl i x Hr Hdl Hx.
    apply create_dataloader_inv in Hdl as (_ & -> & _).
    destruct (rank_slice_nids r w nids Hw Hr) as [Hn _]. fold p in Hn.
    cbn [MultiGPU.rank_loader Dgl.dl_nids] in Hx.
    rewrite Hn in Hx. apply lookup_take_Some in Hx as [Hx Hi].
    by rewrite lookup_drop in Hx. }
  repeat split.
  - intros Hlen.
    destruct (create_dataloader_nids r w graph nids Hw H Hlen)
      as (dl & E & -> & Hp & Hle).
    fold p in Hp, Hle. exists (MultiGPU.rank_loader graph (take p (drop (Z.to_nat r * p) nids))).
    split; [done|]. split; [done|]. cbn [MultiGPU.rank_loader Dgl.dl_nids]. split.
    + rewrite length_take, length_drop. lia.
    + intros i Hi. by rewrite lookup_take_lt, lookup_drop.
  - subst p. rewrite Z.div_small by lia. done.
  - by apply create_dataloader_too_few.
  - exact Harith.
  - intros Hnd r1 r2 dl1 dl2 H1 H2 Hne E1 E2 x Hx1 Hx2.
    apply list_elem_of_lookup in Hx1 as [i1 Hi1], Hx2 as [i2 Hi2].
    destruct (Hlookup _ _ _ _ H1 E1 Hi1) as [Hp1 Hn1].
    destruct (Hlookup _ _ _ _ H2 E2 Hi2) as [Hp2 Hn2].
    pose proof (NoDup_lookup _ _ _ _ Hnd Hn1 Hn2) as Heq.
    exact (Harith r1 r2 i1 i2 H1 H2 Hne Hp1 Hp2 Heq).
  - subst p. rewrite Z.mod_eq by lia.
    assert ((0 <= Z.of_nat (length nids) / w)%Z) by (apply Z.div_pos; lia).
    assert ((w * (Z.of_nat (length nids) / w) <= Z.of_nat (length nids))%Z)
      by (apply Z.mul_div_le; lia).
    nia.
  - exact Hlast.
  - intros Hnd j x Hj Hx r dl batches Hr E (_ & order & Hord & ->) b Hb Hxb.
    pose proof (create_dataloader_inv _ _ _ _ _ E) as (_ & Hdl & _).
    assert (Hsh : Dgl.dl_shuffle dl = true /\ Dgl.dl_drop_last dl = false)
      by (by rewrite Hdl).
    destruct Hsh as [Hsh Hdrop]. rewrite Hsh in Hord.
    unfold Dgl.batches_of in Hb. rewrite Hdrop in Hb.
    simpl in Hb. pose proof (elem_of_chunks _ _ _ _ Hb Hxb) as Hin.
    rewrite Hord in Hin. apply list_elem_of_lookup in Hin as [i Hi].
    destruct (Hlookup _ _ _ _ Hr E Hi) as [Hp Hn].
    pose proof (NoDup_lookup _ _ _ _ Hnd Hn Hx) as Heq.
    exact (Hlast j Hj r i Hr Hp Heq).
Qed.

Lemma create_dataloader_partition_witness :
  exists dl,
    MultiGPU.create_dataloader 1 3 {| Dgl.num_nodes := 20; Dgl.edges := [] |}
      [10; 11; 12; 13; 14; 15; 16] = Py.Ok dl /\
    0 < 2 /\
    length (Dgl.dl_nids dl) = 2 /\
    forall i, i < 2 ->
      Dgl.dl_nids dl !! i = [10; 11; 12; 13; 14; 15; 16] !! (1 * 2 + i).
Proof.
  assert (Hw : (1 <= 3)%Z) by lia.
  pose proof (create_dataloader_partition
    {| Dgl.num_nodes := 20; Dgl.edges := [] |}
    [10; 11; 12; 13; 14; 15; 16] 3 Hw) as H.
  simpl in H. destruct H as [H _].
  apply (proj1 (H 1%Z ltac:(lia))). lia.
Defined.

(** *** NegativeSampler *)

Lemma find_edges_spec (g : Dgl.Graph) (eids src dst : list nat) :
  Dgl.find_edges g eids = Py.Ok (src, dst) ->
  length src = length eids /\
  forall j u, src !! j = Some u ->
    exists e w, eids !! j = Some e /\ Dgl.edges g !! e = Some (u, w).
Proof.
  revert src dst. induction eids as [|e eids IH]; intros src dst Hf; simpl in Hf.
  - injection Hf as <- <-. split; [done|]. intros j u Hj. done.
  - destruct (Dgl.edges g !! e) as [[u0 v0]|] eqn:He; [|done].
    destruct (Dgl.find_edges g eids) as [[src' dst']|] eqn:Hr; simpl in Hf; [|done].
    injection Hf as <- <-.
    destruct (IH _ _ eq_refl) as [Hlen Hlk]. split; [simpl; lia|].
    intros [|j] u Hj; simpl in Hj.
    + injection Hj as ->. exists e, v0. done.
    + apply Hlk in Hj as (e' & w & ? & ?). exists e', w. done.
Qed.

Lemma length_repeat_interleave {A} (l : list A) (k : nat) :
  length (Torch.repeat_interleave l k) = length l * k.
Proof.
  unfold Torch.repeat_interleave. induction l as [|a l IH]; simpl; [done|].
  rewrite length_app, length_replicate, IH. lia.
Qed.

Lemma lookup_repeat_interleave {A} (l : list A) (k i : nat) (x : A) :
  Torch.repeat_interleave l k !! i = Some x -> l !! (i / k) = Some x.
Proof.
  destruct (decide (k = 0)) as [->|Hk].
  { intros Hi. apply lookup_lt_Some in Hi.
    rewrite length_repeat_interleave in Hi. lia. }
  unfold Torch.repeat_interleave. revert i.
  induction l as [|a l IH]; intros i Hi; simpl in Hi; [done|].
  destruct (decide (i < k)) as [Hlt|Hge].
  - rewrite lookup_app_l in Hi by (rewrite length_replicate; lia).
    apply lookup_replicate in Hi as [-> _].
    by rewrite Nat.div_small.
  - rewrite lookup_app_r in Hi by (rewrite length_replicate; lia).
    rewrite length_replicate in Hi. apply IH in Hi.
    replace i with (1 * k + (i - k)) by lia.
    rewrite Nat.div_add_l by done. done.
Qed.

Lemma weights_support (g : Dgl.Graph) (k v : nat) (w : Torch.FloatPow) :
  LinkPred.weights (LinkPred.NegativeSampler_init g k) !! v = Some w ->
  Torch.nonzero w = true ->
  v < Dgl.num_nodes g /\ 0 < Dgl.in_degree g v.
Proof.
  unfold LinkPred.NegativeSampler_init, Dgl.in_degrees. simpl.
  rewrite !list_lookup_fmap. intros Hw Hnz.
  destruct (seq 0 (Dgl.num_nodes g) !! v) as [v'|] eqn:Hv; [|done].
  apply lookup_seq in Hv as [-> Hv]. simpl in Hw. injection Hw as <-.
  split; [done|]. unfold Torch.nonzero in Hnz. simpl in Hnz.
  destruct (Dgl.in_degree g v); [done|lia].
Qed.

Lemma weights_nonzero (g : Dgl.Graph) (k v : nat) :
  v < Dgl.num_nodes g -> 0 < Dgl.in_degree g v ->
  exists w,
    LinkPred.weights (LinkPred.NegativeSampler_init g k) !! v = Some w /\
    Torch.nonzero w = true.
Proof.
  intros Hv Hdeg.
  exists {| Torch.base := Dgl.in_degree g v; Torch.expo := 3 # 4 |}. split.
  - unfold LinkPred.NegativeSampler_init, Dgl.in_degrees. simpl.
    rewrite !list_lookup_fmap. by rewrite lookup_seq_lt.
  - unfold Torch.nonzero. simpl. destruct (Dgl.in_degree g v); [lia|done].
Qed.

Lemma find_edges_Ok (g : Dgl.Graph) (eids : list nat) :
  Forall (fun e => e < Dgl.number_of_edges g) eids ->
  exists src dst, Dgl.find_edges g eids = Py.Ok (src, dst).
Proof.
  induction 1 as [|e eids He _ (src & dst & IH)]; [by exists [], []|].
  apply lookup_lt_is_Some in He as [[u v] Huv].
  simpl. rewrite Huv, IH. simpl. by eexists _, _.
Qed.

Lemma find_edges_Raise (g : Dgl.Graph) (eids : list nat) :
  Exists (fun e => Dgl.number_of_edges g <= e) eids ->
  Dgl.find_edges g eids = Py.Raise Py.DGLError.
Proof.
  induction 1 as [e eids He|e eids _ IH]; simpl.
  - by rewrite (proj2 (lookup_ge_None _ _) He).
  - destruct (Dgl.edges g !! e) as [[u v]|]; [|done]. by rewrite IH.
Qed.

Lemma find_edges_valid (g : Dgl.Graph) (eids src dst : list nat) :
  Dgl.find_edges g eids = Py.Ok (src, dst) ->
  Forall (fun e => e < Dgl.number_of_edges g) eids.
Proof.
  intros Hf. apply Forall_forall. intros e He.
  destruct (decide (e < Dgl.number_of_edges g)) as [?|Hge]; [done|].
  rewrite (find_edges_Raise g eids) in Hf; [done|].
  apply Exists_exists. exists e. split; [done|lia].
Qed.

(** A call of the sampler on the graph with the single edge [0 -> 1]. *)
Lemma single_edge_call :
  LinkPred.NegativeSampler_call
    (LinkPred.NegativeSampler_init {| Dgl.num_nodes := 2; Dgl.edges := [(0, 1)] |} 1)
    {| Dgl.num_nodes := 2; Dgl.edges := [(0, 1)] |} [0] ([0], [1]).
Proof.
  exists [0], [1]. split; [reflexivity|]. simpl. split; [|reflexivity].
  split; [lia|]. split; [reflexivity|]. apply Forall_singleton.
  eexists. split; reflexivity.
Qed.

(** C1, as stated, fails: on the graph with the single edge [0 -> 1] every
    call of the sampler for that edge returns the pair [(0, 1)], which is an
    edge of the graph. *)
Lemma negative_sampler_returns_existing_edge :
  let g := {| Dgl.num_nodes := 2; Dgl.edges := [(0, 1)] |} in
  let sampler := LinkPred.NegativeSampler_init g 1 in
  LinkPred.NegativeSampler_call sampler g [0] ([0], [1]) /\
  (forall ret, LinkPred.NegativeSampler_call sampler g [0] ret ->
     ret = ([0], [1])) /\
  Dgl.has_edge g 0 1 = true.
Proof.
  split; [exact single_edge_call|]. split; [|reflexivity].
  intros [src dst] (src0 & dst0 & Hf & (_ & Hlen & Hsup) & Hsrc).
  simpl in Hf. injection Hf as <- <-. simpl in *. subst src.
  destruct dst as [|v [|? ?]]; simplify_eq/=.
  apply Forall_cons in Hsup as [(w & Hw & Hnz) _].
  destruct v as [|[|v]]; simplify_eq/=; done.
Qed.

(** C1, amended: the results of a call of the sampler are exactly the pairs
    of tensors [(src, dst)] of this form.  The edge IDs are edge IDs of [g]
    and at least one pair is asked for.  There are [k] pairs per minibatch
    edge; the source of pair [i] is the source of minibatch edge [i // k];
    the destinations are nodes with positive in-degree in the graph the
    sampler was built from, and every such choice of destinations is a
    result: a destination does not depend on the source of its pair, and the
    pair is not compared with the edges of [g]. *)
Theorem negative_sampler_pairs (g0 g : Dgl.Graph) (k : nat)
    (eids src dst : list nat) :
  LinkPred.NegativeSampler_call (LinkPred.NegativeSampler_init g0 k) g eids
    (src, dst) <->
  Forall (fun e => e < Dgl.number_of_edges g) eids /\
  0 < length eids * k /\
  length src = length eids * k /\
  length dst = length eids * k /\
  (forall i u, src !! i = Some u ->
     exists e w, eids !! (i / k) = Some e /\ Dgl.edges g !! e = Some (u, w)) /\
  (forall v, v ∈ dst -> v < Dgl.num_nodes g0 /\ 0 < Dgl.in_degree g0 v).
Proof.
  split.
  - intros (src0 & dst0 & Hf & (Hpos & Hlen & Hsup) & Hsrc). simpl in *.
    subst src. destruct (find_edges_spec _ _ _ _ Hf) as [Hl0 Hlk].
    rewrite length_repeat_interleave in *. rewrite Hl0 in *.
    split; [by eapply find_edges_valid|]. repeat (split; [done|]). split.
    + intros i u Hu. apply lookup_repeat_interleave in Hu. by apply Hlk.
    + intros v Hv. rewrite Forall_forall in Hsup.
      apply Hsup in Hv as (w & Hw & Hnz).
      exact (weights_support g0 k v w Hw Hnz).
  - intros (Hvalid & Hpos & Hlsrc & Hldst & Hsrc & Hdst).
    destruct (find_edges_Ok g eids Hvalid) as (src0 & dst0 & Hf).
    destruct (find_edges_spec _ _ _ _ Hf) as [Hl0 Hlk].
    assert (Heq : src = Torch.repeat_interleave src0 k).
    { apply list_eq. intros i.
      destruct (src !! i) as [u|] eqn:Hu.
      - pose proof (lookup_lt_Some _ _ _ Hu) as Hi.
        destruct (lookup_lt_is_Some_2 (Torch.repeat_interleave src0 k) i)
          as [x Hx]; [rewrite length_repeat_interleave; lia|].
        rewrite Hx. f_equal.
        destruct (Hsrc i u Hu) as (e & w & He & Hew).
        apply lookup_repeat_interleave in Hx.
        destruct (Hlk _ _ Hx) as (e' & w' & He' & Hew').
        congruence.
      - symmetry. apply lookup_ge_None. apply lookup_ge_None in Hu.
        rewrite length_repeat_interleave. lia. }
    exists src0, dst0. split; [done|]. simpl. split; [|done].
    rewrite <- Heq. split; [lia|]. split; [lia|].
    apply Forall_forall. intros v Hv.
    destruct (Hdst v Hv) as [Hv1 Hv2].
    exact (weights_nonzero g0 k v Hv1 Hv2).
Qed.

Lemma negative_sampler_pairs_witness :
  LinkPred.NegativeSampler_call
    (LinkPred.NegativeSampler_init
       {| Dgl.num_nodes := 3; Dgl.edges := [(0, 1); (2, 1); (1, 0)] |} 2)
    {| Dgl.num_nodes := 3; Dgl.edges := [(0, 1); (2, 1); (1, 0)] |} [1; 0]
    ([2; 2; 0; 0], [1; 0; 1; 1]).
Proof.
  apply (proj2 (negative_sampler_pairs
                  {| Dgl.num_nodes := 3; Dgl.edges := [(0, 1); (2, 1); (1, 0)] |}
                  {| Dgl.num_nodes := 3; Dgl.edges := [(0, 1); (2, 1); (1, 0)] |}
                  2 [1; 0] [2; 2; 0; 0] [1; 0; 1; 1])).
  split; [repeat constructor|]. split; [simpl; lia|].
  split; [reflexivity|]. split; [reflexivity|]. split.
  - intros [|[|[|[|i]]]] u Hu; simplify_eq/=.
    + exists 1, 1. done.
    + exists 1, 1. done.
    + exists 0, 1. done.
    + exists 0, 1. done.
  - intros v Hv. rewrite !elem_of_cons in Hv.
    destruct Hv as [->|[->|[->|[->|Hv]]]]; try (by apply elem_of_nil in Hv);
      (split; [simpl; lia|vm_compute; lia]).
Defined.

(** *** ScorePredictor *)

Section Score.
Context {T : Type} `{Scalar T}.

(** C9: on a subgraph and a matrix [x] with one row per node,
    [ScorePredictor.forward] returns one score per edge, the score of the
    edge [(u, v)] being the dot product of the rows [x[u]] and [x[v]], and
    leaves the feature frames of the subgraph as they were. *)
Theorem score_predictor_forward (subgraph : Dgl.FeatGraph T)
    (x : list (list T)) :
  Dgl.graph_wf (Dgl.structure subgraph) ->
  length x = Dgl.num_nodes (Dgl.structure subgraph) ->
  exists score,
    LinkPred.ScorePredictor_forward subgraph x = (Py.Ok score, subgraph) /\
    length score = Dgl.number_of_edges (Dgl.structure subgraph) /\
    forall i u v, Dgl.edges (Dgl.structure subgraph) !! i = Some (u, v) ->
      exists xu xv, x !! u = Some xu /\ x !! v = Some xv /\
        score !! i = Some [Torch.dot xu xv].
Proof.
  intros Hwf Hlen.
  exists (map (fun e => [Torch.dot (x !!! e.1) (x !!! e.2)])
              (Dgl.edges (Dgl.structure subgraph))).
  split; [|split].
  - unfold LinkPred.ScorePredictor_forward, Dgl.local_scope, Dgl.set_ndata.
    rewrite Hlen, Nat.eqb_refl. simpl.
    unfold Dgl.apply_edges_u_dot_v. simpl.
    rewrite lookup_insert_eq. simpl. by rewrite lookup_insert_eq.
  - by rewrite length_map.
  - intros i u v Hi.
    unfold Dgl.graph_wf in Hwf. rewrite Forall_forall in Hwf.
    destruct (Hwf (u, v)) as [Hu Hv]; [by eapply list_elem_of_lookup_2|].
    simpl in Hu, Hv. rewrite <- Hlen in Hu, Hv.
    apply lookup_lt_is_Some in Hu as [xu Hxu], Hv as [xv Hxv].
    exists xu, xv. split; [done|]. split; [done|].
    rewrite list_lookup_fmap, Hi. simpl.
    by rewrite (list_lookup_total_correct _ _ _ Hxu),
               (list_lookup_total_correct _ _ _ Hxv).
Qed.

End Score.

Lemma score_predictor_forward_witness :
  exists score,
    LinkPred.ScorePredictor_forward
      {| Dgl.structure := {| Dgl.num_nodes := 2; Dgl.edges := [(0, 1); (1, 1)] |};
         Dgl.ndata := ∅; Dgl.edata := ∅ |}
      [[1; 2]; [3; 4]]%Z
    = (Py.Ok score,
       {| Dgl.structure := {| Dgl.num_nodes := 2; Dgl.edges := [(0, 1); (1, 1)] |};
          Dgl.ndata := ∅; Dgl.edata := ∅ |}) /\
    length score = 2 /\
    forall i u v, [(0, 1); (1, 1)] !! i = Some (u, v) ->
      exists xu xv, [[1; 2]; [3; 4]]%Z !! u = Some xu /\
        [[1; 2]; [3; 4]]%Z !! v = Some xv /\
        score !! i = Some [Torch.dot xu xv].
Proof.
  apply (score_predictor_forward
    {| Dgl.structure := {| Dgl.num_nodes := 2; Dgl.edges := [(0, 1); (1, 1)] |};
       Dgl.ndata := ∅; Dgl.edata := ∅ |} [[1; 2]; [3; 4]]%Z).
  - unfold Dgl.graph_wf. simpl. repeat constructor.
  - reflexivity.
Defined.

(** *** Tensor indexing *)

Lemma index_select_ok {A} `{Inhabited A} (t : list A) (ids : list nat) :
  Forall (fun i => i < length t) ids ->
  Torch.index_select t ids = Py.Ok (map (fun i => t !!! i) ids).
Proof.
  induction 1 as [|i ids Hi _ IH]; simpl; [done|].
  apply lookup_lt_is_Some in Hi as [r Hr].
  rewrite Hr, IH. simpl. by rewrite (list_lookup_total_correct _ _ _ Hr).
Qed.

Lemma fit_row_ok {T} (n : nat) (r : list T) :
  length r = n -> Torch.fit_row n r = Py.Ok r.
Proof. intros <-. unfold Torch.fit_row. by rewrite Nat.eqb_refl. Qed.

Lemma put_rows_ok {T} (n : nat) (f : nat -> list T) (ids : list nat) :
  forall (buf vals : list (list T)),
  length ids = length vals ->
  Forall (fun i => i < length buf) ids ->
  Forall (fun r => length r = n) vals ->
  (forall j i r, ids !! j = Some i -> vals !! j = Some r -> r = f i) ->
  exists buf',
    Torch.put_rows n buf ids vals = Py.Ok buf' /\
    length buf' = length buf /\
    forall i, (i ∈ ids -> buf' !! i = Some (f i)) /\
              (i ∉ ids -> buf' !! i = buf !! i).
Proof.
  induction ids as [|i ids IH]; intros buf vals Hlen Hids Hvals Hf.
  - destruct vals; [|done]. exists buf. split; [done|]. split; [done|].
    intros i. split; [|done]. intros Hi. by apply elem_of_nil in Hi.
  - destruct vals as [|r vals]; [done|]. simpl in Hlen.
    apply Forall_cons in Hids as [Hi Hids], Hvals as [Hr Hvals].
    simpl. destruct (Nat.ltb_spec i (length buf)) as [_|?]; [|lia].
    rewrite (fit_row_ok _ _ Hr). simpl.
    destruct (IH (<[i := r]> buf) vals) as (buf' & E & Hl & Hlk).
    + lia.
    + by rewrite length_insert.
    + done.
    + intros j i' r' Hj Hv. exact (Hf (S j) i' r' Hj Hv).
    + exists buf'. split; [done|]. rewrite Hl, length_insert. split; [done|].
      intros i'. split.
      * intros Hin. destruct (decide (i' ∈ ids)) as [Hin'|Hnin].
        { by apply Hlk. }
        apply elem_of_cons in Hin as [->|?]; [|done].
        rewrite (proj2 (Hlk i) Hnin).
        rewrite list_lookup_insert_eq by done.
        by rewrite (Hf 0 i r eq_refl eq_refl).
      * intros Hnin. apply not_elem_of_cons in Hnin as [Hne Hnin].
        rewrite (proj2 (Hlk i') Hnin).
        by rewrite list_lookup_insert_ne.
Qed.

Lemma index_of_lookup (x : nat) (l : list nat) :
  x ∈ l -> l !! Dgl.index_of x l = Some x.
Proof.
  induction l as [|y l IH]; intros Hx; [by apply elem_of_nil in Hx|].
  simpl. destruct (decide (x = y)) as [->|Hne]; [done|].
  apply elem_of_cons in Hx as [?|Hx]; [done|]. by apply IH.
Qed.

Lemma index_of_NoDup (x j : nat) (l : list nat) :
  NoDup l -> l !! j = Some x -> Dgl.index_of x l = j.
Proof.
  intros Hnd Hj.
  assert (Hx : x ∈ l) by (by eapply list_elem_of_lookup_2).
  exact (NoDup_lookup _ _ _ _ Hnd (index_of_lookup _ _ Hx) Hj).
Qed.

(** *** Batches *)

Lemma concat_chunks_aux {A} (fuel b : nat) (l : list A) :
  0 < b -> length l <= fuel -> concat (Dgl.chunks_aux fuel b l) = l.
Proof.
  intros Hb. revert l. induction fuel as [|fuel IH]; intros l Hl.
  - by destruct l; [|simpl in Hl; lia].
  - destruct l as [|a l]; [done|].
    cbn [Dgl.chunks_aux concat]. rewrite IH.
    + apply take_drop.
    + rewrite length_drop. simpl in *. lia.
Qed.

Lemma elem_of_chunk {A} (b : nat) (l : list A) (x : A) :
  0 < b -> x ∈ l -> exists c, c ∈ Dgl.chunks b l /\ x ∈ c.
Proof.
  intros Hb Hx. unfold Dgl.chunks.
  rewrite <- (concat_chunks_aux (length l) b l Hb) in Hx at 1 by done.
  apply list_elem_of_In, in_concat in Hx as (c & Hc & Hxc).
  exists c. by rewrite !list_elem_of_In.
Qed.

Lemma NoDup_chunks_aux {A} (fuel b : nat) (l c : list A) :
  NoDup l -> c ∈ Dgl.chunks_aux fuel b l -> NoDup c.
Proof.
  revert l. induction fuel as [|fuel IH]; intros l Hnd Hc; simpl in Hc.
  - by apply elem_of_nil in Hc.
  - destruct l as [|a l']; [by apply elem_of_nil in Hc|].
    rewrite <- (take_drop b (a :: l')) in Hnd.
    apply NoDup_app in Hnd as (Ht & _ & Hd).
    apply elem_of_cons in Hc as [->|Hc]; [done|]. by eapply IH.
Qed.

(** *** inference *)

Section Inference.
Context {T : Type} `{Scalar T}.
Implicit Types (g : Dgl.Graph) (X : list (list T)) (layer : Dgl.Layer T).

Lemma layer_step_whole_graph (nl : Z) (l : nat) layer g X :
  length X = Dgl.num_nodes g ->
  LinkPred.layer_step nl l layer (Dgl.as_block g) X
  = Py.Ok (map (LinkPred.whole_graph_row nl l layer g X)
               (seq 0 (Dgl.num_nodes g))).
Proof.
  intros Hlen. unfold LinkPred.layer_step, Dgl.apply_layer. simpl.
  rewrite Hlen, Nat.eqb_refl. simpl. f_equal.
  unfold LinkPred.whole_graph_row, Torch.relu.
  case_bool_decide; [|done]. by rewrite map_map.
Qed.

Lemma messages_relabel X (B inp : list nat) (j v : nat)
    (es : list (nat * nat)) :
  NoDup B -> B !! j = Some v ->
  Forall (fun i => i < length X) inp ->
  (forall e, e ∈ es -> e.2 ∈ B -> e.1 ∈ inp) ->
  map (fun e => map (fun i => X !!! i) inp !!! e.1)
      (filter (fun e => e.2 = j)
         (map (fun e => (Dgl.index_of e.1 inp, Dgl.index_of e.2 B))
              (filter (fun e => e.2 ∈ B) es)))
  = map (fun e => X !!! e.1) (filter (fun e => e.2 = v) es).
Proof.
  intros Hnd Hj Hinp.
  assert (Hv : v ∈ B) by (by eapply list_elem_of_lookup_2).
  induction es as [|e es IH]; intros Hsrc; [done|].
  assert (IH' := IH (fun e' He' => Hsrc e' (list_elem_of_further _ _ _ He'))).
  rewrite (filter_cons (fun e => e.2 ∈ B)).
  rewrite (filter_cons (fun e => e.2 = v)).
  destruct (decide (e.2 ∈ B)) as [HeB|HeB].
  - cbn [map]. rewrite filter_cons. cbn [snd fst].
    destruct (decide (e.2 = v)) as [Hev|Hev].
    + rewrite decide_True by (rewrite Hev; by apply index_of_NoDup).
      cbn [map fst]. f_equal; [|exact IH'].
      apply list_lookup_total_correct.
      rewrite list_lookup_fmap.
      rewrite index_of_lookup by (apply Hsrc; [left|done]).
      done.
    + rewrite decide_False; [exact IH'|].
      intros Hidx. apply Hev.
      pose proof (index_of_lookup _ _ HeB) as Hlk.
      rewrite Hidx, Hj in Hlk. by injection Hlk.
  - rewrite decide_False by (intros Hev; apply HeB; by rewrite Hev).
    exact IH'.
Qed.

Lemma batch_rows (nl : Z) (l : nat) layer g X (B inp outn : list nat)
    (blocks : list Dgl.Block) :
  Dgl.graph_wf g -> length X = Dgl.num_nodes g ->
  NoDup B -> Forall (fun v => v < Dgl.num_nodes g) B ->
  Dgl.full_neighbor_batch g B = (inp, outn, blocks) ->
  exists block,
    blocks = [block] /\ outn = B /\
    (Torch.index_select X inp ≫= LinkPred.layer_step nl l layer block)
    = Py.Ok (map (LinkPred.whole_graph_row nl l layer g X) B).
Proof.
  intros Hwf Hlen Hnd HB Hbatch.
  unfold Dgl.full_neighbor_batch, Dgl.to_block in Hbatch.
  injection Hbatch as <- <- <-. eexists. split; [done|]. split; [done|].
  set (frontier := Dgl.in_subgraph g B).
  set (inp := B ++ remove_dups (filter (fun u => u ∉ B) frontier.*1)).
  assert (Hfr : forall e, e ∈ frontier -> e ∈ Dgl.edges g /\ e.2 ∈ B).
  { intros e He. apply list_elem_of_filter in He. tauto. }
  assert (Hinp : Forall (fun i => i < length X) inp).
  { rewrite Hlen. apply Forall_app. split; [done|].
    apply Forall_forall. intros u Hu.
    apply elem_of_remove_dups, list_elem_of_filter in Hu as [_ Hu].
    apply list_elem_of_fmap in Hu as (e & -> & He).
    apply Hfr in He as [He _].
    unfold Dgl.graph_wf in Hwf. rewrite Forall_forall in Hwf.
    by apply Hwf in He as [? _]. }
  assert (Hsrc : forall e, e ∈ Dgl.edges g -> e.2 ∈ B -> e.1 ∈ inp).
  { intros e He HeB. subst inp. apply elem_of_app.
    destruct (decide (e.1 ∈ B)) as [?|Hn]; [by left|right].
    apply elem_of_remove_dups, list_elem_of_filter. split; [done|].
    apply list_elem_of_fmap. exists e. split; [done|].
    apply list_elem_of_filter. done. }
  rewrite (index_select_ok _ _ Hinp).
  change (Py.Ok ?a ≫= ?f) with (f a).
  unfold LinkPred.layer_step, Dgl.apply_layer. cbn [Dgl.num_src Dgl.num_dst Dgl.bedges].
  rewrite length_map, Nat.eqb_refl.
  change (Py.Ok ?a ≫= ?f) with (f a). cbv beta. f_equal.
  assert (Hrows :
    map (fun j => Dgl.aggregate layer (map (fun i => X !!! i) inp !!! j)
                    (map (fun e => map (fun i => X !!! i) inp !!! e.1)
                       (filter (fun e => e.2 = j)
                          (map (fun e => (Dgl.index_of e.1 inp, Dgl.index_of e.2 B))
                             frontier))))
        (seq 0 (length B))
    = map (fun v => Dgl.aggregate layer (X !!! v)
                    (map (fun e => X !!! e.1)
                       (filter (fun e => e.2 = v) (Dgl.edges g)))) B).
  { apply list_eq. intros j. rewrite !list_lookup_fmap.
    destruct (B !! j) as [v|] eqn:Hj.
    - rewrite lookup_seq_lt by (by eapply lookup_lt_Some).
      change (0 + j) with j. cbn [fmap option_fmap option_map].
      f_equal. f_equal.
      + apply list_lookup_total_correct. rewrite list_lookup_fmap.
        unfold inp. rewrite lookup_app_l by (by eapply lookup_lt_Some).
        by rewrite Hj.
      + exact (messages_relabel X B inp j v (Dgl.edges g) Hnd Hj Hinp Hsrc).
    - rewrite lookup_seq_ge by (by apply lookup_ge_None). done. }
  unfold LinkPred.whole_graph_row, Torch.relu.
  case_bool_decide.
  - rewrite Hrows, map_map. done.
  - exact Hrows.
Qed.

Lemma inference_batches_rows (model : LinkPred.SAGE T) (l : nat) layer g X
    (cs : list (list nat)) :
  Dgl.graph_wf g -> length X = Dgl.num_nodes g ->
  (forall h hs, length (Dgl.aggregate layer h hs) = LinkPred.n_hidden model) ->
  Forall (fun c => NoDup c /\ Forall (fun v => v < Dgl.num_nodes g) c) cs ->
  forall out, length out = Dgl.num_nodes g ->
  exists out',
    LinkPred.inference_batches model l layer X
      (map (Dgl.full_neighbor_batch g) cs) out = Py.Ok out' /\
    length out' = Dgl.num_nodes g /\
    forall v,
      ((exists c, c ∈ cs /\ v ∈ c) ->
       out' !! v
       = Some (LinkPred.whole_graph_row (LinkPred.n_layers model) l layer g X v)) /\
      ((forall c, c ∈ cs -> v ∉ c) -> out' !! v = out !! v).
Proof.
  intros Hwf Hlen Hwidth Hcs.
  induction Hcs as [|c cs [Hnd Hc] _ IH]; intros out Hout.
  - exists out. split; [done|]. split; [done|]. intros v. split; [|done].
    intros (c & Hc & _). by apply elem_of_nil in Hc.
  - cbn [map LinkPred.inference_batches].
    destruct (Dgl.full_neighbor_batch g c) as [[inp outn] blocks] eqn:Hb.
    destruct (batch_rows (LinkPred.n_layers model) l layer g X c inp outn blocks
                Hwf Hlen Hnd Hc Hb) as (block & -> & -> & Hrun).
    unfold mbind, result_bind, Py.bind in *.
    change (Py.index [block] 0) with (Py.Ok block).
    destruct (Torch.index_select X inp) as [xs|]; [|done].
    rewrite Hrun.
    set (f := LinkPred.whole_graph_row (LinkPred.n_layers model) l layer g X).
    destruct (put_rows_ok (LinkPred.n_hidden model) f c out (map f c))
      as (out1 & Hput & Hlen1 & Hlk1).
    + by rewrite length_map.
    + by rewrite Hout.
    + apply Forall_forall. intros r Hr.
      apply list_elem_of_fmap in Hr as (v & -> & _).
      unfold f, LinkPred.whole_graph_row. case_bool_decide.
      * by rewrite length_map.
      * done.
    + intros j i r Hj Hr. rewrite list_lookup_fmap, Hj in Hr.
      by injection Hr.
    + unfold Torch.index_put. rewrite Hput.
      destruct (IH out1) as (out' & Hrest & Hlen' & Hlk'); [lia|].
      exists out'. split; [done|]. split; [done|]. intros v. split.
      * intros (c' & Hc' & Hv).
        destruct (decide (Exists (fun c'' => v ∈ c'') cs)) as [Hin|Hnin];
          rewrite Exists_exists in Hin || rewrite Exists_exists in Hnin.
        { by apply Hlk'. }
        rewrite (proj2 (Hlk' v)) by (intros c'' ? ?; apply Hnin; eauto).
        apply elem_of_cons in Hc' as [->|?]; [|exfalso; apply Hnin; eauto].
        by apply Hlk1.
      * intros Hnone.
        rewrite (proj2 (Hlk' v))
          by (intros c'' ?; apply Hnone; by apply list_elem_of_further).
        apply Hlk1, Hnone. left.
Qed.

Lemma inference_layers_forward (model : LinkPred.SAGE T) g
    (cs : list (list nat)) :
  Dgl.graph_wf g ->
  Forall (fun c => NoDup c /\ Forall (fun v => v < Dgl.num_nodes g) c) cs ->
  (forall v, v < Dgl.num_nodes g -> exists c, c ∈ cs /\ v ∈ c) ->
  forall (todo : list (Dgl.Layer T)) (l : nat) X
         (bound : option (list (list T))),
  length X = Dgl.num_nodes g ->
  (forall layer h hs, layer ∈ todo ->
     length (Dgl.aggregate layer h hs) = LinkPred.n_hidden model) ->
  todo <> [] \/ bound = Some X ->
  exists out,
    LinkPred.forward_loop (LinkPred.n_layers model) l
      (zip todo (replicate (length todo) (Dgl.as_block g))) X = Py.Ok out /\
    LinkPred.inference_layers model g (map (Dgl.full_neighbor_batch g) cs)
      l todo X bound = Py.Ok out.
Proof.
  intros Hwf Hcs Hcover todo.
  induction todo as [|layer rest IH]; intros l X bound Hlen Hwidth Hbound.
  - destruct Hbound as [?| ->]; [done|]. by exists X.
  - cbn [length replicate zip zip_with LinkPred.forward_loop
         LinkPred.inference_layers].
    rewrite (layer_step_whole_graph _ _ _ _ _ Hlen).
    set (rows := map (LinkPred.whole_graph_row (LinkPred.n_layers model) l layer g X)
                     (seq 0 (Dgl.num_nodes g))).
    destruct (inference_batches_rows model l layer g X cs Hwf Hlen
                (fun h hs => Hwidth layer h hs (list_elem_of_here _ _)) Hcs
                (Torch.zeros (Dgl.number_of_nodes g) (LinkPred.n_hidden model)))
      as (out' & Hrun & Hlen' & Hlk).
    { unfold Torch.zeros. by rewrite length_replicate. }
    assert (out' = rows) as ->.
    { apply list_eq. intros v. unfold rows. rewrite list_lookup_fmap.
      destruct (decide (v < Dgl.num_nodes g)) as [Hv|Hv].
      - rewrite (proj1 (Hlk v) (Hcover v Hv)).
        by rewrite lookup_seq_lt.
      - rewrite lookup_seq_ge by lia.
        apply lookup_ge_None. lia. }
    rewrite Hrun. unfold mbind, result_bind, Py.bind.
    apply IH.
    + unfold rows. by rewrite length_map, length_seq.
    + intros layer' h hs Hin. apply Hwidth. by apply list_elem_of_further.
    + by right.
Qed.

Lemma SAGE_init_layers (SAGEConv : nat -> nat -> nat -> Dgl.Layer T)
    (in_feats n_hidden : nat) (n_layers : Z) :
  LinkPred.layers (LinkPred.SAGE_init SAGEConv in_feats n_hidden n_layers) <> [] /\
  length (LinkPred.layers (LinkPred.SAGE_init SAGEConv in_feats n_hidden n_layers))
  = Z.to_nat (Z.max 1 n_layers).
Proof.
  split; [done|]. simpl. rewrite length_map, length_seq. lia.
Qed.

(** C4: for a model whose layers compute a node's row from the node's own
    row and the rows of all its in-neighbours, [inference] returns what
    [model.forward] returns on the whole graph, for every positive batch
    size. *)
Theorem inference_matches_forward (model : LinkPred.SAGE T) g X :
  Dgl.graph_wf g ->
  length X = Dgl.num_nodes g ->
  LinkPred.layers model <> [] ->
  (forall layer h hs, layer ∈ LinkPred.layers model ->
     length (Dgl.aggregate layer h hs) = LinkPred.n_hidden model) ->
  exists out,
    LinkPred.forward model
      (replicate (length (LinkPred.layers model)) (Dgl.as_block g)) X
    = Py.Ok out /\
    forall batch_size, (0 < batch_size)%Z ->
      LinkPred.inference model g X batch_size = Py.Ok out.
Proof.
  intros Hwf Hlen Hne Hwidth.
  assert (Hall : forall batch_size, (0 < batch_size)%Z ->
    exists out,
      LinkPred.forward model
        (replicate (length (LinkPred.layers model)) (Dgl.as_block g)) X
      = Py.Ok out /\
      LinkPred.inference model g X batch_size = Py.Ok out).
  { intros b Hb. unfold LinkPred.inference, Dgl.new_NodeDataLoader.
    cbn [andb]. destruct (Z.leb_spec b 0) as [?|_]; [lia|].
    unfold mbind, result_bind, Py.bind, Dgl.batches_in_order, Dgl.batches_of.
    cbn [Dgl.dl_drop_last Dgl.dl_batch_size Dgl.dl_nids].
    apply inference_layers_forward; try done; [| |by left].
    - apply Forall_forall. intros c Hc. split.
      + unfold Dgl.chunks in Hc.
        eapply NoDup_chunks_aux; [|exact Hc]. apply NoDup_seq.
      + apply Forall_forall. intros v Hv.
        pose proof (elem_of_chunks _ _ _ _ Hc Hv) as Hin.
        apply elem_of_seq in Hin. unfold Dgl.number_of_nodes in Hin. lia.
    - intros v Hv. apply elem_of_chunk; [lia|].
      apply elem_of_seq. unfold Dgl.number_of_nodes. lia. }
  destruct (Hall 1%Z) as (out & Hfw & _); [lia|].
  exists out. split; [done|]. intros b Hb.
  destruct (Hall b Hb) as (out' & Hfw' & Hinf).
  rewrite Hfw in Hfw'. by injection Hfw' as <-.
Qed.

End Inference.

Lemma inference_matches_forward_witness :
  exists out,
    LinkPred.forward
      {| LinkPred.n_layers := 2; LinkPred.n_hidden := 1;
         LinkPred.layers :=
           [ {| Dgl.aggregate := fun h hs => [foldr Z.add 0%Z (h ++ concat hs)] |};
             {| Dgl.aggregate := fun h hs => [foldr Z.add 1%Z (h ++ concat hs)] |} ] |}
      (replicate 2 (Dgl.as_block
         {| Dgl.num_nodes := 3; Dgl.edges := [(0, 1); (1, 2); (2, 0); (0, 2)] |}))
      [[1]; [-2]; [3]]%Z
    = Py.Ok out /\
    forall batch_size, (0 < batch_size)%Z ->
      LinkPred.inference
        {| LinkPred.n_layers := 2; LinkPred.n_hidden := 1;
           LinkPred.layers :=
             [ {| Dgl.aggregate := fun h hs => [foldr Z.add 0%Z (h ++ concat hs)] |};
               {| Dgl.aggregate := fun h hs => [foldr Z.add 1%Z (h ++ concat hs)] |} ] |}
        {| Dgl.num_nodes := 3; Dgl.edges := [(0, 1); (1, 2); (2, 0); (0, 2)] |}
        [[1]; [-2]; [3]]%Z batch_size
      = Py.Ok out.
Proof.
  apply (inference_matches_forward
    {| LinkPred.n_layers := 2; LinkPred.n_hidden := 1;
       LinkPred.layers :=
         [ {| Dgl.aggregate := fun h hs => [foldr Z.add 0%Z (h ++ concat hs)] |};
           {| Dgl.aggregate := fun h hs => [foldr Z.add 1%Z (h ++ concat hs)] |} ] |}
    {| Dgl.num_nodes := 3; Dgl.edges := [(0, 1); (1, 2); (2, 0); (0, 2)] |}
    [[1]; [-2]; [3]]%Z).
  - unfold Dgl.graph_wf. simpl. repeat constructor.
  - reflexivity.
  - simpl. discriminate.
  - intros layer h hs Hin. simpl in Hin.
    apply elem_of_cons in Hin as [->|Hin]; [reflexivity|].
    apply elem_of_cons in Hin as [->|Hin]; [reflexivity|].
    by apply elem_of_nil in Hin.
Defined.

Example inference_two_batches :
  LinkPred.inference
    {| LinkPred.n_layers := 2; LinkPred.n_hidden := 1;
       LinkPred.layers :=
         [ {| Dgl.aggregate := fun h hs => [foldr Z.add 0%Z (h ++ concat hs)] |};
           {| Dgl.aggregate := fun h hs => [foldr Z.add 1%Z (h ++ concat hs)] |} ] |}
    {| Dgl.num_nodes := 3; Dgl.edges := [(0, 1); (1, 2); (2, 0); (0, 2)] |}
    [[1]; [-2]; [3]]%Z 2
  = Py.Ok [[7]; [5]; [7]]%Z.
Proof. vm_compute. reflexivity. Qed.

(** *** Training loops *)

Section Loop.
Context {M : Type}.
Variable body : nat -> Run.session M -> Py.result unit * Run.session M.
Variable s0 : Run.session M.

Let rounds (n : nat) := Py.for_range body n s0.

(** A round that completes leaves the trace and [best_accuracy] alone, or
    prints an accuracy that is not above [best_accuracy], or prints one that
    is, makes it the new [best_accuracy] and saves the model. *)
Let step_ok (e : nat) (s s' : Run.session M) : Prop :=
  (Run.trace s' = Run.trace s /\ Run.best_accuracy s' = Run.best_accuracy s) \/
  exists a t,
    (Run.trace s' = Run.Printed e a t :: Run.trace s /\
     (a <= Run.best_accuracy s)%Q /\
     Run.best_accuracy s' = Run.best_accuracy s) \/
    (Run.trace s' = Run.Saved "model.pt" (Run.model s') :: Run.Printed e a t
                    :: Run.trace s /\
     (Run.best_accuracy s < a)%Q /\
     Run.best_accuracy s' = a).

Hypothesis start_trace : Run.trace s0 = [].
Hypothesis start_best : Run.best_accuracy s0 = 0%Q.
Hypothesis body_step :
  forall e s s', body e s = (Py.Ok tt, s') -> step_ok e s s'.

Lemma for_each_app {S} (f : nat -> S -> Py.result unit * S)
    (l1 l2 : list nat) (s : S) :
  Py.for_each f (l1 ++ l2) s
  = match Py.for_each f l1 s with
    | (Py.Ok _, s') => Py.for_each f l2 s'
    | (Py.Raise e, s') => (Py.Raise e, s')
    end.
Proof.
  revert s. induction l1 as [|i l1 IH]; intros s; simpl; [done|].
  destruct (f i s) as [[[]|e] s']; [apply IH|done].
Qed.

Lemma rounds_S (n : nat) (s' : Run.session M) :
  rounds (S n) = (Py.Ok tt, s') ->
  exists s, rounds n = (Py.Ok tt, s) /\ body n s = (Py.Ok tt, s').
Proof.
  unfold rounds, Py.for_range. rewrite seq_S, for_each_app. simpl.
  destruct (Py.for_each body (seq 0 n) s0) as [[[]|e] s]; [|done].
  intros Hb. exists s. split; [done|].
  destruct (body n s) as [[[]|e] s1]; [done|done].
Qed.

Lemma rounds_le (n n' : nat) (s' : Run.session M) :
  n <= n' -> rounds n' = (Py.Ok tt, s') -> exists s, rounds n = (Py.Ok tt, s).
Proof.
  intros Hle. revert s'.
  induction Hle as [|n' _ IH]; intros s' Hr; [by exists s'|].
  apply rounds_S in Hr as (s1 & Hr & _). by eapply IH.
Qed.

Lemma rounds_inv (n : nat) (s : Run.session M) :
  rounds n = (Py.Ok tt, s) ->
  (0 <= Run.best_accuracy s)%Q /\
  (forall e a t, Run.Printed e a t ∈ Run.trace s ->
     e < n /\ (a <= Run.best_accuracy s)%Q) /\
  (forall m, Run.checkpoint "model.pt" (Run.trace s) = Some m ->
     exists e a t s_e,
       e < n /\ rounds (S e) = (Py.Ok tt, s_e) /\ m = Run.model s_e /\
       Run.Printed e a t ∈ Run.trace s /\ a = Run.best_accuracy s).
Proof.
  revert s. induction n as [|n IH]; intros s Hr.
  - unfold rounds, Py.for_range in Hr. simpl in Hr. injection Hr as <-.
    rewrite start_trace, start_best. split; [apply Qle_refl|].
    split; [|done]. intros e a t Hin. by apply elem_of_nil in Hin.
  - pose proof Hr as Hr'.
    apply rounds_S in Hr as (s1 & Hr1 & Hb).
    destruct (IH s1 Hr1) as (Hpos & Hpr & Hck).
    destruct (body_step _ _ _ Hb) as [[Ht Hbest]|(a & t & [(Ht & Ha & Hbest)|(Ht & Ha & Hbest)])];
      rewrite Ht, Hbest.
    + split; [done|]. split.
      * intros e a t Hin. apply Hpr in Hin as [? ?]. split; [lia|done].
      * intros m Hm. apply Hck in Hm as (e & a & t & s_e & ? & ? & ? & ? & ?).
        exists e, a, t, s_e. repeat split; try done. lia.
    + split; [done|]. split.
      * intros e a' t' Hin. apply elem_of_cons in Hin as [Heq|Hin].
        { injection Heq as -> -> ->. split; [lia|done]. }
        apply Hpr in Hin as [? ?]. split; [lia|done].
      * intros m Hm. simpl in Hm.
        apply Hck in Hm as (e & a' & t' & s_e & ? & ? & ? & ? & ?).
        exists e, a', t', s_e. repeat split; try done; [lia|].
        by apply list_elem_of_further.
    + split; [eapply Qle_trans; [exact Hpos|by apply Qlt_le_weak]|]. split.
      * intros e a' t' Hin. apply elem_of_cons in Hin as [Heq|Hin]; [done|].
        apply elem_of_cons in Hin as [Heq|Hin].
        { injection Heq as -> -> ->. split; [lia|apply Qle_refl]. }
        apply Hpr in Hin as [? Hle]. split; [lia|].
        eapply Qle_trans; [exact Hle|by apply Qlt_le_weak].
      * intros m Hm. cbn [Run.checkpoint] in Hm.
        rewrite decide_True in Hm by done. injection Hm as <-.
        exists n, a, t, s. repeat split; try done; [lia|].
        apply list_elem_of_further. left.
Qed.

Lemma rounds_keep_best : Run.keeps_best rounds.
Proof.
  intros n s Hr. split; [|split].
  - intros n' s' Hle. revert s'.
    induction Hle as [|n' Hle IH]; intros s' Hr'.
    + rewrite Hr in Hr'. injection Hr' as <-. apply Qle_refl.
    + apply rounds_S in Hr' as (s1 & Hr1 & Hb).
      eapply Qle_trans; [exact (IH _ Hr1)|].
      destruct (body_step _ _ _ Hb) as [[_ ->]|(a & t & [(_ & _ & ->)|(_ & Ha & ->)])];
        [apply Qle_refl|apply Qle_refl|by apply Qlt_le_weak].
  - intros s' Hr'. apply rounds_S in Hr' as (s1 & Hr1 & Hb).
    rewrite Hr in Hr1. injection Hr1 as <-.
    destruct (body_step _ _ _ Hb) as [[Ht _]|(a & t & [(Ht & Ha & _)|(Ht & Ha & _)])].
    + exists []. split; [done|]. split; [|split; [|split]].
      * intros p m Hin. by apply elem_of_nil in Hin.
      * intros e a t Hin. by apply elem_of_nil in Hin.
      * intros (m & Hin). by apply elem_of_nil in Hin.
      * intros (a & t & Hin & _). by apply elem_of_nil in Hin.
    + exists [Run.Printed n a t]. split; [done|]. split; [|split; [|split]].
      * intros p m Hin. apply list_elem_of_singleton in Hin. done.
      * intros e a' t' Hin. apply list_elem_of_singleton in Hin.
        by injection Hin as -> _ _.
      * intros (m & Hin). apply list_elem_of_singleton in Hin. done.
      * intros (a' & t' & Hin & Hlt). apply list_elem_of_singleton in Hin.
        injection Hin as -> _. exfalso. by eapply Qlt_not_le.
    + exists [Run.Saved "model.pt" (Run.model s'); Run.Printed n a t].
      split; [done|]. split; [|split; [|split]].
      * intros p m Hin. apply elem_of_cons in Hin as [Heq|Hin].
        { by injection Heq as -> ->. }
        apply list_elem_of_singleton in Hin. done.
      * intros e a' t' Hin. apply elem_of_cons in Hin as [Heq|Hin]; [done|].
        apply list_elem_of_singleton in Hin. by injection Hin as -> _ _.
      * intros _. exists a, t. split; [|done]. apply list_elem_of_further. left.
      * intros _. exists (Run.model s'). left.
  - intros m Hm.
    destruct (rounds_inv n s Hr) as (_ & Hpr & Hck).
    apply Hck in Hm as (e & a & t & s_e & ? & ? & ? & ? & ->).
    exists e, (Run.best_accuracy s), t, s_e. repeat split; try done.
    intros e' a' t' Hin. by apply Hpr in Hin as [_ ?].
Qed.

End Loop.

Lemma keeps_best_ext {M} (r1 r2 : nat -> Py.result unit * Run.session M) :
  (forall n, r1 n = r2 n) -> Run.keeps_best r1 -> Run.keeps_best r2.
Proof.
  intros Heq Hk n s Hr. rewrite <- Heq in Hr.
  destruct (Hk n s Hr) as (Hmono & Hstep & Hck). split; [|split].
  - intros n' s'. rewrite <- Heq. apply Hmono.
  - intros s'. rewrite <- Heq. apply Hstep.
  - intros m Hm. destruct (Hck m Hm) as (e & a & t & s_e & ? & ? & ?).
    exists e, a, t, s_e. by rewrite <- Heq.
Qed.

Lemma keeps_best_raise {M} (e : Py.exn) (s : Run.session M) :
  Run.keeps_best (fun _ => (Py.Raise e, s)).
Proof. intros n s' Hr. done. Qed.

Section LinkPredLoop.
Context {T : Type} `{Scalar T}.
Variable train_epoch : nat -> LinkPred.SAGE T -> LinkPred.SAGE T.
Variable fit_predict : list (list T) -> list Z -> list (list T) -> list Z.
Variables (graph : Dgl.Graph) (node_features : list (list T))
  (node_labels : list Z).

Lemma evaluate_two_arguments (emb label : LinkPred.ndarray) :
  Py.call (LinkPred.evaluate fit_predict) [emb; label] = Py.Raise Py.TypeError.
Proof. reflexivity. Qed.

Lemma epoch_body_raises (epoch : nat) (s : Run.session (LinkPred.SAGE T)) :
  exists e s',
    LinkPred.epoch_body train_epoch fit_predict graph node_features
      node_labels epoch s = (Py.Raise e, s') /\
    Run.trace s' = Run.trace s /\
    Run.best_accuracy s' = Run.best_accuracy s /\
    Run.model s' = train_epoch epoch (Run.model s) /\
    match LinkPred.inference (Run.model s') graph node_features 16384 with
    | Py.Ok _ => e = Py.TypeError
    | Py.Raise e' => e = e'
    end.
Proof.
  unfold LinkPred.epoch_body. cbn [Run.model Run.best_accuracy Run.trace].
  destruct (LinkPred.inference (train_epoch epoch (Run.model s)) graph
              node_features 16384) as [emb|e] eqn:Hinf.
  - rewrite evaluate_two_arguments. eexists _, _. split; [done|].
    cbn [Run.model Run.best_accuracy Run.trace]. by rewrite Hinf.
  - eexists _, _. split; [done|].
    cbn [Run.model Run.best_accuracy Run.trace]. by rewrite Hinf.
Qed.

(** C3: [evaluate] has five required parameters and the training loop calls
    it with two arguments, so the call raises [TypeError]; a round of the
    loop whose [inference] has returned therefore ends in [TypeError], with
    no accuracy printed, [best_accuracy] as before and nothing saved, and so
    does the loop, in its first round. *)
Theorem evaluation_raises_type_error :
  length (Py.params (LinkPred.evaluate fit_predict)) = 5 /\
  (forall emb label,
     Py.call (LinkPred.evaluate fit_predict) [emb; label]
     = Py.Raise Py.TypeError) /\
  (forall epoch s,
     exists e s',
       LinkPred.epoch_body train_epoch fit_predict graph node_features
         node_labels epoch s = (Py.Raise e, s') /\
       Run.trace s' = Run.trace s /\
       Run.best_accuracy s' = Run.best_accuracy s /\
       match LinkPred.inference (Run.model s') graph node_features 16384 with
       | Py.Ok _ => e = Py.TypeError
       | Py.Raise e' => e = e'
       end) /\
  (forall model,
     exists e s',
       LinkPred.training_loop train_epoch fit_predict graph node_features
         node_labels model = (Py.Raise e, s') /\
       Run.trace s' = [] /\
       Run.best_accuracy s' = 0%Q /\
       Run.model s' = train_epoch 0 model /\
       match LinkPred.inference (Run.model s') graph node_features 16384 with
       | Py.Ok _ => e = Py.TypeError
       | Py.Raise e' => e = e'
       end).
Proof.
  split; [reflexivity|]. split; [exact evaluate_two_arguments|]. split.
  - intros epoch s.
    destruct (epoch_body_raises epoch s) as (e & s' & ? & ? & ? & ? & ?).
    by exists e, s'.
  - intros model.
    unfold LinkPred.training_loop, LinkPred.training_rounds, Py.for_range.
    cbn [seq Py.for_each].
    destruct (epoch_body_raises 0 (LinkPred.start model))
      as (e & s' & -> & ? & ? & ? & ?).
    by exists e, s'.
Qed.

Lemma link_prediction_keeps_best (model : LinkPred.SAGE T) :
  Run.keeps_best
    (LinkPred.training_rounds train_epoch fit_predict graph node_features
       node_labels model).
Proof.
  apply rounds_keep_best; [done|done|].
  intros e s s' Hb.
  destruct (epoch_body_raises e s) as (x & s1 & Hr & _).
  rewrite Hr in Hb. done.
Qed.

End LinkPredLoop.

Section MultiGPULoop.
Context {M : Type}.
Variable train_epoch : Z -> nat -> M -> M.
Variable shuffle : nat -> list nat -> list nat.
Variable predict : nat -> M -> list nat -> list Z.

Lemma multi_gpu_keeps_best (rank world_size : Z) (graph : Dgl.Graph)
    (node_labels : list Z) (train_nids valid_nids : list nat) (model : M) :
  Run.keeps_best
    (MultiGPU.train_rounds train_epoch shuffle predict rank world_size graph
       node_labels train_nids valid_nids model).
Proof.
  unfold MultiGPU.train_rounds.
  destruct (MultiGPU.create_dataloader rank world_size graph train_nids)
    as [train_dataloader|e]; [|apply keeps_best_raise].
  destruct (MultiGPU.create_dataloader 0 1 graph valid_nids)
    as [valid_dataloader|e]; [|apply keeps_best_raise].
  apply rounds_keep_best; [done|done|].
  intros e s s' Hb. unfold MultiGPU.epoch_body in Hb.
  cbn [Run.model Run.best_accuracy Run.trace] in Hb.
  destruct (rank =? 0)%Z.
  - destruct (MultiGPU.validation_accuracy _ _ _ _ _ _) as [accuracy|x];
      [|done].
    destruct (Qlt_le_dec (Run.best_accuracy s) accuracy) as [Hlt|Hle];
      injection Hb as <-; right; exists accuracy, None; [right|left]; done.
  - injection Hb as <-. by left.
Qed.

End MultiGPULoop.

(** C5: in the training loop of either notebook, [best_accuracy] never
    decreases from one completed round to a later one; a round saves the
    state dict of the model to [model.pt] exactly when the validation
    accuracy it has computed is above the best so far; and after every round
    a checkpoint in [model.pt] is the state dict of a round whose validation
    accuracy is the greatest computed so far. *)
Theorem training_loops_keep_best :
  (forall (M : Type) (train_epoch : Z -> nat -> M -> M)
          (shuffle : nat -> list nat -> list nat)
          (predict : nat -> M -> list nat -> list Z)
          (rank world_size : Z) (graph : Dgl.Graph) (node_labels : list Z)
          (train_nids valid_nids : list nat) (model : M),
     MultiGPU.train train_epoch shuffle predict rank world_size graph
       node_labels train_nids valid_nids model
     = MultiGPU.train_rounds train_epoch shuffle predict rank world_size graph
         node_labels train_nids valid_nids model 10 /\
     Run.keeps_best
       (MultiGPU.train_rounds train_epoch shuffle predict rank world_size
          graph node_labels train_nids valid_nids model)) /\
  (forall (T : Type) (HT : Scalar T)
          (train_epoch : nat -> LinkPred.SAGE T -> LinkPred.SAGE T)
          (fit_predict : list (list T) -> list Z -> list (list T) -> list Z)
          (graph : Dgl.Graph) (node_features : list (list T))
          (node_labels : list Z) (model : LinkPred.SAGE T),
     LinkPred.training_loop train_epoch fit_predict graph node_features
       node_labels model
     = LinkPred.training_rounds train_epoch fit_predict graph node_features
         node_labels model 10 /\
     Run.keeps_best
       (LinkPred.training_rounds train_epoch fit_predict graph node_features
          node_labels model)).
Proof.
  split.
  - intros. split; [reflexivity|apply multi_gpu_keeps_best].
  - intros. split; [reflexivity|apply link_prediction_keeps_best].
Qed.

(** *** MultiLayerNeighborSampler *)

Lemma filter_sublist {A} (P : A -> Prop) `{!forall x, Decision (P x)}
    (l1 l2 : list A) :
  l1 `sublist_of` l2 -> filter P l1 `sublist_of` filter P l2.
Proof.
  induction 1 as [|x l1 l2 _ IH|x l1 l2 _ IH]; [done| |].
  - rewrite !filter_cons. destruct (decide (P x)); [by apply sublist_skip|done].
  - rewrite filter_cons. destruct (decide (P x)); [by apply sublist_cons|done].
Qed.

(** C7: a frontier returned by [sample_frontier(i, g, seeds)] has, for each
    seed node, at most [fanouts[i]] edges into it, and all its edges are
    edges of [g] into seed nodes. *)
Theorem sample_frontier_bounded (self : MultiGPU.MultiLayerNeighborSampler)
    (i : Z) (g : Dgl.Graph) (seeds : list nat) (frontier : Dgl.Graph) :
  MultiGPU.sample_frontier self i g seeds frontier ->
  exists fanout,
    Py.index (MultiGPU.fanouts self) i = Py.Ok fanout /\
    (forall v, v ∈ seeds ->
       (Z.of_nat (Dgl.in_degree frontier v) <= fanout)%Z /\
       Dgl.in_degree frontier v <= Dgl.in_degree g v) /\
    (forall e, e ∈ Dgl.edges frontier -> e ∈ Dgl.edges g /\ e.2 ∈ seeds).
Proof.
  intros (fanout & Hidx & _ & Hsub & Hdst & Hfan).
  exists fanout. split; [done|]. split.
  - intros v Hv. rewrite Forall_forall in Hfan. split; [by apply Hfan|].
    unfold Dgl.in_degree. by apply sublist_length, filter_sublist.
  - intros e He. rewrite Forall_forall in Hdst. split; [|by apply Hdst].
    by apply (sublist_subseteq _ _ Hsub).
Qed.

Lemma sample_frontier_bounded_witness :
  exists fanout,
    Py.index [4; 1; 4]%Z 1 = Py.Ok fanout /\
    (forall v, v ∈ [2] ->
       Z.le (Z.of_nat (Dgl.in_degree
                         {| Dgl.num_nodes := 3; Dgl.edges := [(1, 2)] |} v))
            fanout /\
       Dgl.in_degree {| Dgl.num_nodes := 3; Dgl.edges := [(1, 2)] |} v
       <= Dgl.in_degree
            {| Dgl.num_nodes := 3; Dgl.edges := [(0, 2); (1, 2); (2, 0)] |} v) /\
    (forall e, e ∈ [(1, 2)] -> e ∈ [(0, 2); (1, 2); (2, 0)] /\ e.2 ∈ [2]).
Proof.
  apply (sample_frontier_bounded
    (MultiGPU.MultiLayerNeighborSampler_init [4; 1; 4]%Z) 1
    {| Dgl.num_nodes := 3; Dgl.edges := [(0, 2); (1, 2); (2, 0)] |} [2]
    {| Dgl.num_nodes := 3; Dgl.edges := [(1, 2)] |}).
  exists 1%Z. split; [reflexivity|]. split; [reflexivity|]. split.
  - simpl. apply sublist_cons, sublist_skip, sublist_nil_l.
  - split.
    + apply Forall_singleton. simpl. apply list_elem_of_here.
    + apply Forall_singleton. vm_compute. discriminate.
Defined.

(** *** Distributed tensors *)

Section DistTensors.
Context {T : Type} `{Scalar T} {G : Type}.

Lemma slice_data (t sl : Dist.Tensor T) (start stop : Z) :
  Dist.slice t start stop = Py.Ok sl ->
  forall x, x ∈ Dist.data sl -> x ∈ Dist.data t.
Proof.
  unfold Dist.slice. destruct (Dist.shape t) as [|n rest]; [done|].
  destruct (_ && _); [done|].
  intros Hsl x Hx. injection Hsl as <-. simpl in Hx.
  apply elem_of_take in Hx as (i & Hi & _). rewrite lookup_drop in Hi.
  by eapply list_elem_of_lookup_2.
Qed.

Lemma slice_in_range (t : Dist.Tensor T) (n : nat) (rest : list nat)
    (start stop : Z) :
  Dist.shape t = n :: rest ->
  (0 <= start)%Z -> (stop <= Z.of_nat n)%Z ->
  Dist.slice t start stop
  = Py.Ok {| Dist.shape := Z.to_nat (stop - start) :: rest;
             Dist.dtype_of := Dist.dtype_of t;
             Dist.data :=
               take (Z.to_nat (stop - start) * Dist.numel rest)
                    (drop (Z.to_nat start * Dist.numel rest) (Dist.data t)) |}.
Proof.
  intros Hsh Hlo Hhi. unfold Dist.slice. rewrite Hsh.
  destruct (Z.ltb_spec start 0) as [?|_]; [lia|].
  destruct (Z.ltb_spec (Z.of_nat n) stop) as [?|_]; [lia|].
  by rewrite andb_false_r.
Qed.

Lemma slice_out_of_range (t : Dist.Tensor T) (n : nat) (rest : list nat)
    (start stop : Z) :
  Dist.shape t = n :: rest ->
  (start < stop)%Z -> (start < 0 \/ Z.of_nat n < stop)%Z ->
  Dist.slice t start stop = Py.Raise Py.IndexError.
Proof.
  intros Hsh Hlt Hout. unfold Dist.slice. rewrite Hsh.
  destruct (Z.ltb_spec start stop) as [_|?]; [|lia].
  destruct (Z.ltb_spec start 0) as [?|?]; [done|].
  destruct (Z.ltb_spec (Z.of_nat n) stop) as [?|?]; [done|lia].
Qed.

(** C10: the distributed-tensor constructor takes a shape, a dtype and an
    optional init function.  Without an init function the tensor has the
    given shape and dtype and all its entries are zero, so every slice read
    from it holds zeros only: a slice of rows that the tensor has is returned
    and is a tensor of zeros.  The notebook cell that slices such a tensor,
    [arr[0:10]], displays ten zeros when the graph has at least ten nodes,
    and raises [IndexError] when it has fewer.  With an init function the
    entries are those that the function produces for the shape and the
    dtype. *)
Theorem dist_tensor_initialization (shape : list nat) (dt : Dist.dtype)
    (rng : G) :
  (let r := Dist.DistTensor (T := T) shape dt None rng in
   r.2 = rng /\
   Dist.shape r.1 = shape /\ Dist.dtype_of r.1 = dt /\
   length (Dist.data r.1) = Dist.numel shape /\
   Forall (fun x => x = zero) (Dist.data r.1) /\
   (forall start stop sl, Dist.slice r.1 start stop = Py.Ok sl ->
      Forall (fun x => x = zero) (Dist.data sl)) /\
   (forall n rest start stop, shape = n :: rest ->
      (0 <= start <= stop)%Z -> (stop <= Z.of_nat n)%Z ->
      Dist.slice r.1 start stop
      = Py.Ok {| Dist.shape := Z.to_nat (stop - start) :: rest;
                 Dist.dtype_of := dt;
                 Dist.data :=
                   replicate (Z.to_nat (stop - start) * Dist.numel rest)
                             zero |})) /\
  (forall init_func : Dist.init_function T G,
     let r := Dist.DistTensor shape dt (Some init_func) rng in
     Dist.shape r.1 = shape /\ Dist.dtype_of r.1 = dt /\
     (Dist.data r.1, r.2) = init_func shape dt rng) /\
  (forall th_rand ogbn_products accepts adagrad
          (st st1 st2 : DistBasic.notebook (T := T) (G := G))
          (r : Py.result unit),
     DistBasic.run_cell th_rand ogbn_products accepts adagrad
       DistBasic.CreateArr st = (Py.Ok tt, st1) ->
     DistBasic.run_cell th_rand ogbn_products accepts adagrad
       DistBasic.SliceArr st1 = (r, st2) ->
     exists o dg,
       DistBasic.the_graph st = Py.Ok (o, dg) /\
       (10 <= Dist.dg_num_nodes dg ->
        r = Py.Ok tt /\
        st2 = DistBasic.print
                (DistBasic.OutTensor
                   {| Dist.shape := [10]; Dist.dtype_of := Dist.float32;
                      Dist.data := replicate 10 zero |}) st1) /\
       (Dist.dg_num_nodes dg < 10 ->
        r = Py.Raise Py.IndexError /\ st2 = st1)).
Proof.
  assert (Hzero :
    forall (t sl : Dist.Tensor T) start stop,
      Forall (fun x => x = zero) (Dist.data t) ->
      Dist.slice t start stop = Py.Ok sl ->
      Forall (fun x => x = zero) (Dist.data sl)).
  { intros t sl start stop Ht Hsl. rewrite Forall_forall in *.
    intros x Hx. apply Ht. by eapply slice_data. }
  assert (Hrows : forall n width lo rows : nat, lo + rows <= n ->
    take (rows * width) (drop (lo * width) (replicate (n * width) (zero : T)))
    = replicate (rows * width) zero).
  { intros n width lo rows Hle.
    rewrite drop_replicate, take_replicate. f_equal. nia. }
  split; [|split].
  - simpl. split; [done|]. split; [done|]. split; [done|].
    split; [by rewrite length_replicate|].
    assert (Hz : Forall (fun x : T => x = zero) (replicate (Dist.numel shape) zero)).
    { apply Forall_forall. intros x Hx. by apply elem_of_replicate in Hx as [-> _]. }
    split; [done|]. split.
    + intros start stop sl Hsl.
      exact (Hzero {| Dist.shape := shape; Dist.dtype_of := dt;
                      Dist.data := replicate (Dist.numel shape) zero |}
                   sl start stop Hz Hsl).
    + intros n rest start stop -> Hlo Hhi.
      rewrite (slice_in_range _ n rest) by (done || lia).
      cbn [Dist.dtype_of Dist.data]. f_equal. f_equal.
      change (Dist.numel (n :: rest)) with (n * Dist.numel rest).
      apply Hrows. lia.
  - intros init_func. simpl. by destruct (init_func shape dt rng).
  - intros th_rand ogbn_products accepts adagrad st st1 st2 r Hc Hs.
    simpl in Hc. unfold DistBasic.create_arr in Hc.
    destruct (DistBasic.the_graph st) as [[o dg]|e]; [|done].
    simpl in Hc. injection Hc as <-. exists o, dg. split; [done|].
    cbn [DistBasic.run_cell DistBasic.arr] in Hs.
    set (t := {| Dist.shape := [Dist.dg_num_nodes dg];
                 Dist.dtype_of := Dist.float32;
                 Dist.data := replicate (Dist.numel [Dist.dg_num_nodes dg]) zero |})
      in *.
    split.
    + intros Hn.
      rewrite (slice_in_range t (Dist.dg_num_nodes dg) []) in Hs
        by (done || lia).
      injection Hs as <- <-. split; [done|]. f_equal. f_equal.
      pose proof (Hrows (Dist.dg_num_nodes dg) (Dist.numel []) 0 10) as Hr.
      cbn [Dist.dtype_of Dist.data t]. f_equal.
      exact (Hr ltac:(lia)).
    + intros Hn.
      rewrite (slice_out_of_range t (Dist.dg_num_nodes dg) []) in Hs
        by (done || lia).
      by injection Hs as <- <-.
Qed.

End DistTensors.

Lemma dist_tensor_initialization_witness :
  let dg :=
    {| Dist.dg_num_nodes := 12; Dist.dg_num_edges := 0;
       Dist.dg_ndata := (∅ : gmap string (Dist.Tensor Z));
       Dist.dg_edata := ∅ |} in
  let run :=
    DistBasic.run_cell (T := Z) (G := unit)
      (fun shape dt rng => (replicate (Dist.numel shape) 5%Z, rng))
      dg (fun _ _ => true) (fun row grad => row) in
  let st :=
    {| DistBasic.initialized := true; DistBasic.graphs := [dg];
       DistBasic.g := Some 0; DistBasic.arr := None;
       DistBasic.emb := None; DistBasic.init_defined := false;
       DistBasic.rng := tt; DistBasic.stdout := [] |} in
  let st1 := (run DistBasic.CreateArr st).2 in
  (run DistBasic.SliceArr st1).1 = Py.Ok tt /\
  (run DistBasic.SliceArr st1).2
  = DistBasic.print
      (DistBasic.OutTensor
         {| Dist.shape := [10]; Dist.dtype_of := Dist.float32;
            Dist.data := replicate 10 0%Z |}) st1.
Proof.
  intros dg run st st1.
  destruct (proj2 (proj2 (dist_tensor_initialization (T := Z) (G := unit)
              [12] Dist.float32 tt))
            (fun shape dt rng => (replicate (Dist.numel shape) 5%Z, rng))
            dg (fun _ _ => true) (fun row grad => row)
            st st1 (run DistBasic.SliceArr st1).2 (run DistBasic.SliceArr st1).1
            eq_refl eq_refl) as (o & dg' & Hg & Hten & _).
  injection Hg as <- <-. apply Hten. simpl. lia.
Defined.

(** *** Distributed embeddings *)

Section Embeddings.
Context {T : Type} `{Scalar T}.

Lemma alter_rows_frame (f : nat -> list T -> list T) (ids : list nat)
    (tbl : list (list T)) (j : nat) :
  j ∉ ids ->
  foldr (fun i tbl => alter (f i) i tbl) tbl ids !! j = tbl !! j.
Proof.
  induction ids as [|i ids IH]; intros Hj; [done|].
  apply not_elem_of_cons in Hj as [Hne Hj]. simpl.
  rewrite list_lookup_alter_ne by done. by apply IH.
Qed.

Lemma alter_rows_length (f : nat -> list T -> list T) (ids : list nat)
    (tbl : list (list T)) :
  length (foldr (fun i tbl => alter (f i) i tbl) tbl ids) = length tbl.
Proof.
  induction ids as [|i ids IH]; [done|]. simpl. by rewrite length_alter.
Qed.

Lemma sparse_step_frame (rule : Dist.update_rule T)
    (e : Dist.DistEmbedding T) (j : nat) :
  Forall (fun r => j ∉ r.1) (Dist.recorded e) ->
  Dist.table (Dist.sparse_step rule e) !! j = Dist.table e !! j.
Proof.
  unfold Dist.sparse_step. simpl.
  induction 1 as [|[idx [grad|]] rest Hj _ IH]; simpl; [done| |done].
  unfold Dist.apply_recorded. rewrite alter_rows_frame; [done|].
  by rewrite elem_of_remove_dups.
Qed.

Lemma sparse_step_length (rule : Dist.update_rule T)
    (e : Dist.DistEmbedding T) :
  length (Dist.table (Dist.sparse_step rule e)) = length (Dist.table e).
Proof.
  unfold Dist.sparse_step. simpl.
  induction (Dist.recorded e) as [|[idx [grad|]] rest IH]; simpl; [done| |done].
  unfold Dist.apply_recorded. by rewrite alter_rows_length.
Qed.

(** C8: when a minibatch of indices is looked up with gradient recording
    and the loss is propagated back and the sparse optimizer steps, the rows
    of the table at the other indices are as before; the table keeps its
    number of rows and nothing remains recorded.  In the notebook the
    minibatch is [0, 1, 2, 3]. *)
Theorem sparse_step_touches_minibatch_only (rule : Dist.update_rule T)
    (e e' : Dist.DistEmbedding T) (idx : list nat) (feats : list (list T)) :
  Dist.recorded e = [] ->
  DistBasic.train_step rule e idx = Py.Ok (feats, e') ->
  Torch.index_select (Dist.table e) idx = Py.Ok feats /\
  length (Dist.table e') = length (Dist.table e) /\
  Dist.recorded e' = [] /\
  (forall i, i ∉ idx -> Dist.table e' !! i = Dist.table e !! i) /\
  (forall (G : Type) th_rand ogbn_products accepts
          (st st' : DistBasic.notebook (T := T) (G := G)),
     DistBasic.emb st = Some e ->
     DistBasic.run_cell th_rand ogbn_products accepts rule
       DistBasic.TrainEmb st = (Py.Ok tt, st') ->
     exists e1,
       DistBasic.emb st' = Some e1 /\
       DistBasic.graphs st' = DistBasic.graphs st /\
       forall i, 4 <= i -> Dist.table e1 !! i = Dist.table e !! i).
Proof.
  intros Hrec.
  assert (Hstep : forall idx feats e',
    DistBasic.train_step rule e idx = Py.Ok (feats, e') ->
    Torch.index_select (Dist.table e) idx = Py.Ok feats /\
    length (Dist.table e') = length (Dist.table e) /\
    Dist.recorded e' = [] /\
    forall i, i ∉ idx -> Dist.table e' !! i = Dist.table e !! i).
  { clear idx feats e'. intros idx feats e' Hstep.
    unfold DistBasic.train_step, Dist.lookup in Hstep.
    unfold mbind, result_bind, Py.bind in Hstep.
    destruct (Torch.index_select (Dist.table e) idx) as [rows|x]; [|done].
    cbn [fst snd] in Hstep. injection Hstep as <- <-.
    split; [done|]. split; [by rewrite sparse_step_length|]. split; [done|].
    intros i Hi. rewrite sparse_step_frame; [done|].
    simpl. rewrite Hrec. by apply Forall_singleton. }
  intros Hts. destruct (Hstep _ _ _ Hts) as (? & ? & ? & ?).
  repeat (split; [done|]).
  intros G th_rand ogbn_products accepts st st' He Hrun.
  simpl in Hrun. rewrite He in Hrun.
  destruct (DistBasic.train_step rule e [0; 1; 2; 3]) as [[feats1 e1]|x] eqn:Hts1;
    [|done].
  injection Hrun as <-. exists e1. split; [done|]. split; [done|].
  intros i Hi. destruct (Hstep _ _ _ Hts1) as (_ & _ & _ & Hframe).
  apply Hframe. intros Hin. rewrite !elem_of_cons in Hin.
  destruct Hin as [->|[->|[->|[->|Hin]]]]; try lia. by apply elem_of_nil in Hin.
Qed.

End Embeddings.

Lemma sparse_step_touches_minibatch_only_witness :
  exists e',
    DistBasic.train_step (T := Z) (zip_with Z.sub)
      {| Dist.num_embeddings := 5; Dist.embedding_dim := 1;
         Dist.table := [[10]; [20]; [30]; [40]; [50]]%Z;
         Dist.recorded := [] |} [3; 1; 3]
    = Py.Ok ([[40]; [20]; [40]]%Z, e') /\
    Dist.table e' = [[10]; [19]; [30]; [38]; [50]]%Z /\
    forall i, i ∉ [3; 1; 3] -> Dist.table e' !! i = [[10]; [20]; [30]; [40]; [50]]%Z !! i.
Proof.
  eexists. split; [reflexivity|]. split; [reflexivity|].
  refine (proj1 (proj2 (proj2 (proj2
    (sparse_step_touches_minibatch_only (T := Z) (zip_with Z.sub)
       {| Dist.num_embeddings := 5; Dist.embedding_dim := 1;
          Dist.table := [[10]; [20]; [30]; [40]; [50]]%Z;
          Dist.recorded := [] |} _ [3; 1; 3] [[40]; [20]; [40]]%Z
       eq_refl eq_refl))))).
Defined.

(** *** The cells and the data of the distributed graph *)

Section Cells.
Context {T : Type} `{Scalar T} {G : Type}.
Variable th_rand : list nat -> Dist.dtype -> G -> list T * G.
Variable ogbn_products : Dist.DistGraph T.
Variable accepts : Dist.DistGraph T -> Dist.Tensor T -> bool.
Variable adagrad : Dist.update_rule T.

Let run := DistBasic.run_cell th_rand ogbn_products accepts adagrad.

Lemma print_graphs (o : DistBasic.output) (st : DistBasic.notebook (T := T) (G := G)) :
  DistBasic.graphs (DistBasic.print o st) = DistBasic.graphs st.
Proof. reflexivity. Qed.

Lemma the_graph_Ok (st : DistBasic.notebook (T := T) (G := G)) (o : nat)
    (dg : Dist.DistGraph T) :
  DistBasic.the_graph st = Py.Ok (o, dg) ->
  DistBasic.g st = Some o /\ DistBasic.graphs st !! o = Some dg.
Proof.
  unfold DistBasic.the_graph. destruct (DistBasic.g st) as [o'|]; [|done].
  destruct (DistBasic.graphs st !! o') as [dg'|] eqn:E; [|done].
  intros [= -> ->]. done.
Qed.

(** C2, amended: every cell other than the assignment
    [g.ndata['new_data'] = arr] leaves every distributed graph object as it
    is.  The assignment, when it returns, has changed only the graph that
    [g] refers to, and of that graph only the node data: the entry
    ['new_data'] has become [arr], and all other node-data entries and the
    edge data are as they were.  When it raises it has changed nothing, and
    it does not raise when [g] and [arr] are bound and the graph takes the
    tensor as node data. *)
Theorem cells_and_graph_data (c : DistBasic.cell)
    (st st' : DistBasic.notebook (T := T) (G := G)) (r : Py.result unit)
    (o : nat) (dg : Dist.DistGraph T) :
  run c st = (r, st') ->
  DistBasic.graphs st !! o = Some dg ->
  match c with
  | DistBasic.AssignNewData =>
      match r with
      | Py.Ok _ =>
          exists og t,
            DistBasic.g st = Some og /\ DistBasic.arr st = Some t /\
            DistBasic.graphs st' !! o
            = Some (if decide (o = og) then
                      {| Dist.dg_num_nodes := Dist.dg_num_nodes dg;
                         Dist.dg_num_edges := Dist.dg_num_edges dg;
                         Dist.dg_ndata :=
                           <["new_data" := t]> (Dist.dg_ndata dg);
                         Dist.dg_edata := Dist.dg_edata dg |}
                    else dg)
      | Py.Raise _ =>
          st' = st /\
          forall t, DistBasic.g st = Some o -> DistBasic.arr st = Some t ->
            accepts dg t = false
      end
  | _ => DistBasic.graphs st' !! o = Some dg
  end.
Proof.
  intros Hrun Ho. unfold run in Hrun.
  destruct c;
    try (simpl in Hrun;
         unfold DistBasic.print_ndata_slice, DistBasic.create_arr in Hrun;
         repeat match type of Hrun with
         | (match ?x with _ => _ end) = _ => destruct x eqn:?
         | (if ?x then _ else _) = _ => destruct x eqn:?
         | (let '(_, _) := ?x in _) = _ => destruct x eqn:?
         end;
         injection Hrun as <- <-; simpl; done).
  - simpl in Hrun. destruct (DistBasic.initialized st);
      injection Hrun as <- <-; simpl; [|done].
    by apply lookup_app_l_Some.
  - cbn [DistBasic.run_cell] in Hrun. unfold DistBasic.the_graph in Hrun.
    destruct (DistBasic.g st) as [og|] eqn:Hg.
    2: { injection Hrun as <- <-. split; [done|]. intros t [=]. }
    destruct (DistBasic.graphs st !! og) as [dgg|] eqn:Hog.
    2: { injection Hrun as <- <-. split; [done|].
         intros t [= ->]. by rewrite Ho in Hog. }
    destruct (DistBasic.arr st) as [t|] eqn:Harr.
    2: { injection Hrun as <- <-. split; [done|]. intros t _ [=]. }
    destruct (accepts dgg t) eqn:Hacc.
    + injection Hrun as <- <-. exists og, t. split; [done|]. split; [done|].
      cbn [DistBasic.graphs]. destruct (decide (o = og)) as [->|Hne].
      * rewrite Ho in Hog. injection Hog as <-.
        rewrite list_lookup_insert_eq; [done|]. by eapply lookup_lt_Some.
      * by rewrite list_lookup_insert_ne.
    + injection Hrun as <- <-. split; [done|].
      intros t' [= ->] [= <-]. rewrite Ho in Hog. by injection Hog as <-.
Qed.

End Cells.

(** C2, as stated, fails: after the cells up to the second creation of
    [arr], the cell [g.ndata['new_data'] = arr] adds the entry ['new_data']
    to the node data of the distributed graph. *)
Lemma assignment_adds_node_data :
  let run :=
    DistBasic.run_cell (T := Z) (G := unit)
      (fun shape dt rng => (replicate (Dist.numel shape) 5%Z, rng))
      {| Dist.dg_num_nodes := 3; Dist.dg_num_edges := 2;
         Dist.dg_ndata :=
           {[ "train_mask" :=
                {| Dist.shape := [3]; Dist.dtype_of := Dist.bool8;
                   Dist.data := [1; 0; 1]%Z |} ]};
         Dist.dg_edata := ∅ |}
      (fun _ _ => true) (fun row grad => row) in
  exists st dg dg',
    DistBasic.run_cells (T := Z) (G := unit)
      (fun shape dt rng => (replicate (Dist.numel shape) 5%Z, rng))
      {| Dist.dg_num_nodes := 3; Dist.dg_num_edges := 2;
         Dist.dg_ndata :=
           {[ "train_mask" :=
                {| Dist.shape := [3]; Dist.dtype_of := Dist.bool8;
                   Dist.data := [1; 0; 1]%Z |} ]};
         Dist.dg_edata := ∅ |}
      (fun _ _ => true) (fun row grad => row)
      [DistBasic.Initialize; DistBasic.CreateDistGraph; DistBasic.CreateArrInit]
      (DistBasic.fresh tt) = (Py.Ok tt, st) /\
    DistBasic.graphs st !! 0 = Some dg /\
    Dist.dg_ndata dg !! "new_data" = None /\
    (run DistBasic.AssignNewData st).1 = Py.Ok tt /\
    DistBasic.graphs (run DistBasic.AssignNewData st).2 !! 0 = Some dg' /\
    Dist.dg_ndata dg' !! "new_data"
    = Some {| Dist.shape := [3]; Dist.dtype_of := Dist.float32;
              Dist.data := [5; 5; 5]%Z |}.
Proof.
  intros run. eexists _, _, _.
  split; [reflexivity|]. split; [reflexivity|]. split; [reflexivity|].
  split; [reflexivity|]. split; [reflexivity|]. reflexivity.
Qed.

Lemma cells_and_graph_data_witness :
  let dg :=
    {| Dist.dg_num_nodes := 3; Dist.dg_num_edges := 2;
       Dist.dg_ndata := (∅ : gmap string (Dist.Tensor Z));
       Dist.dg_edata := ∅ |} in
  let run :=
    DistBasic.run_cell (T := Z) (G := unit)
      (fun shape dt rng => (replicate (Dist.numel shape) 5%Z, rng))
      dg (fun _ _ => true) (fun row grad => row) in
  let st :=
    {| DistBasic.initialized := true;
       DistBasic.graphs := [dg; dg];
       DistBasic.g := Some 1;
       DistBasic.arr :=
         Some {| Dist.shape := [3]; Dist.dtype_of := Dist.float32;
                 Dist.data := [5; 5; 5]%Z |};
       DistBasic.emb := None;
       DistBasic.init_defined := true; DistBasic.rng := tt;
       DistBasic.stdout := [] |} in
  exists og t,
    DistBasic.g st = Some og /\ DistBasic.arr st = Some t /\
    DistBasic.graphs (run DistBasic.AssignNewData st).2 !! 1
    = Some (if decide (1 = og) then
              {| Dist.dg_num_nodes := 3; Dist.dg_num_edges := 2;
                 Dist.dg_ndata := <["new_data" := t]> ∅;
                 Dist.dg_edata := ∅ |}
            else dg).
Proof.
  intros dg run st.
  exact (cells_and_graph_data (T := Z) (G := unit)
           (fun shape dt rng => (replicate (Dist.numel shape) 5%Z, rng))
           dg (fun _ _ => true) (fun row grad => row)
           DistBasic.AssignNewData st (run DistBasic.AssignNewData st).2
           (Py.Ok tt) 1 dg eq_refl eq_refl).
Defined.

(** A run of [train] on rank 0 where the validation accuracy of epoch [e] is
    [min(e, 4) / 4]: the checkpoint is the model at the end of epoch 4. *)
Lemma training_loops_keep_best_witness :
  let rounds :=
    MultiGPU.train_rounds (M := nat)
      (fun rank epoch m => S m) (fun epoch nids => nids)
      (fun epoch m nodes =>
         map (fun v => if v <? epoch then ([0; 1; 1; 0]%Z !!! v) else 2%Z) nodes)
      0 1 {| Dgl.num_nodes := 4; Dgl.edges := [] |} [0; 1; 1; 0]%Z
      [0; 1; 2; 3] [0; 1; 2; 3] 0 in
  exists s,
    rounds 10 = (Py.Ok tt, s) /\
    Run.checkpoint "model.pt" (Run.trace s) = Some 5 /\
    exists e a t s_e,
      e < 10 /\ rounds (S e) = (Py.Ok tt, s_e) /\ 5 = Run.model s_e /\
      Run.Printed e a t ∈ Run.trace s /\
      forall e' a' t', Run.Printed e' a' t' ∈ Run.trace s -> (a' <= a)%Q.
Proof.
  intros rounds.
  destruct (proj1 training_loops_keep_best nat
              (fun rank epoch m => S m) (fun epoch nids => nids)
              (fun epoch m nodes =>
                 map (fun v => if v <? epoch then ([0; 1; 1; 0]%Z !!! v) else 2%Z)
                     nodes)
              0%Z 1%Z {| Dgl.num_nodes := 4; Dgl.edges := [] |} [0; 1; 1; 0]%Z
              [0; 1; 2; 3] [0; 1; 2; 3] 0) as [_ Hkeep].
  fold rounds in Hkeep.
  eexists. split; [vm_compute; reflexivity|].
  split; [vm_compute; reflexivity|].
  refine (proj2 (proj2 (Hkeep 10 _ _)) 5 _); vm_compute; reflexivity.
Defined.

(** ** Further properties of the notebooks *)

(** *** create_dataloader: edge cases and coverage *)

(** [create_dataloader] raises [ZeroDivisionError] exactly when the world
    size is zero.  For every other world size and every rank, also negative
    ones and ranks that are not below the world size, the slice itself never
    raises: when it is empty the loader constructor raises [ValueError], and
    otherwise the call returns a loader over the slice, which is a run of
    consecutive elements of [nids]. *)
Theorem create_dataloader_world_sizes (rank world_size : Z)
    (graph : Dgl.Graph) (nids : list nat) :
  match MultiGPU.create_dataloader rank world_size graph nids with
  | Py.Ok dl =>
      world_size <> 0%Z /\
      Dgl.dl_graph dl = graph /\
      Dgl.dl_nids dl = MultiGPU.rank_slice rank world_size nids /\
      Dgl.dl_nids dl <> [] /\
      exists i n, Dgl.dl_nids dl = take n (drop i nids)
  | Py.Raise e =>
      (world_size = 0%Z /\ e = Py.ZeroDivisionError) \/
      (world_size <> 0%Z /\ e = Py.ValueError /\
       MultiGPU.rank_slice rank world_size nids = [])
  end.
Proof.
  rewrite create_dataloader_cases.
  destruct (Z.eqb_spec world_size 0) as [Hw|Hw]; [by left|].
  destruct (MultiGPU.rank_slice rank world_size nids) as [|x sl] eqn:Hsl;
    [by right|].
  cbn [MultiGPU.rank_loader Dgl.dl_graph Dgl.dl_nids].
  repeat (split; [done|]). rewrite <- Hsl. unfold MultiGPU.rank_slice, Py.slice.
  by eexists _, _.
Qed.

Lemma create_dataloader_config (rank world_size : Z) (graph : Dgl.Graph)
    (nids : list nat) (dl : Dgl.NodeDataLoader) :
  MultiGPU.create_dataloader rank world_size graph nids = Py.Ok dl ->
  Dgl.dl_graph dl = graph /\
  Dgl.dl_batch_size dl = 1024%Z /\
  Dgl.dl_shuffle dl = true /\
  Dgl.dl_drop_last dl = false /\
  Dgl.dl_fanouts dl = [Some 4; Some 4; Some 4]%Z.
Proof. intros Hdl. by apply create_dataloader_inv in Hdl as (_ & -> & _). Qed.

Lemma create_dataloader_single_worker_nids (graph : Dgl.Graph)
    (nids : list nat) :
  nids <> [] ->
  exists dl,
    MultiGPU.create_dataloader 0 1 graph nids = Py.Ok dl /\
    Dgl.dl_nids dl = nids /\
    Dgl.dl_batch_size dl = 1024%Z /\
    Dgl.dl_drop_last dl = false.
Proof.
  intros Hne.
  destruct (create_dataloader_nids 0 1 graph nids) as (dl & E & -> & _);
    [lia|lia|destruct nids; [done|simpl; lia]|].
  eexists. split; [done|]. split; [|done].
  cbn [MultiGPU.rank_loader Dgl.dl_nids].
  rewrite Z.div_1_r, Nat2Z.id. simpl. by rewrite take_ge.
Qed.

Lemma create_dataloader_single_worker_empty (graph : Dgl.Graph) :
  MultiGPU.create_dataloader 0 1 graph [] = Py.Raise Py.ValueError.
Proof. reflexivity. Qed.

(** The call [create_dataloader(0, 1, graph, nids)], which is how the
    validation loader is made, returns a loader that holds all the node
    IDs, in order, when there is at least one; on an empty list it raises
    [ValueError]. *)
Theorem create_dataloader_single_worker (graph : Dgl.Graph)
    (nids : list nat) :
  (nids <> [] ->
   exists dl,
     MultiGPU.create_dataloader 0 1 graph nids = Py.Ok dl /\
     Dgl.dl_nids dl = nids) /\
  (nids = [] ->
   MultiGPU.create_dataloader 0 1 graph nids = Py.Raise Py.ValueError).
Proof.
  split.
  - intros Hne.
    destruct (create_dataloader_single_worker_nids graph nids Hne)
      as (dl & E & Hn & _).
    by exists dl.
  - intros ->. apply create_dataloader_single_worker_empty.
Qed.

Lemma create_dataloader_single_worker_witness :
  exists dl,
    MultiGPU.create_dataloader 0 1
      {| Dgl.num_nodes := 8; Dgl.edges := [] |} [5; 3; 7] = Py.Ok dl /\
    Dgl.dl_nids dl = [5; 3; 7].
Proof.
  apply (proj1 (create_dataloader_single_worker
                  {| Dgl.num_nodes := 8; Dgl.edges := [] |} [5; 3; 7])).
  discriminate.
Defined.

(** With at least as many node IDs as workers, every rank has a loader, and
    the slices of the ranks [0 .. w-1], one after the other, are [nids]
    without its last [len(nids) mod w] elements. *)
Theorem create_dataloader_slices_concat (graph : Dgl.Graph)
    (nids : list nat) (w : Z) :
  (1 <= w)%Z -> (w <= Z.of_nat (length nids))%Z ->
  exists dls,
    length dls = Z.to_nat w /\
    (forall r dl, dls !! r = Some dl ->
       MultiGPU.create_dataloader (Z.of_nat r) w graph nids = Py.Ok dl) /\
    concat (map Dgl.dl_nids dls)
    = take (length nids - Z.to_nat (Z.of_nat (length nids) mod w)) nids.
Proof.
  intros Hw Hlen. set (p := Z.to_nat (Z.of_nat (length nids) / w)).
  assert (Hm : forall m, m <= Z.to_nat w ->
    exists dls,
      length dls = m /\
      (forall r dl, dls !! r = Some dl ->
         MultiGPU.create_dataloader (Z.of_nat r) w graph nids = Py.Ok dl) /\
      concat (map Dgl.dl_nids dls) = take (m * p) nids).
  { induction m as [|m IH]; intros Hle.
    - exists []. split; [done|]. split; [done|]. by rewrite take_0.
    - destruct IH as (dls & Hlen' & Hdl & Hcat); [lia|].
      destruct (create_dataloader_nids (Z.of_nat m) w graph nids)
        as (dl & E & Hn & _); [lia|lia|lia|].
      fold p in Hn. rewrite Nat2Z.id in Hn.
      exists (dls ++ [dl]). split; [rewrite length_app; simpl; lia|]. split.
      + intros r dl' Hr. apply lookup_app_Some in Hr as [Hr|[Hge Hr]].
        * by apply Hdl.
        * rewrite Hlen' in Hge, Hr.
          destruct (r - m) as [|?] eqn:Hrm; simpl in Hr; [|done].
          injection Hr as <-. replace r with m by lia. done.
      + rewrite map_app, concat_app, Hcat. simpl. rewrite app_nil_r, Hn.
        cbn [MultiGPU.rank_loader Dgl.dl_nids].
        rewrite take_take_drop. f_equal. lia. }
  destruct (Hm (Z.to_nat w)) as (dls & Hlen' & Hdl & Hcat); [lia|].
  exists dls. split; [done|]. split; [done|]. rewrite Hcat. f_equal.
  subst p. rewrite Z.mod_eq by lia.
  assert ((0 <= Z.of_nat (length nids) / w)%Z) by (apply Z.div_pos; lia).
  assert ((w * (Z.of_nat (length nids) / w) <= Z.of_nat (length nids))%Z)
    by (apply Z.mul_div_le; lia).
  nia.
Qed.

Lemma create_dataloader_slices_concat_witness :
  exists dls,
    length dls = 3 /\
    (forall r dl, dls !! r = Some dl ->
       MultiGPU.create_dataloader (Z.of_nat r) 3
         {| Dgl.num_nodes := 20; Dgl.edges := [] |}
         [10; 11; 12; 13; 14; 15; 16] = Py.Ok dl) /\
    concat (map Dgl.dl_nids dls) = [10; 11; 12; 13; 14; 15].
Proof.
  apply (create_dataloader_slices_concat
           {| Dgl.num_nodes := 20; Dgl.edges := [] |}
           [10; 11; 12; 13; 14; 15; 16] 3); simpl; lia.
Defined.

Lemma chunks_aux_bounds {A} (fuel b : nat) (l c : list A) :
  0 < b -> c ∈ Dgl.chunks_aux fuel b l -> 0 < length c <= b.
Proof.
  intros Hb. revert l. induction fuel as [|fuel IH]; intros l Hc; simpl in Hc.
  - by apply elem_of_nil in Hc.
  - destruct l as [|a l']; [by apply elem_of_nil in Hc|].
    apply elem_of_cons in Hc as [->|Hc]; [|by eapply IH].
    rewrite length_take. simpl. lia.
Qed.

(** One pass over the loader that [create_dataloader] returns visits every
    node ID of the loader exactly once, in batches that are not empty and
    have at most 1024 node IDs. *)
Theorem create_dataloader_pass (rank world_size : Z) (graph : Dgl.Graph)
    (nids : list nat) (dl : Dgl.NodeDataLoader) (batches : list (list nat)) :
  MultiGPU.create_dataloader rank world_size graph nids = Py.Ok dl ->
  Dgl.seed_batches dl batches ->
  concat batches ≡ₚ Dgl.dl_nids dl /\
  Forall (fun b => 0 < length b <= 1024) batches.
Proof.
  intros Hdl (_ & order & Hord & ->).
  destruct (create_dataloader_config _ _ _ _ _ Hdl) as (_ & Hb & Hsh & Hdrop & _).
  unfold Dgl.batches_of. rewrite Hsh in Hord. rewrite Hdrop, Hb. split.
  - unfold Dgl.chunks. rewrite concat_chunks_aux; [done|lia|done].
  - apply Forall_forall. intros b Hin.
    change 1024 with (Z.to_nat 1024). eapply chunks_aux_bounds; [lia|exact Hin].
Qed.

Lemma create_dataloader_pass_witness :
  concat [[11; 10]] ≡ₚ [10; 11] /\
  Forall (fun b => 0 < length b <= 1024) [[11; 10]].
Proof.
  apply (create_dataloader_pass 0 1 {| Dgl.num_nodes := 20; Dgl.edges := [] |}
           [10; 11]
           {| Dgl.dl_graph := {| Dgl.num_nodes := 20; Dgl.edges := [] |};
              Dgl.dl_nids := [10; 11];
              Dgl.dl_fanouts := [Some 4; Some 4; Some 4]%Z;
              Dgl.dl_batch_size := 1024;
              Dgl.dl_shuffle := true;
              Dgl.dl_drop_last := false;
              Dgl.dl_num_workers := 0 |} [[11; 10]]).
  - reflexivity.
  - split; [simpl; lia|]. exists [11; 10]. split; [|reflexivity].
    simpl. apply perm_swap.
Defined.

(** *** train: which rounds complete, and what they leave *)

Lemma create_dataloader_Ok (rank world_size : Z) (graph : Dgl.Graph)
    (nids : list nat) :
  (0 <= rank < world_size)%Z ->
  (world_size <= Z.of_nat (length nids))%Z ->
  exists dl, MultiGPU.create_dataloader rank world_size graph nids = Py.Ok dl.
Proof.
  intros Hr Hlen.
  destruct (create_dataloader_nids rank world_size graph nids)
    as (dl & E & _); [lia|done|done|].
  by exists dl.
Qed.

Lemma for_each_invariant {S} (P : S -> Prop)
    (body : nat -> S -> Py.result unit * S) (todo : list nat) :
  (forall e s r s', P s -> body e s = (r, s') -> P s') ->
  forall s r s', P s -> Py.for_each body todo s = (r, s') -> P s'.
Proof.
  intros Hbody. induction todo as [|e todo IH]; intros s r s' Hs Hrun.
  - simpl in Hrun. by injection Hrun as _ <-.
  - simpl in Hrun. destruct (body e s) as [[[]|x] s1] eqn:Hb.
    + eapply IH; [|exact Hrun]. by eapply Hbody.
    + injection Hrun as _ <-. by eapply Hbody.
Qed.

Lemma accuracy_score_bounds (y_true y_pred : list Z) (a : Q) :
  Sklearn.accuracy_score y_true y_pred = Py.Ok a -> (0 <= a <= 1)%Q.
Proof.
  unfold Sklearn.accuracy_score.
  destruct (negb (length y_true =? length y_pred)); [done|].
  destruct (length y_true) as [|n] eqn:Hlen; [done|].
  intros [= <-].
  pose proof (length_filter (fun p : Z * Z => p.1 = p.2) (zip y_true y_pred)) as Hf.
  pose proof (length_zip_with (@pair Z Z) y_true y_pred) as Hz.
  rewrite Hz in Hf. unfold Qle. cbn [Qnum Qden]. lia.
Qed.

Section TrainRuns.
Context {M : Type}.
Variable train_epoch : Z -> nat -> M -> M.
Variable shuffle : nat -> list nat -> list nat.
Variable predict : nat -> M -> list nat -> list Z.

Let epoch_body := MultiGPU.epoch_body train_epoch shuffle predict.

(** The accuracy of a round is between 0 and 1, so [best_accuracy] is
    between 0 and 1 when [train] ends, whether it returns or raises. *)
Theorem train_best_accuracy_bounds (rank world_size : Z) (graph : Dgl.Graph)
    (node_labels : list Z) (train_nids valid_nids : list nat) (model : M)
    (r : Py.result unit) (s : Run.session M) :
  MultiGPU.train train_epoch shuffle predict rank world_size graph
    node_labels train_nids valid_nids model = (r, s) ->
  (0 <= Run.best_accuracy s <= 1)%Q /\
  Forall (fun p => (0 <= p.2 <= Run.best_accuracy s)%Q)
         (Log.printed (Run.trace s)).
Proof.
  unfold MultiGPU.train, MultiGPU.train_rounds.
  set (P := fun s : Run.session M =>
    (0 <= Run.best_accuracy s <= 1)%Q /\
    Forall (fun p => (0 <= p.2 <= Run.best_accuracy s)%Q)
           (Log.printed (Run.trace s))).
  assert (HP0 : P (MultiGPU.start model)).
  { split; [simpl; split; [apply Qle_refl|done]|]. simpl. constructor. }
  destruct (MultiGPU.create_dataloader rank world_size graph train_nids)
    as [tdl|e]; [|by intros [= _ <-]].
  destruct (MultiGPU.create_dataloader 0 1 graph valid_nids)
    as [vdl|e]; [|by intros [= _ <-]].
  apply (for_each_invariant P); [|exact HP0].
  clear. intros e s r s' [Hb Hpr] Hbody.
  unfold MultiGPU.epoch_body in Hbody.
  cbn [Run.model Run.best_accuracy Run.trace] in Hbody.
  destruct (rank =? 0)%Z; [|by injection Hbody as _ <-].
  destruct (MultiGPU.validation_accuracy _ _ _ _ _ _) as [a|x] eqn:Ha;
    [|by injection Hbody as _ <-].
  assert (Hab : (0 <= a <= 1)%Q).
  { unfold MultiGPU.validation_accuracy in Ha.
    unfold mbind, result_bind, Py.bind in Ha.
    repeat match type of Ha with
    | (match ?x with _ => _ end) = _ => destruct x; [|done]
    end.
    by eapply accuracy_score_bounds. }
  destruct (Qlt_le_dec (Run.best_accuracy s) a) as [Hlt|Hle];
    injection Hbody as _ <-; split; simpl; try done.
  - constructor; [simpl; split; [tauto|apply Qle_refl]|].
    eapply Forall_impl; [exact Hpr|]. intros p [? ?]. split; [done|].
    eapply Qle_trans; [eassumption|by apply Qlt_le_weak].
  - constructor; [simpl; tauto|done].
Qed.

End TrainRuns.

Section TrainRounds.
Context {M : Type}.
Variable train_epoch : Z -> nat -> M -> M.
Variable shuffle : nat -> list nat -> list nat.
Variable predict : nat -> M -> list nat -> list Z.



Lemma validation_batches_Ok (node_labels : list Z) (epoch : nat) (model : M)
    (batches : list (list nat)) :
  Forall (Forall (fun v => v < length node_labels)) batches ->
  MultiGPU.validation_batches predict node_labels epoch model batches
  = Py.Ok (map (fun b => map (fun v => node_labels !!! v) b) batches,
           map (predict epoch model) batches).
Proof.
  induction 1 as [|b batches Hb _ IH]; [done|].
  simpl. rewrite (index_select_ok _ _ Hb). simpl. rewrite IH. done.
Qed.

Lemma length_concat_map {A B} (f : list A -> list B) (ls : list (list A)) :
  (forall l, length (f l) = length l) ->
  length (concat (map f ls)) = length (concat ls).
Proof.
  intros Hf. induction ls as [|l ls IH]; [done|].
  simpl. rewrite !length_app, Hf, IH. done.
Qed.

Lemma validation_accuracy_Ok (node_labels : list Z)
    (valid_dataloader : Dgl.NodeDataLoader) (epoch : nat) (model : M) :
  Dgl.dl_batch_size valid_dataloader = 1024%Z ->
  Dgl.dl_drop_last valid_dataloader = false ->
  Dgl.dl_nids valid_dataloader <> [] ->
  shuffle epoch (Dgl.dl_nids valid_dataloader)
    ≡ₚ Dgl.dl_nids valid_dataloader ->
  Forall (fun v => v < length node_labels) (Dgl.dl_nids valid_dataloader) ->
  (forall nodes, length (predict epoch model nodes) = length nodes) ->
  exists a,
    MultiGPU.validation_accuracy shuffle predict node_labels valid_dataloader
      epoch model = Py.Ok a.
Proof.
  intros Hb Hdrop Hne Hperm Hin Hpred.
  unfold MultiGPU.validation_accuracy, Dgl.batches_of. rewrite Hb, Hdrop.
  set (order := shuffle epoch (Dgl.dl_nids valid_dataloader)) in *.
  set (batches := Dgl.chunks (Z.to_nat 1024) order).
  assert (Hcat : concat batches = order).
  { unfold batches, Dgl.chunks. apply concat_chunks_aux; [lia|done]. }
  assert (Hord : order <> []).
  { intros Ho. rewrite Ho in Hperm. by apply Permutation_nil_l in Hperm. }
  assert (Hbs : Forall (Forall (fun v => v < length node_labels)) batches).
  { apply Forall_forall. intros b Hbin. apply Forall_forall. intros v Hv.
    rewrite Forall_forall in Hin. apply Hin. rewrite <- Hperm.
    by eapply elem_of_chunks. }
  rewrite (validation_batches_Ok _ _ _ _ Hbs).
  unfold mbind, result_bind, Py.bind. cbn [fst snd].
  assert (Hnb : batches <> []).
  { intros Hnil. rewrite Hnil in Hcat. simpl in Hcat. by rewrite <- Hcat in Hord. }
  unfold Np.concatenate.
  destruct batches as [|b0 bs] eqn:Hbatches; [done|]. cbn [map].
  change (predict epoch model b0 :: map (predict epoch model) bs)
    with (map (predict epoch model) (b0 :: bs)).
  change (map (fun v => node_labels !!! v) b0
          :: map (fun b => map (fun v => node_labels !!! v) b) bs)
    with (map (fun b => map (fun v : nat => node_labels !!! v) b) (b0 :: bs)).
  unfold Sklearn.accuracy_score.
  rewrite (length_concat_map (fun b => map (fun v => node_labels !!! v) b))
    by (intros; apply length_map).
  rewrite (length_concat_map (predict epoch model)) by done.
  rewrite Nat.eqb_refl. cbn [negb].
  rewrite Hcat. destruct order as [|v order']; [done|]. simpl. by eexists.
Qed.

(** With an empty validation set, or with fewer training node IDs than
    workers, [train] raises [ValueError] on every rank while it makes its
    loaders: no round is run, and nothing is printed or saved. *)
Theorem train_raises_before_first_round (rank world_size : Z)
    (graph : Dgl.Graph) (node_labels : list Z)
    (train_nids valid_nids : list nat) (model : M) :
  (0 <= rank < world_size)%Z ->
  valid_nids = [] \/ (Z.of_nat (length train_nids) < world_size)%Z ->
  MultiGPU.train train_epoch shuffle predict rank world_size graph node_labels
    train_nids valid_nids model
  = (Py.Raise Py.ValueError, MultiGPU.start model).
Proof.
  intros Hw Hcase. unfold MultiGPU.train, MultiGPU.train_rounds.
  destruct (MultiGPU.create_dataloader rank world_size graph train_nids)
    as [tdl|e] eqn:Et.
  - destruct Hcase as [->|Hfew].
    + by rewrite create_dataloader_single_worker_empty.
    + by rewrite (create_dataloader_too_few _ _ _ _ Hfew) in Et.
  - apply create_dataloader_raise_cases in Et as [[? _]|(_ & -> & _)];
      [lia|done].
Qed.

(** The worker of rank 0, when its minibatch loops complete, finishes its
    ten rounds when there are at least as many training node IDs as workers,
    the validation set is not empty, its node IDs are positions of
    [node_labels], the loader visits them in a shuffled order and the model
    gives one prediction per node; it then has printed one validation
    accuracy per epoch, for the epochs 0 to 9 in this order. *)
Theorem train_rank_0_completes (world_size : Z) (graph : Dgl.Graph)
    (node_labels : list Z) (train_nids valid_nids : list nat) (model : M) :
  (1 <= world_size)%Z ->
  (world_size <= Z.of_nat (length train_nids))%Z ->
  valid_nids <> [] ->
  Forall (fun v => v < length node_labels) valid_nids ->
  (forall epoch nids, shuffle epoch nids ≡ₚ nids) ->
  (forall epoch m nodes, length (predict epoch m nodes) = length nodes) ->
  exists s,
    MultiGPU.train train_epoch shuffle predict 0 world_size graph node_labels
      train_nids valid_nids model = (Py.Ok tt, s) /\
    map fst (Log.printed (Run.trace s)) = rev (seq 0 10) /\
    Run.model s = foldl (fun m e => train_epoch 0 e m) model (seq 0 10).
Proof.
  intros Hw1 Hlen Hne Hin Hperm Hpred.
  unfold MultiGPU.train, MultiGPU.train_rounds.
  destruct (create_dataloader_Ok 0 world_size graph train_nids)
    as [tdl ->]; [lia|done|].
  destruct (create_dataloader_single_worker_nids graph valid_nids Hne)
    as (vdl & -> & Hn & Hb & Hdrop).
  assert (Hne' : Dgl.dl_nids vdl <> []) by (by rewrite Hn).
  assert (Hin' : Forall (fun v => v < length node_labels) (Dgl.dl_nids vdl))
    by (by rewrite Hn).
  unfold Py.for_range.
  assert (Hloop : forall todo s,
    exists s',
      Py.for_each (MultiGPU.epoch_body train_epoch shuffle predict 0
                     node_labels vdl) todo s = (Py.Ok tt, s') /\
      map fst (Log.printed (Run.trace s'))
      = rev todo ++ map fst (Log.printed (Run.trace s)) /\
      Run.model s' = foldl (fun m e => train_epoch 0 e m) (Run.model s) todo).
  { induction todo as [|e todo IH]; intros s; [by exists s|].
    cbn [Py.for_each]. unfold MultiGPU.epoch_body at 1.
    cbn [Run.model Run.best_accuracy Run.trace Z.eqb].
    destruct (validation_accuracy_Ok node_labels vdl e
                (train_epoch 0 e (Run.model s)) Hb Hdrop Hne' (Hperm _ _) Hin'
                (Hpred _ _)) as [a ->].
    destruct (Qlt_le_dec (Run.best_accuracy s) a) as [Hlt|Hle].
    + match goal with |- context [Py.for_each _ todo ?s1] =>
        destruct (IH s1) as (s' & -> & Hpr & Hm) end.
      exists s'. split; [done|]. rewrite Hpr, Hm. simpl.
      by rewrite <- app_assoc.
    + match goal with |- context [Py.for_each _ todo ?s1] =>
        destruct (IH s1) as (s' & -> & Hpr & Hm) end.
      exists s'. split; [done|]. rewrite Hpr, Hm. simpl.
      by rewrite <- app_assoc. }
  destruct (Hloop (seq 0 10) (MultiGPU.start model)) as (s & -> & Hpr & Hm).
  exists s. split; [done|]. split; [|done].
  rewrite Hpr. simpl. reflexivity.
Qed.

End TrainRounds.


Lemma train_raises_before_first_round_witness :
  MultiGPU.train (M := nat) (fun rank epoch m => S m) (fun epoch nids => nids)
    (fun epoch m nodes => map (fun _ => 0%Z) nodes) 0 4
    {| Dgl.num_nodes := 2; Dgl.edges := [] |} [0; 1]%Z [0; 1] [1] 0
  = (Py.Raise Py.ValueError, MultiGPU.start 0).
Proof.
  apply (train_raises_before_first_round (M := nat) (fun rank epoch m => S m)
           (fun epoch nids => nids)
           (fun epoch m nodes => map (fun _ => 0%Z) nodes) 0 4
           {| Dgl.num_nodes := 2; Dgl.edges := [] |} [0; 1]%Z [0; 1] [1] 0);
    [lia|right; simpl; lia].
Defined.

Lemma train_rank_0_completes_witness :
  exists s,
    MultiGPU.train (M := nat) (fun rank epoch m => S m)
      (fun epoch nids => rev nids)
      (fun epoch m nodes => map (fun _ => 0%Z) nodes) 0 4
      {| Dgl.num_nodes := 6; Dgl.edges := [] |} [0; 1; 0; 1; 0; 1]%Z
      [0; 1; 2; 3] [5; 4] 0
    = (Py.Ok tt, s) /\
    map fst (Log.printed (Run.trace s)) = rev (seq 0 10) /\
    Run.model s = 10.
Proof.
  apply (train_rank_0_completes (M := nat) (fun rank epoch m => S m)
           (fun epoch nids => rev nids)
           (fun epoch m nodes => map (fun _ => 0%Z) nodes) 4
           {| Dgl.num_nodes := 6; Dgl.edges := [] |} [0; 1; 0; 1; 0; 1]%Z
           [0; 1; 2; 3] [5; 4] 0).
  - lia.
  - simpl. lia.
  - discriminate.
  - repeat constructor.
  - intros epoch nids. symmetry. apply Permutation_rev.
  - intros epoch m nodes. apply length_map.
Defined.

(** *** NegativeSampler: when a call returns *)

(** For a sampler built from a well-formed graph with [k >= 1] and called
    on a minibatch of at least one edge ID, all of them edge IDs of the same
    graph, a result exists, and all results have the same sources. *)
Theorem negative_sampler_returns (g : Dgl.Graph) (k : nat) (eids : list nat) :
  Dgl.graph_wf g ->
  Forall (fun e => e < Dgl.number_of_edges g) eids ->
  0 < k -> eids <> [] ->
  (exists ret,
     LinkPred.NegativeSampler_call (LinkPred.NegativeSampler_init g k) g eids
       ret) /\
  (forall ret ret',
     LinkPred.NegativeSampler_call (LinkPred.NegativeSampler_init g k) g eids
       ret ->
     LinkPred.NegativeSampler_call (LinkPred.NegativeSampler_init g k) g eids
       ret' ->
     ret.1 = ret'.1).
Proof.
  intros Hwf Heids Hk Hne. split.
  - destruct (find_edges_Ok g eids Heids) as (src & dst & Hf).
    destruct (find_edges_spec _ _ _ _ Hf) as [Hlsrc _].
    destruct eids as [|e0 eids']; [done|].
    apply Forall_cons in Heids as [He0 _].
    apply lookup_lt_is_Some in He0 as [[u v] Huv].
    assert (Hin : (u, v) ∈ Dgl.edges g) by (by eapply list_elem_of_lookup_2).
    assert (Hv : v < Dgl.num_nodes g).
    { unfold Dgl.graph_wf in Hwf. rewrite Forall_forall in Hwf.
      by apply Hwf in Hin as [_ ?]. }
    assert (Hdeg : 0 < Dgl.in_degree g v).
    { unfold Dgl.in_degree.
      assert (Hf' : (u, v) ∈ filter (fun e : nat * nat => e.2 = v) (Dgl.edges g))
        by (by apply list_elem_of_filter).
      destruct (filter _ _); [by apply elem_of_nil in Hf'|simpl; lia]. }
    set (n := length (Torch.repeat_interleave src k)).
    exists (Torch.repeat_interleave src k, replicate n v), src, dst.
    split; [done|]. simpl. split; [|done]. split; [|split].
    + rewrite length_repeat_interleave, Hlsrc. simpl. lia.
    + by rewrite length_replicate.
    + apply Forall_forall. intros x Hx. apply elem_of_replicate in Hx as [-> _].
      exact (weights_nonzero g k v Hv Hdeg).
  - intros [src dst] [src' dst'] (s0 & d0 & Hf & _ & Hs) (s0' & d0' & Hf' & _ & Hs').
    simpl in *. rewrite Hf in Hf'. injection Hf' as <- <-. by rewrite Hs, Hs'.
Qed.

Lemma negative_sampler_returns_witness :
  (exists ret,
     LinkPred.NegativeSampler_call
       (LinkPred.NegativeSampler_init
          {| Dgl.num_nodes := 3; Dgl.edges := [(0, 1); (2, 1)] |} 2)
       {| Dgl.num_nodes := 3; Dgl.edges := [(0, 1); (2, 1)] |} [1; 0] ret) /\
  (forall ret ret',
     LinkPred.NegativeSampler_call
       (LinkPred.NegativeSampler_init
          {| Dgl.num_nodes := 3; Dgl.edges := [(0, 1); (2, 1)] |} 2)
       {| Dgl.num_nodes := 3; Dgl.edges := [(0, 1); (2, 1)] |} [1; 0] ret ->
     LinkPred.NegativeSampler_call
       (LinkPred.NegativeSampler_init
          {| Dgl.num_nodes := 3; Dgl.edges := [(0, 1); (2, 1)] |} 2)
       {| Dgl.num_nodes := 3; Dgl.edges := [(0, 1); (2, 1)] |} [1; 0] ret' ->
     ret.1 = ret'.1).
Proof.
  apply (negative_sampler_returns
           {| Dgl.num_nodes := 3; Dgl.edges := [(0, 1); (2, 1)] |} 2 [1; 0]).
  - unfold Dgl.graph_wf. simpl. repeat constructor.
  - unfold Dgl.number_of_edges. simpl. repeat constructor.
  - lia.
  - discriminate.
Defined.

(** A call of the sampler has no result, because an exception is raised,
    when the minibatch has an edge ID that is not one of the graph, and when
    the sampler was built from a graph without edges and has to draw at
    least one destination. *)
Theorem negative_sampler_raises (g0 g : Dgl.Graph) (k : nat)
    (eids : list nat) (ret : list nat * list nat) :
  Exists (fun e => Dgl.number_of_edges g <= e) eids \/
  (Dgl.edges g0 = [] /\ 0 < k /\ eids <> []) ->
  ~ LinkPred.NegativeSampler_call (LinkPred.NegativeSampler_init g0 k) g eids
      ret.
Proof.
  intros Hcase (src0 & dst0 & Hf & (_ & Hlen & Hsup) & Hsrc).
  destruct Hcase as [Hbad|(Hno & Hk & Hne)].
  - by rewrite (find_edges_Raise _ _ Hbad) in Hf.
  - destruct (find_edges_spec _ _ _ _ Hf) as [Hl _].
    simpl in Hlen. rewrite length_repeat_interleave, Hl in Hlen.
    destruct (ret.2) as [|v dst] eqn:Hret.
    + destruct eids; [done|]. simpl in Hlen. lia.
    + apply Forall_cons in Hsup as [(w & Hw & Hnz) _].
      apply weights_support in Hw as [_ Hdeg]; [|done].
      unfold Dgl.in_degree in Hdeg. rewrite Hno in Hdeg. simpl in Hdeg. lia.
Qed.

Lemma negative_sampler_raises_witness :
  ~ LinkPred.NegativeSampler_call
      (LinkPred.NegativeSampler_init
         {| Dgl.num_nodes := 2; Dgl.edges := [(0, 1)] |} 1)
      {| Dgl.num_nodes := 2; Dgl.edges := [(0, 1)] |} [0; 5] ([0], [1]).
Proof.
  apply negative_sampler_raises. left.
  apply Exists_cons_tl, Exists_cons_hd. unfold Dgl.number_of_edges. simpl. lia.
Defined.

(** *** SAGE: the layers that are built and where relu is applied *)

Section ForwardFacts.
Context {T : Type} `{Scalar T}.
Variable SAGEConv : nat -> nat -> nat -> Dgl.Layer T.

Lemma forward_loop_app (nl : Z) (l : nat)
    (p1 p2 : list (Dgl.Layer T * Dgl.Block)) (x : list (list T)) :
  LinkPred.forward_loop nl l (p1 ++ p2) x
  = LinkPred.forward_loop nl l p1 x
    ≫= LinkPred.forward_loop nl (l + length p1) p2.
Proof.
  revert l x. induction p1 as [|[layer block] p1 IH]; intros l x.
  - simpl. by rewrite Nat.add_0_r.
  - simpl. unfold mbind, result_bind, Py.bind.
    destruct (LinkPred.layer_step nl l layer block x) as [y|e]; [|done].
    rewrite IH. unfold mbind, result_bind, Py.bind.
    by replace (S l + length p1) with (l + S (length p1)) by lia.
Qed.

Lemma forward_loop_last (nl : Z) (first : list (Dgl.Layer T))
    (last : Dgl.Layer T) (bs : list Dgl.Block) (b : Dgl.Block)
    (x : list (list T)) :
  length bs = length first ->
  LinkPred.forward_loop nl 0 (zip (first ++ [last]) (bs ++ [b])) x
  = y ← LinkPred.forward_loop nl 0 (zip first bs) x;
    LinkPred.layer_step nl (length first) last b y.
Proof.
  intros Hlen. rewrite (zip_with_app pair first [last] bs [b]) by done.
  rewrite forward_loop_app. unfold mbind, result_bind, Py.bind.
  destruct (LinkPred.forward_loop nl 0 _ x) as [y|e]; [|done].
  rewrite length_zip_with_l by lia. simpl.
  by destruct (LinkPred.layer_step nl (length first) last b y).
Qed.

(** The model of the link prediction notebook has [max(1, n_layers)] layers.
    With [n_layers >= 1] and one block per layer, the output of the last
    layer is returned as it is, without relu; with [n_layers <= 0] the
    model has one layer, whose output is passed through relu. *)
Theorem sage_final_output (in_feats n_hidden : nat) (n_layers : Z) :
  let model := LinkPred.SAGE_init SAGEConv in_feats n_hidden n_layers in
  length (LinkPred.layers model) = Z.to_nat (Z.max 1 n_layers) /\
  ((1 <= n_layers)%Z ->
   exists first last,
     LinkPred.layers model = first ++ [last] /\
     forall bs b x, length bs = length first ->
       LinkPred.forward model (bs ++ [b]) x
       = y ← LinkPred.forward_loop n_layers 0 (zip first bs) x;
         Dgl.apply_layer last b y) /\
  ((n_layers <= 0)%Z ->
   forall b bs x,
     LinkPred.forward model (b :: bs) x
     = y ← Dgl.apply_layer (SAGEConv 0 in_feats n_hidden) b x;
       Py.Ok (Torch.relu y)).
Proof.
  intros model. split; [|split].
  - simpl. rewrite length_map, length_seq. lia.
  - intros Hn.
    destruct (exists_last (l := LinkPred.layers model)) as (first & last & Hl);
      [done|].
    exists first, last. split; [done|]. intros bs b x Hlen.
    unfold LinkPred.forward. rewrite Hl, (forward_loop_last _ _ _ _ _ _ Hlen).
    assert (Hfl : Z.of_nat (length first) = (n_layers - 1)%Z).
    { assert (Hll : length (LinkPred.layers model) = Z.to_nat (Z.max 1 n_layers))
        by (simpl; rewrite length_map, length_seq; lia).
      rewrite Hl, length_app in Hll. simpl in Hll. lia. }
    unfold mbind, result_bind, Py.bind.
    destruct (LinkPred.forward_loop _ 0 _ x) as [y|e]; [|done].
    unfold LinkPred.layer_step, mbind, result_bind, Py.bind.
    destruct (Dgl.apply_layer last b y) as [z|e]; [|done].
    cbn [LinkPred.n_layers model LinkPred.SAGE_init].
    by rewrite bool_decide_eq_false_2 by (intros Hne; apply Hne; exact Hfl).
  - intros Hn b bs x. unfold LinkPred.forward. simpl.
    replace (Z.to_nat (n_layers - 1)) with 0 by lia. simpl.
    unfold LinkPred.layer_step, mbind, result_bind, Py.bind.
    destruct (Dgl.apply_layer _ b x) as [y|e]; [|done].
    by rewrite bool_decide_eq_true_2 by lia.
Qed.

(** The model of the multi-GPU notebook has [max(2, n_layers)] layers, the
    last one with [n_classes] outputs.  With [n_layers >= 2] and one block
    per layer, the output of the last layer is returned without relu.  With
    [n_layers = 1] the model still has two layers: the output of the first
    is passed on as it is and the output of the second goes through relu.
    [init_model] in [train] builds three layers. *)
Theorem sage_classifier_layers (in_feats n_hidden n_classes : nat)
    (n_layers : Z) :
  let model :=
    MultiGPUSetup.SAGE_init SAGEConv in_feats n_hidden n_classes n_layers in
  length (MultiGPUSetup.layers model) = Z.to_nat (Z.max 2 n_layers) /\
  (exists first,
     MultiGPUSetup.layers model
     = first ++ [SAGEConv (length first) n_hidden n_classes] /\
     ((2 <= n_layers)%Z ->
      forall bs b x, length bs = length first ->
        MultiGPUSetup.forward model (bs ++ [b]) x
        = y ← LinkPred.forward_loop n_layers 0 (zip first bs) x;
          Dgl.apply_layer (SAGEConv (length first) n_hidden n_classes) b y)) /\
  (n_layers = 1%Z ->
   forall b0 b1 bs x,
     MultiGPUSetup.forward model (b0 :: b1 :: bs) x
     = y ← Dgl.apply_layer (SAGEConv 0 in_feats n_hidden) b0 x;
       z ← Dgl.apply_layer (SAGEConv 1 n_hidden n_classes) b1 y;
       Py.Ok (Torch.relu z)) /\
  (forall rank,
     MultiGPUSetup.layers
       (MultiGPUSetup.init_model SAGEConv rank in_feats 128 n_classes 3)
     = [SAGEConv 0 in_feats 128; SAGEConv 1 128 128;
        SAGEConv 2 128 n_classes]).
Proof.
  intros model. split; [|split; [|split]].
  - simpl. rewrite length_app, length_map, length_seq. simpl. lia.
  - exists (SAGEConv 0 in_feats n_hidden
            :: map (fun i => SAGEConv i n_hidden n_hidden)
                   (seq 1 (Z.to_nat (n_layers - 2)))).
    split; [reflexivity|]. intros Hn bs b x Hlen.
    unfold MultiGPUSetup.forward.
    cbn [MultiGPUSetup.layers MultiGPUSetup.n_layers model
         MultiGPUSetup.SAGE_init].
    rewrite (forward_loop_last _ _ _ _ _ _ Hlen).
    unfold mbind, result_bind, Py.bind.
    destruct (LinkPred.forward_loop _ 0 _ x) as [y|e]; [|done].
    unfold LinkPred.layer_step, mbind, result_bind, Py.bind.
    destruct (Dgl.apply_layer _ b y) as [z|e]; [|done].
    rewrite bool_decide_eq_false_2; [done|].
    intros Hne. apply Hne. simpl. rewrite length_map, length_seq. lia.
  - intros -> b0 b1 bs x. unfold MultiGPUSetup.forward. simpl.
    unfold LinkPred.layer_step, mbind, result_bind, Py.bind.
    destruct (Dgl.apply_layer _ b0 x) as [y|e]; [|done]. simpl.
    by destruct (Dgl.apply_layer _ b1 y).
  - reflexivity.
Qed.

End ForwardFacts.

(** *** inference: errors and the shape of the result *)

Section InferenceFacts.
Context {T : Type} `{Scalar T}.

(** [inference] raises [ValueError] for a batch size that is not positive,
    before it looks at the model; with a positive batch size and a model
    without layers it raises [UnboundLocalError]. *)
Theorem inference_rejects (model : LinkPred.SAGE T) (graph : Dgl.Graph)
    (input_features : list (list T)) (batch_size : Z) :
  ((batch_size <= 0)%Z ->
   LinkPred.inference model graph input_features batch_size
   = Py.Raise Py.ValueError) /\
  ((0 < batch_size)%Z -> LinkPred.layers model = [] ->
   LinkPred.inference model graph input_features batch_size
   = Py.Raise Py.UnboundLocalError).
Proof.
  unfold LinkPred.inference, Dgl.new_NodeDataLoader. split.
  - intros Hb. by destruct (Z.leb_spec batch_size 0) as [_|?]; [|lia].
  - intros Hb Hl. destruct (Z.leb_spec batch_size 0) as [?|_]; [lia|].
    simpl. by rewrite Hl.
Qed.

End InferenceFacts.

Lemma inference_rejects_witness :
  LinkPred.inference (T := Z)
    {| LinkPred.n_layers := 0; LinkPred.n_hidden := 1; LinkPred.layers := [] |}
    {| Dgl.num_nodes := 1; Dgl.edges := [] |} [[1%Z]] 0
  = Py.Raise Py.ValueError.
Proof.
  apply (proj1 (inference_rejects (T := Z)
    {| LinkPred.n_layers := 0; LinkPred.n_hidden := 1; LinkPred.layers := [] |}
    {| Dgl.num_nodes := 1; Dgl.edges := [] |} [[1%Z]] 0)).
  lia.
Defined.

Lemma sage_final_output_witness :
  exists first last,
    LinkPred.layers
      (LinkPred.SAGE_init (T := Z)
         (fun i _ _ => {| Dgl.aggregate := fun h hs => [Z.of_nat i] |}) 3 1 2)
    = first ++ [last] /\
    forall bs b x, length bs = length first ->
      LinkPred.forward
        (LinkPred.SAGE_init (T := Z)
           (fun i _ _ => {| Dgl.aggregate := fun h hs => [Z.of_nat i] |}) 3 1 2)
        (bs ++ [b]) x
      = y ← LinkPred.forward_loop 2 0 (zip first bs) x;
        Dgl.apply_layer last b y.
Proof.
  apply (proj1 (proj2 (sage_final_output (T := Z)
           (fun i _ _ => {| Dgl.aggregate := fun h hs => [Z.of_nat i] |})
           3 1 2))).
  lia.
Defined.

Lemma sage_classifier_layers_witness :
  let conv : nat -> nat -> nat -> Dgl.Layer Z :=
    fun i _ _ => {| Dgl.aggregate := fun h hs => [Z.of_nat i] |} in
  let b := Dgl.as_block {| Dgl.num_nodes := 2; Dgl.edges := [(0, 1)] |} in
  MultiGPUSetup.forward (MultiGPUSetup.SAGE_init conv 3 1 5 1) [b; b]
    [[7; 8; 9]; [1; 2; 3]]%Z
  = y ← Dgl.apply_layer (conv 0 3 1) b [[7; 8; 9]; [1; 2; 3]]%Z;
    z ← Dgl.apply_layer (conv 1 1 5) b y;
    Py.Ok (Torch.relu z).
Proof.
  intros conv b.
  exact (proj1 (proj2 (proj2 (sage_classifier_layers (T := Z) conv 3 1 5 1)))
           eq_refl b b [] [[7; 8; 9]; [1; 2; 3]]%Z).
Defined.

Section InferenceShape.
Context {T : Type} `{Scalar T}.
Implicit Types (g : Dgl.Graph) (X : list (list T)) (layer : Dgl.Layer T).

Lemma whole_graph_row_width (nl : Z) (l : nat) layer g X (v n : nat) :
  (forall h hs, length (Dgl.aggregate layer h hs) = n) ->
  length (LinkPred.whole_graph_row nl l layer g X v) = n.
Proof.
  intros Hw. unfold LinkPred.whole_graph_row.
  case_bool_decide; [by rewrite length_map|done].
Qed.

Lemma forward_loop_shape (nl : Z) (n : nat) g
    (todo : list (Dgl.Layer T)) :
  forall (l : nat) X (out : list (list T)),
  todo <> [] ->
  length X = Dgl.num_nodes g ->
  (forall layer h hs, layer ∈ todo -> length (Dgl.aggregate layer h hs) = n) ->
  LinkPred.forward_loop nl l
    (zip todo (replicate (length todo) (Dgl.as_block g))) X = Py.Ok out ->
  length out = Dgl.num_nodes g /\ Forall (fun r => length r = n) out.
Proof.
  induction todo as [|layer rest IH]; intros l X out Hne Hlen Hw Hrun; [done|].
  cbn [length replicate zip_with LinkPred.forward_loop] in Hrun.
  rewrite (layer_step_whole_graph _ _ _ _ _ Hlen) in Hrun.
  unfold mbind, result_bind, Py.bind in Hrun.
  set (rows := map (LinkPred.whole_graph_row nl l layer g X)
                   (seq 0 (Dgl.num_nodes g))) in *.
  assert (Hrows : length rows = Dgl.num_nodes g)
    by (unfold rows; by rewrite length_map, length_seq).
  destruct rest as [|layer' rest'].
  - simpl in Hrun. injection Hrun as <-. split; [done|].
    apply Forall_forall. intros r Hr.
    apply list_elem_of_fmap in Hr as (v & -> & _).
    apply whole_graph_row_width. intros h hs. apply Hw. left.
  - eapply (IH (S l) rows); [done|done| |exact Hrun].
    intros layer0 h hs Hin. apply Hw. by right.
Qed.

(** Under the conditions of the equivalence with [forward], the result of
    [inference] has one row per node of the graph, each of width
    [n_hidden]. *)
Theorem inference_shape (model : LinkPred.SAGE T) g X (batch_size : Z)
    (out : list (list T)) :
  Dgl.graph_wf g ->
  length X = Dgl.num_nodes g ->
  (0 < batch_size)%Z ->
  (forall layer h hs, layer ∈ LinkPred.layers model ->
     length (Dgl.aggregate layer h hs) = LinkPred.n_hidden model) ->
  LinkPred.inference model g X batch_size = Py.Ok out ->
  length out = Dgl.number_of_nodes g /\
  Forall (fun r => length r = LinkPred.n_hidden model) out.
Proof.
  intros Hwf Hlen Hb Hwidth Hinf.
  destruct (LinkPred.layers model) as [|layer0 rest0] eqn:Hl.
  { unfold LinkPred.inference, Dgl.new_NodeDataLoader in Hinf.
    cbn [andb] in Hinf.
    destruct (Z.leb_spec batch_size 0) as [?|_]; [lia|].
    simpl in Hinf. by rewrite Hl in Hinf. }
  unfold LinkPred.inference, Dgl.new_NodeDataLoader in Hinf.
  cbn [andb] in Hinf.
  destruct (Z.leb_spec batch_size 0) as [?|_]; [lia|].
  unfold mbind, result_bind, Py.bind, Dgl.batches_in_order, Dgl.batches_of in Hinf.
  cbn [Dgl.dl_drop_last Dgl.dl_batch_size Dgl.dl_nids] in Hinf.
  set (cs := Dgl.chunks (Z.to_nat batch_size) (seq 0 (Dgl.number_of_nodes g)))
    in *.
  assert (Hcs : Forall (fun c => NoDup c /\
                          Forall (fun v => v < Dgl.num_nodes g) c) cs).
  { apply Forall_forall. intros c Hc. split.
    - unfold cs, Dgl.chunks in Hc.
      eapply NoDup_chunks_aux; [|exact Hc]. apply NoDup_seq.
    - apply Forall_forall. intros v Hv.
      pose proof (elem_of_chunks _ _ _ _ Hc Hv) as Hin.
      apply elem_of_seq in Hin. unfold Dgl.number_of_nodes in Hin. lia. }
  assert (Hcover : forall v, v < Dgl.num_nodes g -> exists c, c ∈ cs /\ v ∈ c).
  { intros v Hv. apply elem_of_chunk; [lia|].
    apply elem_of_seq. unfold Dgl.number_of_nodes. lia. }
  assert (Hw' : forall layer h hs, layer ∈ layer0 :: rest0 ->
            length (Dgl.aggregate layer h hs) = LinkPred.n_hidden model)
    by exact Hwidth.
  assert (Hne : layer0 :: rest0 <> []) by done.
  destruct (inference_layers_forward model g cs Hwf Hcs Hcover
              (layer0 :: rest0) 0 X None Hlen Hw' (or_introl Hne))
    as (out' & Hfw & Hinf').
  rewrite Hl, Hinf' in Hinf. injection Hinf as <-.
  exact (forward_loop_shape _ _ _ _ _ _ _ Hne Hlen Hw' Hfw).
Qed.

End InferenceShape.

Lemma inference_shape_witness :
  length [[7]; [5]; [7]]%Z = 3 /\ Forall (fun r => length r = 1) [[7]; [5]; [7]]%Z.
Proof.
  apply (inference_shape (T := Z)
    {| LinkPred.n_layers := 2; LinkPred.n_hidden := 1;
       LinkPred.layers :=
         [ {| Dgl.aggregate := fun h hs => [foldr Z.add 0%Z (h ++ concat hs)] |};
           {| Dgl.aggregate := fun h hs => [foldr Z.add 1%Z (h ++ concat hs)] |} ] |}
    {| Dgl.num_nodes := 3; Dgl.edges := [(0, 1); (1, 2); (2, 0); (0, 2)] |}
    [[1]; [-2]; [3]]%Z 2).
  - unfold Dgl.graph_wf. simpl. repeat constructor.
  - reflexivity.
  - lia.
  - intros layer h hs Hin. simpl in Hin.
    apply elem_of_cons in Hin as [->|Hin]; [reflexivity|].
    apply elem_of_cons in Hin as [->|Hin]; [reflexivity|].
    by apply elem_of_nil in Hin.
  - vm_compute. reflexivity.
Defined.

Section InferenceShortFeatures.
Context {T : Type} `{Scalar T}.
Implicit Types (g : Dgl.Graph) (X : list (list T)) (layer : Dgl.Layer T).

Lemma index_select_cases {A} (t : list A) (ids : list nat) :
  Torch.index_select t ids = Py.Raise Py.IndexError \/
  (Forall (fun i => i < length t) ids /\
   exists r, Torch.index_select t ids = Py.Ok r /\ length r = length ids).
Proof.
  induction ids as [|i ids IH]; [right; split; [constructor|by exists []]|].
  simpl. destruct (t !! i) as [a|] eqn:Hi; [|by left].
  destruct IH as [->|(Hall & r & -> & Hr)]; [by left|right].
  split; [constructor; [by eapply lookup_lt_Some|done]|].
  exists (a :: r). split; [done|]. simpl. by rewrite Hr.
Qed.

Lemma put_rows_total (n : nat) (ids : list nat) :
  forall (buf vals : list (list T)),
  length ids = length vals ->
  Forall (fun i => i < length buf) ids ->
  Forall (fun r => length r = n) vals ->
  exists buf', Torch.put_rows n buf ids vals = Py.Ok buf' /\
               length buf' = length buf.
Proof.
  induction ids as [|i ids IH]; intros buf vals Hlen Hids Hvals.
  - destruct vals; [|done]. by exists buf.
  - destruct vals as [|r vals]; [done|].
    apply Forall_cons in Hids as [Hi Hids], Hvals as [Hr Hvals].
    simpl. destruct (Nat.ltb_spec i (length buf)) as [_|?]; [|lia].
    rewrite (fit_row_ok _ _ Hr). simpl.
    destruct (IH (<[i := r]> buf) vals) as (buf' & -> & Hl).
    + simpl in Hlen. lia.
    + by rewrite length_insert.
    + done.
    + exists buf'. split; [done|]. by rewrite Hl, length_insert.
Qed.

Lemma inference_batches_short (model : LinkPred.SAGE T) (l : nat) layer g X
    (cs : list (list nat)) :
  (forall h hs, length (Dgl.aggregate layer h hs) = LinkPred.n_hidden model) ->
  Forall (Forall (fun v => v < Dgl.num_nodes g)) cs ->
  forall out, length out = Dgl.num_nodes g ->
  LinkPred.inference_batches model l layer X
    (map (Dgl.full_neighbor_batch g) cs) out = Py.Raise Py.IndexError \/
  ((exists out',
      LinkPred.inference_batches model l layer X
        (map (Dgl.full_neighbor_batch g) cs) out = Py.Ok out') /\
   Forall (Forall (fun v => v < length X)) cs).
Proof.
  intros Hwidth Hcs. induction Hcs as [|c cs Hc _ IH]; intros out Hout.
  - right. split; [by exists out|constructor].
  - cbn [map LinkPred.inference_batches].
    pose (inp := c ++ remove_dups
                        (filter (fun u => u ∉ c) (Dgl.in_subgraph g c).*1)).
    pose (block :=
      {| Dgl.num_src := length inp; Dgl.num_dst := length c;
         Dgl.bedges :=
           map (fun e => (Dgl.index_of e.1 inp, Dgl.index_of e.2 c))
               (Dgl.in_subgraph g c) |}).
    change (Dgl.full_neighbor_batch g c) with (inp, c, [block]).
    cbv iota beta.
    change (Py.index [block] 0) with (Py.Ok block).
    unfold mbind, result_bind, Py.bind.
    destruct (index_select_cases X inp) as [->|(Hinp & xs & -> & Hxs)];
      [by left|].
    unfold LinkPred.layer_step, Dgl.apply_layer, mbind, result_bind, Py.bind.
    cbn [Dgl.num_src Dgl.num_dst block]. rewrite Hxs, Nat.eqb_refl.
    match goal with |- context [Torch.index_put _ out c ?rows] =>
      destruct (put_rows_total (LinkPred.n_hidden model) c out rows)
        as (out1 & Hput & Hlen1) end.
    + case_bool_decide; unfold Torch.relu;
        by rewrite ?length_map, length_seq.
    + by rewrite Hout.
    + case_bool_decide; unfold Torch.relu; apply Forall_forall; intros r Hr.
      * apply list_elem_of_fmap in Hr as (r' & -> & Hr').
        apply list_elem_of_fmap in Hr' as (j & -> & _).
        by rewrite length_map.
      * by apply list_elem_of_fmap in Hr as (j & -> & _).
    + unfold Torch.index_put. rewrite Hput.
      destruct (IH out1) as [->|[Hok Hall]]; [lia|by left|].
      right. split; [done|]. constructor; [|done].
      unfold inp in Hinp. by apply Forall_app in Hinp as [? _].
Qed.

(** When the feature matrix has fewer rows than the graph has nodes,
    [inference] raises [IndexError] (for a positive batch size and a model
    whose first layer outputs rows of width [n_hidden]). *)
Theorem inference_short_features (model : LinkPred.SAGE T) g X
    (batch_size : Z) (layer : Dgl.Layer T) (rest : list (Dgl.Layer T)) :
  (0 < batch_size)%Z ->
  length X < Dgl.num_nodes g ->
  LinkPred.layers model = layer :: rest ->
  (forall h hs, length (Dgl.aggregate layer h hs) = LinkPred.n_hidden model) ->
  LinkPred.inference model g X batch_size = Py.Raise Py.IndexError.
Proof.
  intros Hb Hshort Hl Hwidth.
  unfold LinkPred.inference, Dgl.new_NodeDataLoader. cbn [andb].
  destruct (Z.leb_spec batch_size 0) as [?|_]; [lia|].
  unfold mbind, result_bind, Py.bind, Dgl.batches_in_order, Dgl.batches_of.
  cbn [Dgl.dl_drop_last Dgl.dl_batch_size Dgl.dl_nids].
  set (cs := Dgl.chunks (Z.to_nat batch_size) (seq 0 (Dgl.number_of_nodes g))).
  rewrite Hl. cbn [LinkPred.inference_layers].
  unfold mbind, result_bind, Py.bind.
  destruct (inference_batches_short model 0 layer g X cs Hwidth)
    with (out := Torch.zeros (Dgl.number_of_nodes g) (LinkPred.n_hidden model))
    as [->|[_ Hall]]; [| |done|].
  - apply Forall_forall. intros c Hc. apply Forall_forall. intros v Hv.
    pose proof (elem_of_chunks _ _ _ _ Hc Hv) as Hin.
    apply elem_of_seq in Hin. unfold Dgl.number_of_nodes in Hin. lia.
  - unfold Torch.zeros. by rewrite length_replicate.
  - exfalso.
    destruct (elem_of_chunk (Z.to_nat batch_size)
                (seq 0 (Dgl.number_of_nodes g)) (length X)) as (c & Hc & Hv);
      [lia|apply elem_of_seq; unfold Dgl.number_of_nodes; lia|].
    rewrite Forall_forall in Hall. specialize (Hall c Hc).
    rewrite Forall_forall in Hall. specialize (Hall _ Hv). lia.
Qed.

End InferenceShortFeatures.

Lemma inference_short_features_witness :
  LinkPred.inference (T := Z)
    {| LinkPred.n_layers := 1; LinkPred.n_hidden := 1;
       LinkPred.layers :=
         [ {| Dgl.aggregate := fun h hs => [foldr Z.add 0%Z (h ++ concat hs)] |} ] |}
    {| Dgl.num_nodes := 3; Dgl.edges := [(0, 1); (1, 2)] |}
    [[1]; [2]]%Z 2
  = Py.Raise Py.IndexError.
Proof.
  apply (inference_short_features (T := Z)
    {| LinkPred.n_layers := 1; LinkPred.n_hidden := 1;
       LinkPred.layers :=
         [ {| Dgl.aggregate := fun h hs => [foldr Z.add 0%Z (h ++ concat hs)] |} ] |}
    {| Dgl.num_nodes := 3; Dgl.edges := [(0, 1); (1, 2)] |}
    [[1]; [2]]%Z 2
    {| Dgl.aggregate := fun h hs => [foldr Z.add 0%Z (h ++ concat hs)] |} []).
  - lia.
  - simpl. lia.
  - reflexivity.
  - reflexivity.
Defined.

(** *** ScorePredictor and the scores of a minibatch *)

Section Scores.
Context {T : Type} `{Scalar T}.

Lemma score_predictor_value (subgraph : Dgl.FeatGraph T) (x : list (list T)) :
  length x = Dgl.num_nodes (Dgl.structure subgraph) ->
  LinkPred.ScorePredictor_forward subgraph x
  = (Py.Ok (map (fun e => [Torch.dot (x !!! e.1) (x !!! e.2)])
                (Dgl.edges (Dgl.structure subgraph))),
     subgraph).
Proof.
  intros Hlen.
  unfold LinkPred.ScorePredictor_forward, Dgl.local_scope, Dgl.set_ndata.
  rewrite Hlen, Nat.eqb_refl. simpl.
  unfold Dgl.apply_edges_u_dot_v. simpl.
  rewrite lookup_insert_eq. simpl. by rewrite lookup_insert_eq.
Qed.

(** In a training step whose model returns one output row per node of the
    positive and of the negative graph, the scores are those of the edges of
    the positive graph followed by those of the edges of the negative graph,
    each the dot product of the output rows of the end points, and the
    labels line up with them: 1 for each positive edge, 0 for each negative
    edge. *)
Theorem minibatch_scores_labels (model : LinkPred.SAGE T)
    (blocks : list Dgl.Block) (pos_graph neg_graph : Dgl.FeatGraph T)
    (inputs outputs : list (list T)) :
  LinkPred.forward model blocks inputs = Py.Ok outputs ->
  length outputs = Dgl.num_nodes (Dgl.structure pos_graph) ->
  length outputs = Dgl.num_nodes (Dgl.structure neg_graph) ->
  let n_pos := Dgl.number_of_edges (Dgl.structure pos_graph) in
  let n_neg := Dgl.number_of_edges (Dgl.structure neg_graph) in
  exists score label,
    LinkPred.minibatch_scores model blocks pos_graph neg_graph inputs
    = Py.Ok (score, label) /\
    length score = n_pos + n_neg /\
    length label = n_pos + n_neg /\
    (forall i, i < n_pos -> label !! i = Some [one]) /\
    (forall i, n_pos <= i < n_pos + n_neg -> label !! i = Some [zero]) /\
    (forall i e, Dgl.edges (Dgl.structure pos_graph) !! i = Some e ->
       score !! i = Some [Torch.dot (outputs !!! e.1) (outputs !!! e.2)]) /\
    (forall i e, Dgl.edges (Dgl.structure neg_graph) !! i = Some e ->
       score !! (n_pos + i)
       = Some [Torch.dot (outputs !!! e.1) (outputs !!! e.2)]).
Proof.
  intros Hfw Hpos Hneg n_pos n_neg.
  unfold LinkPred.minibatch_scores. rewrite Hfw.
  unfold mbind, result_bind, Py.bind.
  rewrite (score_predictor_value _ _ Hpos), (score_predictor_value _ _ Hneg).
  cbn [fst].
  set (f := fun e : nat * nat => [Torch.dot (outputs !!! e.1) (outputs !!! e.2)]).
  eexists _, _. split; [reflexivity|].
  assert (Hlp : length (map f (Dgl.edges (Dgl.structure pos_graph))) = n_pos)
    by apply length_map.
  assert (Hln : length (map f (Dgl.edges (Dgl.structure neg_graph))) = n_neg)
    by apply length_map.
  split; [by rewrite length_app, Hlp, Hln|].
  split; [by rewrite length_app, !length_map|].
  split; [|split; [|split]].
  - intros i Hi. rewrite lookup_app_l by (by rewrite !length_map).
    rewrite !list_lookup_fmap.
    destruct (lookup_lt_is_Some_2 (Dgl.edges (Dgl.structure pos_graph)) i Hi)
      as [e ->].
    done.
  - intros i [Hi1 Hi2]. unfold n_pos, n_neg, Dgl.number_of_edges in Hi1, Hi2.
    rewrite lookup_app_r by (rewrite !length_map; exact Hi1).
    rewrite !length_map, !list_lookup_fmap.
    destruct (lookup_lt_is_Some_2 (Dgl.edges (Dgl.structure neg_graph))
                (i - length (Dgl.edges (Dgl.structure pos_graph))))
      as [e ->]; [lia|].
    done.
  - intros i e Hi.
    rewrite lookup_app_l by (rewrite Hlp; by eapply lookup_lt_Some).
    by rewrite list_lookup_fmap, Hi.
  - intros i e Hi. rewrite lookup_app_r by (rewrite Hlp; lia).
    rewrite Hlp. replace (n_pos + i - n_pos) with i by lia.
    by rewrite list_lookup_fmap, Hi.
Qed.

End Scores.

Lemma minibatch_scores_labels_witness :
  exists score label,
    LinkPred.minibatch_scores (T := Z)
      {| LinkPred.n_layers := 1; LinkPred.n_hidden := 1;
         LinkPred.layers :=
           [ {| Dgl.aggregate := fun h hs => [foldr Z.add 0%Z (h ++ concat hs)] |} ] |}
      [Dgl.as_block {| Dgl.num_nodes := 2; Dgl.edges := [(0, 1)] |}]
      {| Dgl.structure := {| Dgl.num_nodes := 2; Dgl.edges := [(0, 1)] |};
         Dgl.ndata := ∅; Dgl.edata := ∅ |}
      {| Dgl.structure := {| Dgl.num_nodes := 2; Dgl.edges := [(0, 0); (1, 0)] |};
         Dgl.ndata := ∅; Dgl.edata := ∅ |}
      [[2]; [3]]%Z
    = Py.Ok (score, label) /\
    length score = 1 + 2 /\
    length label = 1 + 2 /\
    (forall i, i < 1 -> label !! i = Some [1%Z]) /\
    (forall i, 1 <= i < 1 + 2 -> label !! i = Some [0%Z]) /\
    (forall i e, [(0, 1)] !! i = Some e ->
       score !! i
       = Some [Torch.dot ([[2]; [5]]%Z !!! e.1) ([[2]; [5]]%Z !!! e.2)]) /\
    (forall i e, [(0, 0); (1, 0)] !! i = Some e ->
       score !! (1 + i)
       = Some [Torch.dot ([[2]; [5]]%Z !!! e.1) ([[2]; [5]]%Z !!! e.2)]).
Proof.
  exact (minibatch_scores_labels (T := Z)
    {| LinkPred.n_layers := 1; LinkPred.n_hidden := 1;
       LinkPred.layers :=
         [ {| Dgl.aggregate := fun h hs => [foldr Z.add 0%Z (h ++ concat hs)] |} ] |}
    [Dgl.as_block {| Dgl.num_nodes := 2; Dgl.edges := [(0, 1)] |}]
    {| Dgl.structure := {| Dgl.num_nodes := 2; Dgl.edges := [(0, 1)] |};
       Dgl.ndata := ∅; Dgl.edata := ∅ |}
    {| Dgl.structure := {| Dgl.num_nodes := 2; Dgl.edges := [(0, 0); (1, 0)] |};
       Dgl.ndata := ∅; Dgl.edata := ∅ |}
    [[2]; [3]]%Z [[2]; [5]]%Z eq_refl eq_refl eq_refl).
Defined.

(** *** evaluate and load_data *)

Section Evaluate.
Context {T : Type} `{Scalar T}.
Variable fit_predict : list (list T) -> list Z -> list (list T) -> list Z.

(** [evaluate] raises [TypeError] for every number of arguments other than
    five, and the accuracies it returns are between 0 and 1. *)
Theorem evaluate_arguments_and_range (args : list (LinkPred.ndarray (T := T))) :
  (length args <> 5 ->
   Py.call (LinkPred.evaluate fit_predict) args = Py.Raise Py.TypeError) /\
  (forall valid_acc test_acc,
     Py.call (LinkPred.evaluate fit_predict) args
     = Py.Ok (valid_acc, test_acc) ->
     length args = 5 /\
     (0 <= valid_acc <= 1)%Q /\ (0 <= test_acc <= 1)%Q).
Proof.
  unfold Py.call. simpl.
  destruct (Nat.eqb_spec (length args) 5) as [Hlen|Hlen]; split; try done.
  intros va ta Hcall. split; [done|].
  destruct args as [|[emb| |] [|[|label|] [|[| |tr] [|[| |va'] [|[| |te] [|]]]]]];
    try done.
  unfold LinkPred.evaluate_body, mbind, result_bind, Py.bind in Hcall.
  repeat match type of Hcall with
  | (match ?x with _ => _ end) = _ => destruct x eqn:?; [|done]
  end.
  injection Hcall as <- <-.
  split; by eapply accuracy_score_bounds.
Qed.

End Evaluate.

Lemma evaluate_arguments_and_range_witness :
  Py.call (LinkPred.evaluate (T := Z) (fun _ _ x => map (fun _ => 0%Z) x))
    [LinkPred.Array1 [1%Z]] = Py.Raise Py.TypeError.
Proof.
  apply (proj1 (evaluate_arguments_and_range (T := Z)
           (fun _ _ x => map (fun _ => 0%Z) x) [LinkPred.Array1 [1%Z]])).
  simpl. lia.
Defined.

Lemma labels_max_spec (labels : list Z) (m : Z) :
  MultiGPUSetup.labels_max labels = Py.Ok m ->
  m ∈ labels /\ forall l, l ∈ labels -> (l <= m)%Z.
Proof.
  destruct labels as [|l0 rest]; [done|]. simpl. intros [= <-].
  induction rest as [|l rest [IHin IHle]]; simpl.
  - split; [left|]. intros l Hl. apply list_elem_of_singleton in Hl. lia.
  - split.
    + destruct (Z.max_spec l (foldr Z.max l0 rest)) as [[_ ->]|[_ ->]].
      * apply elem_of_cons in IHin as [->|?]; [left|right; by right].
      * right. left.
    + intros l' Hl'. apply elem_of_cons in Hl' as [->|Hl'].
      * specialize (IHle l0 (list_elem_of_here _ _)). lia.
      * apply elem_of_cons in Hl' as [->|Hl']; [lia|].
        specialize (IHle l' (list_elem_of_further _ _ _ Hl')). lia.
Qed.

Lemma int64_wrap_small (z : Z) :
  (- 2 ^ 63 <= z < 2 ^ 63)%Z -> MultiGPUSetup.int64_wrap z = z.
Proof.
  intros Hz. unfold MultiGPUSetup.int64_wrap.
  rewrite Z.mod_small by lia. lia.
Qed.

(** When [load_data] returns, [num_features] is the second dimension of the
    feature tensor and the data themselves are returned as loaded.  When
    the labels are 64-bit integers below the greatest one, every label is
    below [num_classes] and [num_classes - 1] is one of the labels; when the
    greatest 64-bit integer is a label, the addition wraps around and
    [num_classes] is the least 64-bit integer.  The call raises [IndexError]
    when the feature tensor has fewer than two dimensions, and otherwise
    [RuntimeError] when there are no labels. *)
Theorem load_data_classes {T} (d : MultiGPUSetup.pickled T) :
  (forall r, MultiGPUSetup.load_data d = Py.Ok r ->
     MultiGPUSetup.data r = d /\
     Dist.shape (MultiGPUSetup.node_features d) !! 1
     = Some (MultiGPUSetup.num_features r) /\
     (Forall (fun l => (- 2 ^ 63 <= l < 2 ^ 63 - 1)%Z)
             (MultiGPUSetup.node_labels d) ->
      (forall l, l ∈ MultiGPUSetup.node_labels d ->
         (l < MultiGPUSetup.num_classes r)%Z) /\
      (MultiGPUSetup.num_classes r - 1)%Z ∈ MultiGPUSetup.node_labels d) /\
     (Forall (fun l => (- 2 ^ 63 <= l <= 2 ^ 63 - 1)%Z)
             (MultiGPUSetup.node_labels d) ->
      (2 ^ 63 - 1)%Z ∈ MultiGPUSetup.node_labels d ->
      MultiGPUSetup.num_classes r = (- 2 ^ 63)%Z)) /\
  (length (Dist.shape (MultiGPUSetup.node_features d)) < 2 ->
   MultiGPUSetup.load_data d = Py.Raise Py.IndexError) /\
  (2 <= length (Dist.shape (MultiGPUSetup.node_features d)) ->
   MultiGPUSetup.node_labels d = [] ->
   MultiGPUSetup.load_data d = Py.Raise Py.RuntimeError).
Proof.
  assert (Hidx : forall l : list nat,
            Py.index l 1 = match l !! 1 with
                           | Some x => Py.Ok x
                           | None => Py.Raise Py.IndexError
                           end) by reflexivity.
  unfold MultiGPUSetup.load_data, mbind, result_bind, Py.bind.
  rewrite Hidx. split; [|split].
  - intros r Hr.
    destruct (Dist.shape (MultiGPUSetup.node_features d) !! 1) as [nf|]; [|done].
    destruct (MultiGPUSetup.labels_max (MultiGPUSetup.node_labels d))
      as [m|] eqn:Hm; [|done].
    injection Hr as <-. cbn [MultiGPUSetup.data MultiGPUSetup.num_features
                              MultiGPUSetup.num_classes].
    apply labels_max_spec in Hm as [Hin Hle].
    split; [done|]. split; [done|]. split.
    + intros Hrange. rewrite Forall_forall in Hrange.
      pose proof (Hrange m Hin) as Hmr.
      rewrite int64_wrap_small by lia. split.
      * intros l Hl. specialize (Hle l Hl). lia.
      * by replace (m + 1 - 1)%Z with m by lia.
    + intros Hrange Htop. rewrite Forall_forall in Hrange.
      pose proof (Hrange m Hin) as Hmr. pose proof (Hle _ Htop) as Hmt.
      replace m with (2 ^ 63 - 1)%Z by lia. reflexivity.
  - intros Hdim. by rewrite (proj2 (lookup_ge_None _ _)) by lia.
  - intros Hdim Hnil.
    destruct (lookup_lt_is_Some_2 (Dist.shape (MultiGPUSetup.node_features d)) 1)
      as [nf ->]; [lia|].
    by rewrite Hnil.
Qed.

Lemma load_data_classes_witness :
  let d : MultiGPUSetup.pickled Z :=
    {| MultiGPUSetup.graph := {| Dgl.num_nodes := 2; Dgl.edges := [] |};
       MultiGPUSetup.node_features :=
         {| Dist.shape := [2; 3]; Dist.dtype_of := Dist.float32;
            Dist.data := [1; 2; 3; 4; 5; 6]%Z |};
       MultiGPUSetup.node_labels := [4; 1]%Z;
       MultiGPUSetup.train_nids := [0];
       MultiGPUSetup.valid_nids := [1];
       MultiGPUSetup.test_nids := [] |} in
  let r :=
    {| MultiGPUSetup.data := d; MultiGPUSetup.num_features := 3;
       MultiGPUSetup.num_classes := 5 |} in
  MultiGPUSetup.load_data d = Py.Ok r /\
  (forall l, l ∈ MultiGPUSetup.node_labels d ->
     (l < MultiGPUSetup.num_classes r)%Z) /\
  (MultiGPUSetup.num_classes r - 1)%Z ∈ MultiGPUSetup.node_labels d.
Proof.
  intros d r. split; [reflexivity|].
  apply (proj1 (proj2 (proj2 (proj1 (load_data_classes d) r eq_refl)))).
  repeat constructor; lia.
Defined.

(** *** The cells of the distributed notebook *)

Section CellFacts.
Context {T : Type} `{Scalar T} {G : Type}.
Variable th_rand : list nat -> Dist.dtype -> G -> list T * G.
Variable ogbn_products : Dist.DistGraph T.
Variable accepts : Dist.DistGraph T -> Dist.Tensor T -> bool.
Variable adagrad : Dist.update_rule T.

Let run := DistBasic.run_cell th_rand ogbn_products accepts adagrad.

(** A cell run while the variables [g], [arr] and [emb] are not bound, as
    before the graph is created, raises [NameError], unless it is the
    initialization or the creation of the graph; the creation of the graph
    before the initialization raises as well.  The cell leaves the notebook
    as it is, except that the cell with [def init] has bound [init] before
    it raises.  The cell that creates the embedding raises [NameError]
    whenever [init] is not defined, also when [g] is bound. *)
Theorem cells_need_their_variables (c : DistBasic.cell)
    (st : DistBasic.notebook (T := T) (G := G)) :
  (DistBasic.g st = None -> DistBasic.arr st = None ->
   DistBasic.emb st = None ->
   match c with
   | DistBasic.Initialize => (run c st).1 = Py.Ok tt
   | DistBasic.CreateDistGraph =>
       if DistBasic.initialized st then (run c st).1 = Py.Ok tt
       else run c st = (Py.Raise Py.DGLError, st)
   | DistBasic.CreateArrInit =>
       run c st = (Py.Raise Py.NameError, DistBasic.def_init st)
   | _ => run c st = (Py.Raise Py.NameError, st)
   end) /\
  (DistBasic.init_defined st = false ->
   run DistBasic.CreateEmb st = (Py.Raise Py.NameError, st)).
Proof.
  split.
  - intros Hg Harr Hemb. unfold run.
    destruct c; simpl;
      unfold DistBasic.print_ndata_slice, DistBasic.create_arr,
        DistBasic.the_graph;
      cbn [DistBasic.def_init DistBasic.g];
      rewrite ?Hg, ?Harr, ?Hemb; try done.
    by destruct (DistBasic.initialized st).
  - intros Hinit. unfold run. simpl. rewrite Hinit.
    unfold DistBasic.the_graph.
    destruct (DistBasic.g st) as [o|]; [|done].
    by destruct (DistBasic.graphs st !! o).
Qed.

(** After the assignment [g.ndata['new_data'] = arr] has succeeded, the
    node data of [g] has [arr] under ['new_data'], and the cell that prints
    the node data keys lists ['new_data']. *)
Theorem assigned_node_data_is_read_back
    (st st' : DistBasic.notebook (T := T) (G := G)) :
  run DistBasic.AssignNewData st = (Py.Ok tt, st') ->
  exists o t dg',
    DistBasic.arr st = Some t /\
    DistBasic.the_graph st' = Py.Ok (o, dg') /\
    Dist.dg_ndata dg' !! "new_data" = Some t /\
    exists keys,
      run DistBasic.PrintNdataKeys st'
      = (Py.Ok tt, DistBasic.print (DistBasic.OutKeys keys) st') /\
      "new_data" ∈ keys.
Proof.
  unfold run. simpl. intros Hrun.
  destruct (DistBasic.the_graph st) as [[o dg]|e] eqn:Hg; [|done].
  apply the_graph_Ok in Hg as [Hg Hlk].
  destruct (DistBasic.arr st) as [t|] eqn:Harr; [|done].
  destruct (accepts dg t); [|done]. injection Hrun as <-.
  set (dg' := {| Dist.dg_num_nodes := Dist.dg_num_nodes dg;
                 Dist.dg_num_edges := Dist.dg_num_edges dg;
                 Dist.dg_ndata := <["new_data" := t]> (Dist.dg_ndata dg);
                 Dist.dg_edata := Dist.dg_edata dg |}).
  assert (Hg' : DistBasic.the_graph
            {| DistBasic.initialized := DistBasic.initialized st;
               DistBasic.graphs := <[o := dg']> (DistBasic.graphs st);
               DistBasic.g := DistBasic.g st; DistBasic.arr := Some t;
               DistBasic.emb := DistBasic.emb st;
               DistBasic.init_defined := DistBasic.init_defined st;
               DistBasic.rng := DistBasic.rng st;
               DistBasic.stdout := DistBasic.stdout st |} = Py.Ok (o, dg')).
  { unfold DistBasic.the_graph. simpl. rewrite Hg.
    rewrite list_lookup_insert_eq; [done|]. by eapply lookup_lt_Some. }
  exists o, t, dg'. split; [done|]. split; [exact Hg'|].
  split; [apply lookup_insert_eq|].
  rewrite Hg'. eexists. split; [reflexivity|].
  apply list_elem_of_fmap. exists ("new_data", t). split; [done|].
  apply elem_of_map_to_list. apply lookup_insert_eq.
Qed.

(** After [arr] has been created with the init function, it holds what
    [th.rand] produces for the shape [(number of nodes,)], and [init] is
    defined.  The cell that displays [arr[0:10]] then shows the first ten of
    these entries when the graph has at least ten nodes, and raises
    [IndexError] when it has fewer. *)
Theorem created_arr_is_displayed
    (st st1 : DistBasic.notebook (T := T) (G := G)) :
  run DistBasic.CreateArrInit st = (Py.Ok tt, st1) ->
  exists dg,
    (exists o, DistBasic.the_graph st = Py.Ok (o, dg)) /\
    let n := Dist.dg_num_nodes dg in
    let d := th_rand [n] Dist.float32 (DistBasic.rng st) in
    DistBasic.arr st1
    = Some {| Dist.shape := [n]; Dist.dtype_of := Dist.float32;
              Dist.data := d.1 |} /\
    DistBasic.rng st1 = d.2 /\
    DistBasic.init_defined st1 = true /\
    (10 <= n ->
     run DistBasic.SliceArr st1
     = (Py.Ok tt,
        DistBasic.print
          (DistBasic.OutTensor
             {| Dist.shape := [10]; Dist.dtype_of := Dist.float32;
                Dist.data := take 10 d.1 |}) st1)) /\
    (n < 10 -> run DistBasic.SliceArr st1 = (Py.Raise Py.IndexError, st1)).
Proof.
  unfold run. simpl. unfold DistBasic.create_arr. intros Hrun.
  change (DistBasic.the_graph (DistBasic.def_init st))
    with (DistBasic.the_graph st) in Hrun.
  destruct (DistBasic.the_graph st) as [[o dg]|e] eqn:Hg; [|done].
  simpl in Hrun. unfold DistBasic.init in Hrun.
  destruct (th_rand [Dist.dg_num_nodes dg] Dist.float32 (DistBasic.rng st))
    as [d rng'] eqn:Hd.
  injection Hrun as <-. exists dg. split; [by exists o|].
  cbv zeta. rewrite Hd.
  cbn [DistBasic.arr DistBasic.rng DistBasic.init_defined fst snd].
  split; [done|]. split; [done|]. split; [done|].
  set (t := {| Dist.shape := [Dist.dg_num_nodes dg];
               Dist.dtype_of := Dist.float32; Dist.data := d |}).
  split.
  - intros Hn.
    rewrite (slice_in_range t (Dist.dg_num_nodes dg) []) by (done || lia).
    cbn [Dist.dtype_of Dist.data t Dist.numel foldr].
    change (Z.to_nat (10 - 0)) with 10. change (Z.to_nat 0) with 0.
    by rewrite Nat.mul_1_r.
  - intros Hn.
    by rewrite (slice_out_of_range t (Dist.dg_num_nodes dg) [])
      by (done || lia).
Qed.

End CellFacts.

Lemma index_select_Raise {A} (t : list A) (ids : list nat) :
  Exists (fun i => length t <= i) ids ->
  Torch.index_select t ids = Py.Raise Py.IndexError.
Proof.
  intros Hex. destruct (index_select_cases t ids) as [?|[Hall _]]; [done|].
  apply Exists_exists in Hex as (i & Hi & Hge).
  rewrite Forall_forall in Hall. specialize (Hall i Hi). lia.
Qed.


Section EmbeddingCells.
Context {T : Type} `{Scalar T} {G : Type}.
Variable th_rand : list nat -> Dist.dtype -> G -> list T * G.
Variable ogbn_products : Dist.DistGraph T.
Variable accepts : Dist.DistGraph T -> Dist.Tensor T -> bool.
Variable adagrad : Dist.update_rule T.

Let run := DistBasic.run_cell th_rand ogbn_products accepts adagrad.

(** When the embedding has fewer than four rows, the cells that look up the
    rows [0, 1, 2, 3] raise [IndexError] and leave the notebook, and so the
    embedding, as it is. *)
Theorem embedding_cells_out_of_range
    (st : DistBasic.notebook (T := T) (G := G)) (e : Dist.DistEmbedding T) :
  DistBasic.emb st = Some e ->
  length (Dist.table e) < 4 ->
  run DistBasic.TrainEmb st = (Py.Raise Py.IndexError, st) /\
  run DistBasic.ReadEmb st = (Py.Raise Py.IndexError, st).
Proof.
  intros He Hlen. unfold run. simpl. rewrite He.
  assert (Hsel : Torch.index_select (Dist.table e) [0; 1; 2; 3]
                 = Py.Raise Py.IndexError).
  { apply index_select_Raise.
    apply Exists_cons_tl, Exists_cons_tl, Exists_cons_tl, Exists_cons_hd. lia. }
  unfold DistBasic.train_step, Dist.lookup. rewrite Hsel. done.
Qed.

(** When the embedding has at least four rows and nothing is recorded, the
    training cell prints the rows 0 to 3 as they are before the step, and
    replaces each of them by what the update rule gives for the row and a
    gradient of ones; the cell that reads the embedding then prints the new
    rows and changes nothing. *)
Theorem embedding_cells_update
    (st st' : DistBasic.notebook (T := T) (G := G)) (e : Dist.DistEmbedding T)
    (r : Py.result unit) :
  DistBasic.emb st = Some e ->
  Dist.recorded e = [] ->
  4 <= length (Dist.table e) ->
  run DistBasic.TrainEmb st = (r, st') ->
  r = Py.Ok tt /\
  exists e',
    DistBasic.emb st' = Some e' /\
    DistBasic.stdout st'
    = DistBasic.OutRows (take 4 (Dist.table e)) :: DistBasic.stdout st /\
    (forall i row, i < 4 -> Dist.table e !! i = Some row ->
       Dist.table e' !! i = Some (adagrad row (map (fun _ => one) row))) /\
    run DistBasic.ReadEmb st'
    = (Py.Ok tt, DistBasic.print (DistBasic.OutRows (take 4 (Dist.table e'))) st').
Proof.
  intros He Hrec Hlen. unfold run. simpl. rewrite He.
  destruct e as [n dim tbl rec]. simpl in Hrec, Hlen. subst rec.
  destruct tbl as [|r0 [|r1 [|r2 [|r3 rest]]]]; simpl in Hlen; try lia.
  unfold DistBasic.train_step, Dist.lookup. simpl.
  unfold Dist.sparse_step, Dist.apply_recorded. simpl.
  intros [= <- <-]. split; [done|]. eexists. split; [reflexivity|].
  split; [reflexivity|]. split; [|reflexivity].
  intros i row Hi Hrow.
  destruct i as [|[|[|[|i]]]]; try lia; simpl in Hrow; injection Hrow as <-;
    vm_compute remove_dups; simpl; reflexivity.
Qed.

End EmbeddingCells.

Lemma embedding_cells_out_of_range_witness :
  let st :=
    {| DistBasic.initialized := true; DistBasic.graphs := [];
       DistBasic.g := None; DistBasic.arr := None;
       DistBasic.emb :=
         Some {| Dist.num_embeddings := 2; Dist.embedding_dim := 1;
                 Dist.table := [[1]; [2]]%Z; Dist.recorded := [] |};
       DistBasic.init_defined := true; DistBasic.rng := tt;
       DistBasic.stdout := [] |} in
  let run :=
    DistBasic.run_cell (T := Z) (G := unit)
      (fun shape dt rng => (replicate (Dist.numel shape) 5%Z, rng))
      {| Dist.dg_num_nodes := 2; Dist.dg_num_edges := 0;
         Dist.dg_ndata := ∅; Dist.dg_edata := ∅ |}
      (fun _ _ => true) (zip_with Z.sub) in
  run DistBasic.TrainEmb st = (Py.Raise Py.IndexError, st) /\
  run DistBasic.ReadEmb st = (Py.Raise Py.IndexError, st).
Proof.
  intros st run.
  apply (embedding_cells_out_of_range (T := Z) (G := unit)
           (fun shape dt rng => (replicate (Dist.numel shape) 5%Z, rng))
           {| Dist.dg_num_nodes := 2; Dist.dg_num_edges := 0;
              Dist.dg_ndata := ∅; Dist.dg_edata := ∅ |}
           (fun _ _ => true) (zip_with Z.sub) st
           {| Dist.num_embeddings := 2; Dist.embedding_dim := 1;
              Dist.table := [[1]; [2]]%Z; Dist.recorded := [] |}).
  - reflexivity.
  - simpl. lia.
Defined.

Lemma embedding_cells_update_witness :
  let st :=
    {| DistBasic.initialized := true; DistBasic.graphs := [];
       DistBasic.g := None; DistBasic.arr := None;
       DistBasic.emb :=
         Some {| Dist.num_embeddings := 5; Dist.embedding_dim := 1;
                 Dist.table := [[10]; [20]; [30]; [40]; [50]]%Z;
                 Dist.recorded := [] |};
       DistBasic.init_defined := true; DistBasic.rng := tt;
       DistBasic.stdout := [] |} in
  let run :=
    DistBasic.run_cell (T := Z) (G := unit)
      (fun shape dt rng => (replicate (Dist.numel shape) 5%Z, rng))
      {| Dist.dg_num_nodes := 5; Dist.dg_num_edges := 0;
         Dist.dg_ndata := ∅; Dist.dg_edata := ∅ |}
      (fun _ _ => true) (zip_with Z.sub) in
  (run DistBasic.TrainEmb st).1 = Py.Ok tt /\
  exists e',
    DistBasic.emb (run DistBasic.TrainEmb st).2 = Some e' /\
    Dist.table e' = [[9]; [19]; [29]; [39]; [50]]%Z.
Proof.
  intros st run.
  destruct (embedding_cells_update (T := Z) (G := unit)
              (fun shape dt rng => (replicate (Dist.numel shape) 5%Z, rng))
              {| Dist.dg_num_nodes := 5; Dist.dg_num_edges := 0;
                 Dist.dg_ndata := ∅; Dist.dg_edata := ∅ |}
              (fun _ _ => true) (zip_with Z.sub) st
              (run DistBasic.TrainEmb st).2
              {| Dist.num_embeddings := 5; Dist.embedding_dim := 1;
                 Dist.table := [[10]; [20]; [30]; [40]; [50]]%Z;
                 Dist.recorded := [] |}
              (run DistBasic.TrainEmb st).1 eq_refl eq_refl)
    as (Hr & _); [simpl; lia|reflexivity|].
  split; [exact Hr|]. eexists. split; reflexivity.
Defined.

Section WholeNotebook.
Context {T : Type} `{Scalar T} {G : Type}.
Variable th_rand : list nat -> Dist.dtype -> G -> list T * G.
Variable ogbn_products : Dist.DistGraph T.
Variable accepts : Dist.DistGraph T -> Dist.Tensor T -> bool.
Variable adagrad : Dist.update_rule T.



End WholeNotebook.


Lemma cells_need_their_variables_witness :
  DistBasic.run_cell (T := Z) (G := unit)
    (fun shape dt rng => (replicate (Dist.numel shape) 5%Z, rng))
    {| Dist.dg_num_nodes := 4; Dist.dg_num_edges := 2;
       Dist.dg_ndata := ∅; Dist.dg_edata := ∅ |}
    (fun _ _ => true) (zip_with Z.sub)
    DistBasic.CreateArrInit (DistBasic.fresh tt)
  = (Py.Raise Py.NameError, DistBasic.def_init (DistBasic.fresh tt)).
Proof.
  exact (proj1 (cells_need_their_variables (T := Z) (G := unit)
           (fun shape dt rng => (replicate (Dist.numel shape) 5%Z, rng))
           {| Dist.dg_num_nodes := 4; Dist.dg_num_edges := 2;
              Dist.dg_ndata := ∅; Dist.dg_edata := ∅ |}
           (fun _ _ => true) (zip_with Z.sub)
           DistBasic.CreateArrInit (DistBasic.fresh tt))
           eq_refl eq_refl eq_refl).
Defined.

Lemma assigned_node_data_is_read_back_witness :
  let dg :=
    {| Dist.dg_num_nodes := 3; Dist.dg_num_edges := 2;
       Dist.dg_ndata := (∅ : gmap string (Dist.Tensor Z));
       Dist.dg_edata := ∅ |} in
  let run :=
    DistBasic.run_cell (T := Z) (G := unit)
      (fun shape dt rng => (replicate (Dist.numel shape) 5%Z, rng))
      dg (fun _ _ => true) (fun row grad => row) in
  let st :=
    {| DistBasic.initialized := true;
       DistBasic.graphs := [dg];
       DistBasic.g := Some 0;
       DistBasic.arr :=
         Some {| Dist.shape := [3]; Dist.dtype_of := Dist.float32;
                 Dist.data := [5; 5; 5]%Z |};
       DistBasic.emb := None;
       DistBasic.init_defined := true; DistBasic.rng := tt;
       DistBasic.stdout := [] |} in
  let st' := (run DistBasic.AssignNewData st).2 in
  exists o t dg',
    DistBasic.arr st = Some t /\
    DistBasic.the_graph st' = Py.Ok (o, dg') /\
    Dist.dg_ndata dg' !! "new_data" = Some t /\
    exists keys,
      run DistBasic.PrintNdataKeys st'
      = (Py.Ok tt, DistBasic.print (DistBasic.OutKeys keys) st') /\
      "new_data" ∈ keys.
Proof.
  intros dg run st st'.
  exact (assigned_node_data_is_read_back (T := Z) (G := unit)
           (fun shape dt rng => (replicate (Dist.numel shape) 5%Z, rng))
           dg (fun _ _ => true) (fun row grad => row) st st' eq_refl).
Defined.

Lemma created_arr_is_displayed_witness :
  let dg0 :=
    {| Dist.dg_num_nodes := 12; Dist.dg_num_edges := 2;
       Dist.dg_ndata := (∅ : gmap string (Dist.Tensor Z));
       Dist.dg_edata := ∅ |} in
  let run :=
    DistBasic.run_cell (T := Z) (G := unit)
      (fun shape dt rng => (map Z.of_nat (seq 0 (Dist.numel shape)), rng))
      dg0 (fun _ _ => true) (fun row grad => row) in
  let st :=
    {| DistBasic.initialized := true;
       DistBasic.graphs := [dg0];
       DistBasic.g := Some 0; DistBasic.arr := None;
       DistBasic.emb := None;
       DistBasic.init_defined := false; DistBasic.rng := tt;
       DistBasic.stdout := [] |} in
  let st1 := (run DistBasic.CreateArrInit st).2 in
  DistBasic.init_defined st1 = true /\
  run DistBasic.SliceArr st1
  = (Py.Ok tt,
     DistBasic.print
       (DistBasic.OutTensor
          {| Dist.shape := [10]; Dist.dtype_of := Dist.float32;
             Dist.data := [0; 1; 2; 3; 4; 5; 6; 7; 8; 9]%Z |}) st1).
Proof.
  intros dg0 run st st1.
  destruct (created_arr_is_displayed (T := Z) (G := unit)
              (fun shape dt rng => (map Z.of_nat (seq 0 (Dist.numel shape)), rng))
              dg0 (fun _ _ => true) (fun row grad => row) st st1 eq_refl)
    as (dg & (o & Hg) & _ & _ & Hinit & Hten & _).
  injection Hg as _ <-. split; [exact Hinit|]. apply Hten. simpl. lia.
Defined.

(** *** MultiLayerNeighborSampler: the fanout that is used *)

(** The sampler has one layer per fanout.  [sample_frontier] has no result,
    because [fanouts[block_id]] raises [IndexError], for a block ID that is
    not below the number of fanouts or is below its negation; a negative
    block ID in range counts from the end of the fanouts. *)
Theorem sample_frontier_block_id (fanouts : list Z) (block_id : Z)
    (g : Dgl.Graph) (seeds : list nat) (frontier : Dgl.Graph) :
  let self := MultiGPU.MultiLayerNeighborSampler_init fanouts in
  let n := Z.of_nat (length fanouts) in
  MultiGPU.num_layers self = length fanouts /\
  ((n <= block_id)%Z \/ (block_id < - n)%Z ->
   ~ MultiGPU.sample_frontier self block_id g seeds frontier) /\
  ((- n <= block_id < 0)%Z ->
   (MultiGPU.sample_frontier self block_id g seeds frontier <->
    MultiGPU.sample_frontier self (block_id + n) g seeds frontier)).
Proof.
  intros self n. split; [done|].
  assert (Hidx : forall i, (0 <= i)%Z ->
            Py.index fanouts i = match fanouts !! Z.to_nat i with
                                 | Some x => Py.Ok x
                                 | None => Py.Raise Py.IndexError
                                 end).
  { intros i Hi. unfold Py.index.
    destruct (Z.ltb_spec i 0) as [?|_]; [lia|].
    by destruct (Z.ltb_spec i 0) as [?|_]; [lia|]. }
  split.
  - intros Hout (fanout & Hf & _). simpl in Hf.
    destruct Hout as [Hge|Hlt].
    + rewrite Hidx in Hf by lia.
      by rewrite (proj2 (lookup_ge_None _ _)) in Hf by lia.
    + unfold Py.index in Hf. fold n in Hf.
      destruct (Z.ltb_spec block_id 0) as [_|?]; [|lia].
      by destruct (Z.ltb_spec (block_id + n) 0) as [_|?]; [|lia].
  - intros Hneg.
    assert (Heq : Py.index fanouts block_id = Py.index fanouts (block_id + n)).
    { rewrite (Hidx (block_id + n)%Z) by lia. unfold Py.index. fold n.
      destruct (Z.ltb_spec block_id 0) as [_|?]; [|lia].
      by destruct (Z.ltb_spec (block_id + n) 0) as [?|_]; [lia|]. }
    unfold MultiGPU.sample_frontier. simpl. by rewrite Heq.
Qed.

Lemma sample_frontier_block_id_witness :
  ~ MultiGPU.sample_frontier (MultiGPU.MultiLayerNeighborSampler_init [4; 4; 4]%Z)
      3 {| Dgl.num_nodes := 1; Dgl.edges := [] |} [0]
      {| Dgl.num_nodes := 1; Dgl.edges := [] |}.
Proof.
  apply (proj1 (proj2 (sample_frontier_block_id [4; 4; 4]%Z 3
           {| Dgl.num_nodes := 1; Dgl.edges := [] |} [0]
           {| Dgl.num_nodes := 1; Dgl.edges := [] |}))).
  left. simpl. lia.
Defined.

Lemma train_best_accuracy_bounds_witness :
  let s :=
    (MultiGPU.train (M := nat)
       (fun rank epoch m => S m) (fun epoch nids => nids)
       (fun epoch m nodes =>
          map (fun v => if v <? epoch then ([0; 1; 1; 0]%Z !!! v) else 2%Z) nodes)
       0 1 {| Dgl.num_nodes := 4; Dgl.edges := [] |} [0; 1; 1; 0]%Z
       [0; 1; 2; 3] [0; 1; 2; 3] 0).2 in
  (0 <= Run.best_accuracy s <= 1)%Q /\
  Forall (fun p => (0 <= p.2 <= Run.best_accuracy s)%Q)
         (Log.printed (Run.trace s)).
Proof.
  intros s.
  apply (train_best_accuracy_bounds (M := nat)
           (fun rank epoch m => S m) (fun epoch nids => nids)
           (fun epoch m nodes =>
              map (fun v => if v <? epoch then ([0; 1; 1; 0]%Z !!! v) else 2%Z)
                  nodes)
           0 1 {| Dgl.num_nodes := 4; Dgl.edges := [] |} [0; 1; 1; 0]%Z
           [0; 1; 2; 3] [0; 1; 2; 3] 0 (Py.Ok tt) s).
  vm_compute. reflexivity.
Defined.
